(** * Algomirror: exit-order duplicate prevention and Supertrend exit monitoring

    A shallow embedding of
    - [app/utils/exit_order_manager.py]  (claims, broker verification, marks),
    - [app/utils/supertrend.py]          (final bands and direction),
    - [app/utils/supertrend_exit_service.py] (scheduler tick and the
      sequential exit),
    followed by the properties of the exit lifecycle stated over it.

    Conventions of the embedding.
    - Instants ([datetime]) are integers counting microseconds; a
      [timedelta(seconds=s)] is [s * 1000000].
    - A nullable column is an [option]; SQL comparisons on NULL select no row.
    - A table is the list of its rows in primary-key order, so that the order
      in which a query returns rows is the order of the list.
    - Python truthiness of a nullable string is [truthy]: neither [None] nor
      the empty string. *)

From Stdlib Require Import ZArith List String Ascii Bool Lia QArith DecimalString.
From stdpp Require Import base option list strings gmap.
Import ListNotations.

Local Open Scope string_scope.
Local Open Scope Z_scope.

(** ** Strings as Python uses them *)

Definition char_upper (c : ascii) : ascii :=
  let n := nat_of_ascii c in
  if ((97 <=? n)%nat && (n <=? 122)%nat)%bool then ascii_of_nat (n - 32) else c.

Definition char_lower (c : ascii) : ascii :=
  let n := nat_of_ascii c in
  if ((65 <=? n)%nat && (n <=? 90)%nat)%bool then ascii_of_nat (n + 32) else c.

Fixpoint str_map (f : ascii -> ascii) (s : string) : string :=
  match s with
  | EmptyString => EmptyString
  | String c r => String (f c) (str_map f r)
  end.

(** [s.upper()] and [s.lower()] *)
Definition upper (s : string) : string := str_map char_upper s.
Definition lower (s : string) : string := str_map char_lower s.

(** [needle in s] *)
Fixpoint str_contains (needle s : string) : bool :=
  String.prefix needle s ||
  match s with
  | EmptyString => false
  | String _ r => str_contains needle r
  end.

(** A string is held as the bytes of its UTF-8 encoding.  A character is a
    leading byte followed by its continuation bytes ([10xxxxxx]). *)
Definition is_continuation_byte (c : ascii) : bool :=
  let n := nat_of_ascii c in ((128 <=? n)%nat && (n <? 192)%nat)%bool.

(** [len(s)]: the number of characters *)
Fixpoint code_points (s : string) : nat :=
  match s with
  | EmptyString => O
  | String c r =>
      if is_continuation_byte c then code_points r else S (code_points r)
  end.

(** [s[:n]]: the first [n] characters, each with all its bytes *)
Fixpoint str_take (n : nat) (s : string) : string :=
  match s with
  | EmptyString => EmptyString
  | String c r =>
      if is_continuation_byte c then String c (str_take n r)
      else match n with
           | O => EmptyString
           | S m => String c (str_take m r)
           end
  end.

(** [str(z)] for an integer *)
Definition str_of_Z (z : Z) : string := NilZero.string_of_int (Z.to_int z).

(** [bool(s)] for a nullable string *)
Definition truthy (o : option string) : bool :=
  match o with
  | Some s => negb (s =? "")%string
  | None => false
  end.

(** [a or b] on nullable strings *)
Definition str_or (a b : option string) : option string :=
  if truthy a then a else b.

(** ** The persisted entities (app.models) *)

Record StrategyLeg := mkLeg {
  leg_id_pk : Z;
  leg_number : Z;
  instrument : string;
  action : string;           (* 'BUY' / 'SELL' *)
  lots : option Z
}.

Record TradingAccount := mkAccount {
  account_pk : Z;
  account_name : string;
  account_is_active : bool;
  api_key : string;
  host_url : string
}.

Record StrategyExecution := mkExecution {
  ex_id : Z;
  strategy_id : Z;
  leg : option StrategyLeg;            (* relationship [execution.leg] *)
  account : option TradingAccount;     (* relationship [execution.account] *)
  symbol : string;
  exchange : string;
  quantity : Z;
  product : option string;
  status : string;                     (* 'entered' / 'exit_pending' / 'exited' *)
  exit_order_id : option string;
  exit_reason : option string;
  exit_pending_since : option Z;
  exit_attempt_count : option Z;
  exit_retry_after : option Z;
  exit_broker_verified : bool;
  broker_order_status : option string;
  exit_time : option Z;
  error_message : option string
}.

(** Attribute assignments [execution.f = v], one per mutated column. *)

Definition set_status (v : string) (e : StrategyExecution) : StrategyExecution :=
  mkExecution (ex_id e) (strategy_id e) (leg e) (account e) (symbol e) (exchange e)
    (quantity e) (product e) v (exit_order_id e) (exit_reason e)
    (exit_pending_since e) (exit_attempt_count e) (exit_retry_after e)
    (exit_broker_verified e) (broker_order_status e) (exit_time e) (error_message e).

Definition set_exit_order_id (v : option string) (e : StrategyExecution) : StrategyExecution :=
  mkExecution (ex_id e) (strategy_id e) (leg e) (account e) (symbol e) (exchange e)
    (quantity e) (product e) (status e) v (exit_reason e)
    (exit_pending_since e) (exit_attempt_count e) (exit_retry_after e)
    (exit_broker_verified e) (broker_order_status e) (exit_time e) (error_message e).

Definition set_exit_reason (v : option string) (e : StrategyExecution) : StrategyExecution :=
  mkExecution (ex_id e) (strategy_id e) (leg e) (account e) (symbol e) (exchange e)
    (quantity e) (product e) (status e) (exit_order_id e) v
    (exit_pending_since e) (exit_attempt_count e) (exit_retry_after e)
    (exit_broker_verified e) (broker_order_status e) (exit_time e) (error_message e).

Definition set_exit_pending_since (v : option Z) (e : StrategyExecution) : StrategyExecution :=
  mkExecution (ex_id e) (strategy_id e) (leg e) (account e) (symbol e) (exchange e)
    (quantity e) (product e) (status e) (exit_order_id e) (exit_reason e)
    v (exit_attempt_count e) (exit_retry_after e)
    (exit_broker_verified e) (broker_order_status e) (exit_time e) (error_message e).

Definition set_exit_attempt_count (v : option Z) (e : StrategyExecution) : StrategyExecution :=
  mkExecution (ex_id e) (strategy_id e) (leg e) (account e) (symbol e) (exchange e)
    (quantity e) (product e) (status e) (exit_order_id e) (exit_reason e)
    (exit_pending_since e) v (exit_retry_after e)
    (exit_broker_verified e) (broker_order_status e) (exit_time e) (error_message e).

Definition set_exit_retry_after (v : option Z) (e : StrategyExecution) : StrategyExecution :=
  mkExecution (ex_id e) (strategy_id e) (leg e) (account e) (symbol e) (exchange e)
    (quantity e) (product e) (status e) (exit_order_id e) (exit_reason e)
    (exit_pending_since e) (exit_attempt_count e) v
    (exit_broker_verified e) (broker_order_status e) (exit_time e) (error_message e).

Definition set_exit_broker_verified (v : bool) (e : StrategyExecution) : StrategyExecution :=
  mkExecution (ex_id e) (strategy_id e) (leg e) (account e) (symbol e) (exchange e)
    (quantity e) (product e) (status e) (exit_order_id e) (exit_reason e)
    (exit_pending_since e) (exit_attempt_count e) (exit_retry_after e)
    v (broker_order_status e) (exit_time e) (error_message e).

Definition set_broker_order_status (v : option string) (e : StrategyExecution) : StrategyExecution :=
  mkExecution (ex_id e) (strategy_id e) (leg e) (account e) (symbol e) (exchange e)
    (quantity e) (product e) (status e) (exit_order_id e) (exit_reason e)
    (exit_pending_since e) (exit_attempt_count e) (exit_retry_after e)
    (exit_broker_verified e) v (exit_time e) (error_message e).

Definition set_exit_time (v : option Z) (e : StrategyExecution) : StrategyExecution :=
  mkExecution (ex_id e) (strategy_id e) (leg e) (account e) (symbol e) (exchange e)
    (quantity e) (product e) (status e) (exit_order_id e) (exit_reason e)
    (exit_pending_since e) (exit_attempt_count e) (exit_retry_after e)
    (exit_broker_verified e) (broker_order_status e) v (error_message e).

Definition set_error_message (v : option string) (e : StrategyExecution) : StrategyExecution :=
  mkExecution (ex_id e) (strategy_id e) (leg e) (account e) (symbol e) (exchange e)
    (quantity e) (product e) (status e) (exit_order_id e) (exit_reason e)
    (exit_pending_since e) (exit_attempt_count e) (exit_retry_after e)
    (exit_broker_verified e) (broker_order_status e) (exit_time e) v.

(** The [strategy_execution] table. *)
Definition ExecutionTable := list StrategyExecution.

(** Primary key: no two rows share an id. *)
Definition pk_unique (tbl : ExecutionTable) : Prop := NoDup (map ex_id tbl).

(** ** exit_order_manager.py: configuration *)

Definition EXIT_RETRY_DELAY_SECONDS : Z := 10.
Definition MAX_EXIT_ATTEMPTS : Z := 5.

Definition timedelta_seconds (s : Z) : Z := s * 1000000.

(** ** SQL pieces used by the conditional updates *)

(** [col IS NULL] *)
Definition is_null {A} (c : option A) : bool :=
  match c with None => true | Some _ => false end.

(** [col <= v]: NULL compares to nothing *)
Definition sql_le (c : option Z) (v : Z) : bool :=
  match c with Some x => x <=? v | None => false end.

(** [col < v] *)
Definition sql_lt (c : option Z) (v : Z) : bool :=
  match c with Some x => x <? v | None => false end.

(** [func.coalesce(col, d)] *)
Definition coalesce (c : option Z) (d : Z) : Z :=
  match c with Some x => x | None => d end.

(** [session.execute(update(T).where(w).values(v))]: every row selected by
    [w] is rewritten by [v]; [rowcount] is the number of rows selected. *)
Definition sa_update (w : StrategyExecution -> bool)
    (v : StrategyExecution -> StrategyExecution)
    (tbl : ExecutionTable) : nat * ExecutionTable :=
  (length (List.filter w tbl), map (fun r => if w r then v r else r) tbl).

(** What the session does with the statement: it executes and commits, or it
    raises (a locked database, a lost connection), in which case the [except]
    branch rolls back. *)
Inductive DbOutcome := Executed | Raised.

(** ** exit_order_manager.py: the two atomic claims *)

Definition claim_where (execution_id : Z) (r : StrategyExecution) : bool :=
  (ex_id r =? execution_id) && (status r =? "entered")%string && is_null (exit_order_id r).

Definition claim_values (exit_reason_ : string) (now : Z) (r : StrategyExecution)
  : StrategyExecution :=
  set_exit_retry_after (Some (now + timedelta_seconds EXIT_RETRY_DELAY_SECONDS))
   (set_exit_attempt_count (Some (coalesce (exit_attempt_count r) 0 + 1))
     (set_exit_pending_since (Some now)
       (set_exit_reason (Some exit_reason_)
         (set_status "exit_pending" r)))).

Definition atomic_claim_exit (session : DbOutcome) (now : Z) (tbl : ExecutionTable)
    (execution_id : Z) (exit_reason_ : string) : bool * ExecutionTable :=
  match session with
  | Raised => (false, tbl)
  | Executed =>
      let '(rowcount, tbl') :=
        sa_update (claim_where execution_id) (claim_values exit_reason_ now) tbl in
      ((0 <? rowcount)%nat, tbl')
  end.

Definition retry_where (execution_id now : Z) (r : StrategyExecution) : bool :=
  (ex_id r =? execution_id) && (status r =? "exit_pending")%string
  && is_null (exit_order_id r)
  && sql_le (exit_retry_after r) now
  && sql_lt (exit_attempt_count r) MAX_EXIT_ATTEMPTS.

Definition retry_values (exit_reason_ : string) (now : Z) (r : StrategyExecution)
  : StrategyExecution :=
  set_exit_reason (Some exit_reason_)
   (set_exit_retry_after (Some (now + timedelta_seconds EXIT_RETRY_DELAY_SECONDS))
     (set_exit_attempt_count (Some (coalesce (exit_attempt_count r) 0 + 1)) r)).

Definition atomic_claim_exit_retry (session : DbOutcome) (now : Z) (tbl : ExecutionTable)
    (execution_id : Z) (exit_reason_ : string) : bool * ExecutionTable :=
  match session with
  | Raised => (false, tbl)
  | Executed =>
      let '(rowcount, tbl') :=
        sa_update (retry_where execution_id now) (retry_values exit_reason_ now) tbl in
      ((0 <? rowcount)%nat, tbl')
  end.

(** ** exit_order_manager.py: the marks (attribute writes, then commit) *)

Definition mark_exit_pending (now : Z) (execution : StrategyExecution)
    (exit_reason_ : string) (increment_attempt : bool) : StrategyExecution :=
  let e1 := set_exit_reason (Some exit_reason_) (set_status "exit_pending" execution) in
  let e2 := if is_null (exit_pending_since e1)
            then set_exit_pending_since (Some now) e1 else e1 in
  let e3 := if increment_attempt
            then set_exit_attempt_count (Some (coalesce (exit_attempt_count e2) 0 + 1)) e2
            else e2 in
  set_exit_retry_after (Some (now + timedelta_seconds EXIT_RETRY_DELAY_SECONDS)) e3.

Definition mark_exit_success (now : Z) (execution : StrategyExecution)
    (order_id : option string) : StrategyExecution :=
  set_exit_broker_verified false
   (set_exit_time (Some now)
     (set_broker_order_status (Some "open")
       (set_exit_order_id order_id execution))).

Definition mark_exit_failed (now : Z) (execution : StrategyExecution)
    (error_message_ : option string) (needs_broker_verification : bool)
  : StrategyExecution :=
  let e1 := set_status "exit_pending" execution in
  let e2 := set_error_message
              (if truthy error_message_
               then option_map (str_take 500) error_message_ else None) e1 in
  let e3 := set_exit_retry_after
              (Some (now + timedelta_seconds EXIT_RETRY_DELAY_SECONDS)) e2 in
  set_exit_broker_verified (negb needs_broker_verification) e3.

Definition mark_exit_confirmed (now : Z) (execution : StrategyExecution)
    (broker_status : string) (order_id : option string) : StrategyExecution :=
  let e1 := set_broker_order_status (Some broker_status) (set_status "exited" execution) in
  let e2 := if truthy order_id then set_exit_order_id order_id e1 else e1 in
  let e3 := if is_null (exit_time e2) then set_exit_time (Some now) e2 else e2 in
  set_exit_broker_verified true e3.

(** [get_pending_exit_retries(strategy_id)] *)
Definition get_pending_exit_retries (now : Z) (tbl : ExecutionTable) (sid : Z)
  : list StrategyExecution :=
  List.filter (fun r =>
      (strategy_id r =? sid) && (status r =? "exit_pending")%string
      && is_null (exit_order_id r)
      && sql_le (exit_retry_after r) now
      && sql_lt (exit_attempt_count r) MAX_EXIT_ATTEMPTS) tbl.

(** ** The broker as the client sees it

    A book query either raises or returns a dict with a ['status'] and a
    ['data'] list.  [ExtendedOpenAlgoAPI._make_request] turns every transport
    fault (timeout, connection refused, HTTP error) into a returned dict
    [{'status': 'error', ...}], so a transport failure normally arrives
    in-band. *)

Inductive Reply (Row : Type) :=
| Raises (err : string)
| Returns (status_ : option string) (data : list Row).
Arguments Raises {Row} err.
Arguments Returns {Row} status_ data.

(** A numeric dict entry read through [int(d.get(key, default))]. *)
Inductive IntField :=
| IntAbsent
| IntOk (z : Z)
| IntErr (err : string).      (* [int()] raises with this message *)

Record PositionRow := mkPositionRow {
  pos_symbol : option string;
  pos_quantity : IntField
}.

Record OrderRow := mkOrderRow {
  o_symbol : option string;
  o_transaction_type : option string;
  o_transactiontype : option string;
  o_order_status : option string;
  o_status : option string;
  o_orderid : option string;
  o_order_id : option string
}.

Record TradeRow := mkTradeRow {
  t_symbol : option string;
  t_transaction_type : option string;
  t_transactiontype : option string;
  t_orderid : option string;
  t_order_id : option string;
  t_quantity : IntField;
  t_filled_quantity : IntField
}.

(** [d.get(k1, d.get(k2, default))] on strings *)
Definition get2 (k1 k2 : option string) (default : string) : string :=
  match k1 with
  | Some v => v
  | None => match k2 with Some v => v | None => default end
  end.

(** [int(f)] with [f] defaulting to [default] when the key is absent *)
Definition py_int (f : IntField) (default : Z) : string + Z :=
  match f with
  | IntAbsent => inr default
  | IntOk z => inr z
  | IntErr e => inl e
  end.

Record ExtendedOpenAlgoAPI := mkClient {
  client_api_key : string;
  client_host : string
}.

(** An order as handed to [place_order_with_freeze_check]. *)
Record OrderRequest := mkOrderRequest {
  req_client : ExtendedOpenAlgoAPI;
  req_user_id : Z;
  req_strategy : string;
  req_symbol : string;
  req_exchange : string;
  req_action : string;
  req_quantity : Z;
  req_price_type : string;
  req_product : string
}.

(** The dict a placement returns: the keys the service reads, and whether the
    dict holds any other key (an empty dict is falsy). *)
Record OrderResponse := mkOrderResponse {
  resp_status : option string;
  resp_orderid : option string;
  resp_message : option string;
  resp_other_keys : bool
}.

Inductive PlaceReply :=
| PlaceRaises (err : string)
| PlaceReturns (response : option OrderResponse).

(** One bar of the combined spread series. *)
Definition float := option Q.          (* [None] is NaN *)

Record Bar := mkBar { bar_high : float; bar_low : float; bar_close : float }.

Record Strategy := mkStrategy {
  s_id : Z;
  s_name : string;
  user_id : Z;
  is_active : bool;
  product_order_type : option string;
  supertrend_exit_enabled : option bool;
  supertrend_exit_type : option string;
  supertrend_period : Z;
  supertrend_multiplier : Q;
  supertrend_timeframe : option string;
  supertrend_exit_triggered : option bool;
  supertrend_exit_reason : option string;
  supertrend_exit_triggered_at : option Z
}.

(** Everything outside the process.  The [nat] argument is the number of
    interactions with the outside made so far (the [tick] of the world), so
    that answers may change over time; the book queries of one verification
    are asked at the same tick, each of its own function.
    - [place_order_with_freeze_check] lives in
      [app/utils/freeze_quantity_handler.py], and [talib] is the TA-Lib
      binding; both are outside this development and taken as given.
    - [fetch_combined_spread_data] is the data source of the signal (broker
      history joined with pandas); only its result is needed here. *)
Record Env := mkEnv {
  utc_clock : nat -> Z;
  db_session : nat -> DbOutcome;
  positionbook : ExtendedOpenAlgoAPI -> nat -> Reply PositionRow;
  orderbook : ExtendedOpenAlgoAPI -> nat -> Reply OrderRow;
  tradebook : ExtendedOpenAlgoAPI -> nat -> Reply TradeRow;
  place_order_with_freeze_check : OrderRequest -> nat -> PlaceReply;
  fetch_combined_spread_data : Strategy -> gset Z -> nat -> option (list Bar);
  talib_MEDPRICE : list float -> list float -> option (list float);
  talib_ATR : list float -> list float -> list float -> Z -> option (list float);
  format_2f : float -> string
}.

(** ** exit_order_manager.py: broker verification *)

Record VerifyResult := mkVerify {
  has_exit_order : bool;
  order_status : option string;
  order_id : option string;
  position_quantity : Z;
  can_place_exit : bool;
  message : string
}.

(** The [for pos in positions] loop: the quantity of the first row for the
    symbol, if any. *)
Fixpoint scan_positions (sym : string) (positions : list PositionRow)
  : string + option Z :=
  match positions with
  | [] => inr None
  | pos :: rest =>
      if bool_decide (pos_symbol pos = Some sym) then
        match py_int (pos_quantity pos) 0 with
        | inl e => inl e
        | inr q => inr (Some (Z.abs q))
        end
      else scan_positions sym rest
  end.

Definition entry_action_of (execution : StrategyExecution) : string :=
  match leg execution with
  | Some l => upper (action l)
  | None => "BUY"
  end.

Definition exit_action_of (execution : StrategyExecution) : string :=
  if (entry_action_of execution =? "BUY")%string then "SELL" else "BUY".

Definition str_in (s : string) (l : list string) : bool :=
  existsb (String.eqb s) l.

(** The [for order in orders] loop: the result for the first order on the
    symbol with the exit action, if any. *)
Fixpoint scan_orders (sym exit_action : string) (position_quantity_ : Z)
    (orders : list OrderRow) : option VerifyResult :=
  match orders with
  | [] => None
  | order :: rest =>
      let order_symbol := default "" (o_symbol order) in
      let order_action := upper (get2 (o_transaction_type order) (o_transactiontype order) "") in
      let order_status_ := lower (get2 (o_order_status order) (o_status order) "") in
      let order_id_ := get2 (o_orderid order) (o_order_id order) "" in
      if (order_symbol =? sym)%string && (order_action =? exit_action)%string then
        Some (
          if (order_status_ =? "complete")%string then
            mkVerify true (Some order_status_) (Some order_id_) position_quantity_ false
              ("Exit order " ++ order_id_ ++ " already completed")
          else if str_in order_status_ ["open"; "pending"; "trigger_pending"] then
            mkVerify true (Some order_status_) (Some order_id_) position_quantity_ false
              ("Exit order " ++ order_id_ ++ " is " ++ order_status_)
          else if str_in order_status_ ["cancelled"; "rejected"] then
            mkVerify true (Some order_status_) (Some order_id_) position_quantity_ true
              ("Previous exit order " ++ order_id_ ++ " was " ++ order_status_)
          else
            mkVerify true (Some order_status_) (Some order_id_) position_quantity_ false
              ("Exit order " ++ order_id_ ++ " has status: " ++ order_status_))
      else scan_orders sym exit_action position_quantity_ rest
  end.

(** The [for trade in trades] loop. *)
Fixpoint scan_trades (sym exit_action : string) (expected position_quantity_ : Z)
    (trades : list TradeRow) : string + option VerifyResult :=
  match trades with
  | [] => inr None
  | trade :: rest =>
      let trade_symbol := default "" (t_symbol trade) in
      let trade_action := upper (get2 (t_transaction_type trade) (t_transactiontype trade) "") in
      let trade_id := get2 (t_orderid trade) (t_order_id trade) "" in
      if (trade_symbol =? sym)%string && (trade_action =? exit_action)%string then
        let field := match t_quantity trade with
                     | IntAbsent => t_filled_quantity trade
                     | f => f
                     end in
        match py_int field 0 with
        | inl e => inl e
        | inr q =>
            if expected <=? Z.abs q then
              inr (Some (mkVerify true (Some "complete") (Some trade_id)
                           position_quantity_ false
                           ("Exit trade " ++ trade_id ++ " found in tradebook")))
            else scan_trades sym exit_action expected position_quantity_ rest
        end
      else scan_trades sym exit_action expected position_quantity_ rest
  end.

(** The [except Exception as e] branch: the result as far as it was filled,
    with the error message and [can_place_exit = False]. *)
Definition verification_error (position_quantity_ : Z) (e : string) : VerifyResult :=
  mkVerify false None None position_quantity_ false ("Verification error: " ++ e).

Definition is_success (st : option string) : bool :=
  bool_decide (st = Some "success").

Definition verify_exit_order_at_broker (env : Env) (t : nat)
    (client : ExtendedOpenAlgoAPI) (execution : StrategyExecution)
    (strategy_name : string) : VerifyResult :=
  let sym := symbol execution in
  (* 1. positionbook *)
  match positionbook env client t with
  | Raises e => verification_error 0 e
  | Returns st positions =>
    match (if is_success st then scan_positions sym positions else inr None) with
    | inl e => verification_error 0 e
    | inr found =>
      let q := default 0 found in
      if q =? 0 then
        mkVerify true (Some "complete") None q false
          "Position already closed at broker (quantity=0)"
      else
      (* 2. orderbook *)
      match orderbook env client t with
      | Raises e => verification_error q e
      | Returns st2 orders =>
        match (if is_success st2
               then scan_orders sym (exit_action_of execution) q orders
               else None) with
        | Some r => r
        | None =>
          (* 3. tradebook *)
          match tradebook env client t with
          | Raises e => verification_error q e
          | Returns st3 trades =>
            match (if is_success st3
                   then scan_trades sym (exit_action_of execution)
                          (quantity execution) q trades
                   else inr None) with
            | inl e => verification_error q e
            | inr (Some r) => r
            | inr None =>
                mkVerify false None None q true
                  ("No exit order found for " ++ sym ++ ", position quantity="
                   ++ str_of_Z q)
            end
          end
        end
      end
    end
  end.

(** ** supertrend.py *)

Definition NaN : float := None.

(** Float arithmetic and comparisons; any comparison with NaN is false. *)
Definition f_add (a b : float) : float :=
  match a, b with Some x, Some y => Some (x + y)%Q | _, _ => None end.
Definition f_sub (a b : float) : float :=
  match a, b with Some x, Some y => Some (x - y)%Q | _, _ => None end.
Definition f_mul (a b : float) : float :=
  match a, b with Some x, Some y => Some (x * y)%Q | _, _ => None end.
Definition Qltb (x y : Q) : bool := negb (Qle_bool y x).
Definition f_gt (a b : float) : bool :=
  match a, b with Some x, Some y => Qltb y x | _, _ => false end.
Definition f_lt (a b : float) : bool :=
  match a, b with Some x, Some y => Qltb x y | _, _ => false end.

(** [arr[i]] *)
Definition at_ {A} (d : A) (arr : list A) (i : nat) : A := default d (arr !! i).

Definition zip_with_float (f : float -> float -> float) (a b : list float)
  : list float := zip_with f a b.

(** [get_basic_bands(med_price, atr, multiplier)] *)
Definition get_basic_bands (med_price atr : list float) (multiplier : Q)
  : list float * list float :=
  let matr := map (f_mul (Some multiplier)) atr in
  (zip_with_float f_add med_price matr, zip_with_float f_sub med_price matr).

(** The arrays [get_final_bands_nb] works on; [upper] and [lower] are the
    caller's arrays, written in place. *)
Record Bands := mkBands {
  upper_ : list float;
  lower_ : list float;
  trend_ : list float;
  dir_ : list Z;
  long_ : list float;
  short_ : list float
}.

(** The body of [for i in range(1, close.shape[0])]. *)
Definition final_bands_step (close : list float) (b : Bands) (i : nat) : Bands :=
  let up := upper_ b in
  let lo := lower_ b in
  let d := dir_ b in
  let '(d, lo, up) :=
    if f_gt (at_ NaN close i) (at_ NaN up (i - 1)) then (<[i := 1]> d, lo, up)
    else if f_lt (at_ NaN close i) (at_ NaN lo (i - 1)) then (<[i := -1]> d, lo, up)
    else
      let d := <[i := at_ 0 d (i - 1)]> d in
      let lo := if (0 <? at_ 0 d i) && f_lt (at_ NaN lo i) (at_ NaN lo (i - 1))
                then <[i := at_ NaN lo (i - 1)]> lo else lo in
      let up := if (at_ 0 d i <? 0) && f_gt (at_ NaN up i) (at_ NaN up (i - 1))
                then <[i := at_ NaN up (i - 1)]> up else up in
      (d, lo, up) in
  if 0 <? at_ 0 d i then
    mkBands up lo (<[i := at_ NaN lo i]> (trend_ b)) d
      (<[i := at_ NaN lo i]> (long_ b)) (short_ b)
  else
    mkBands up lo (<[i := at_ NaN up i]> (trend_ b)) d
      (long_ b) (<[i := at_ NaN up i]> (short_ b)).

Definition get_final_bands_nb (close upper lower : list float) : Bands :=
  let n := length close in
  fold_left (final_bands_step close) (seq 1 (n - 1))
    (mkBands upper lower (replicate n NaN) (replicate n 1)
       (replicate n NaN) (replicate n NaN)).

(** What [calculate_supertrend] returns.  The direction array holds integers,
    or NaN throughout when the computation raised. *)
Record Supertrend := mkSupertrend {
  st_trend : list float;
  st_direction : list (option Z);
  st_long : list float;
  st_short : list float
}.

Definition calculate_supertrend (env : Env) (high low close : list float)
    (period : Z) (multiplier : Q) : Supertrend :=
  let nan_array := replicate (length close) NaN in
  let failed := mkSupertrend nan_array (replicate (length close) None)
                  nan_array nan_array in
  match talib_MEDPRICE env high low with
  | None => failed
  | Some avg_price =>
    match talib_ATR env high low close period with
    | None => failed
    | Some atr =>
        let '(upper, lower) := get_basic_bands avg_price atr multiplier in
        let b := get_final_bands_nb close upper lower in
        mkSupertrend (trend_ b) (map Some (dir_ b)) (long_ b) (short_ b)
    end
  end.

(** ** supertrend_exit_service.py: the state the service works on *)

Record PollerEntry := mkPollerEntry {
  poll_execution_id : Z;
  poll_account : TradingAccount;
  poll_order_id : option string;
  poll_strategy_name : string
}.

Record World := mkWorld {
  executions : ExecutionTable;
  strategies : list Strategy;
  tick : nat;                               (* interactions made so far *)
  orders_sent : list OrderRequest;          (* placements, oldest first *)
  polling_queue : list PollerEntry;         (* [order_status_poller] *)
  monitoring_strategies : gmap Z Z          (* strategy id -> last check *)
}.

Definition with_executions (tbl : ExecutionTable) (w : World) : World :=
  mkWorld tbl (strategies w) (tick w) (orders_sent w) (polling_queue w)
    (monitoring_strategies w).
Definition with_strategies (ss : list Strategy) (w : World) : World :=
  mkWorld (executions w) ss (tick w) (orders_sent w) (polling_queue w)
    (monitoring_strategies w).
Definition next_tick (w : World) : World :=
  mkWorld (executions w) (strategies w) (S (tick w)) (orders_sent w)
    (polling_queue w) (monitoring_strategies w).
Definition send_order (r : OrderRequest) (w : World) : World :=
  mkWorld (executions w) (strategies w) (tick w) (orders_sent w ++ [r])
    (polling_queue w) (monitoring_strategies w).
Definition add_order (p : PollerEntry) (w : World) : World :=
  mkWorld (executions w) (strategies w) (tick w) (orders_sent w)
    (polling_queue w ++ [p]) (monitoring_strategies w).
Definition with_monitoring (m : gmap Z Z) (w : World) : World :=
  mkWorld (executions w) (strategies w) (tick w) (orders_sent w)
    (polling_queue w) m.

(** [datetime.utcnow()]: read the clock, which counts as an interaction. *)
Definition utcnow (env : Env) (w : World) : Z * World :=
  (utc_clock env (tick w), next_tick w).

(** IST is UTC+05:30. *)
Definition IST_OFFSET : Z := timedelta_seconds 19800.

(** [get_ist_now()] *)
Definition get_ist_now (env : Env) (w : World) : Z * World :=
  (utc_clock env (tick w) + IST_OFFSET, next_tick w).

(** [StrategyExecution.query.get(id)] *)
Definition query_get (tbl : ExecutionTable) (id_ : Z) : option StrategyExecution :=
  List.find (fun r => ex_id r =? id_) tbl.

(** [db.session.commit()] after attribute writes on a loaded row: the row
    with that primary key is replaced. *)
Definition commit_execution (e : StrategyExecution) (w : World) : World :=
  with_executions
    (map (fun r => if ex_id r =? ex_id e then e else r) (executions w)) w.

(** [Strategy.query.get(id)] and the commit of a strategy row *)
Definition strategy_get (ss : list Strategy) (id_ : Z) : option Strategy :=
  List.find (fun s => s_id s =? id_) ss.

Definition commit_strategy (s : Strategy) (w : World) : World :=
  with_strategies
    (map (fun r => if s_id r =? s_id s then s else r) (strategies w)) w.

Definition set_triggered (reason : string) (at_time : Z) (s : Strategy) : Strategy :=
  mkStrategy (s_id s) (s_name s) (user_id s) (is_active s) (product_order_type s)
    (supertrend_exit_enabled s) (supertrend_exit_type s) (supertrend_period s)
    (supertrend_multiplier s) (supertrend_timeframe s)
    (Some true) (Some reason) (Some at_time).

(** The two claims as the service calls them: clock and session come from
    the outside. *)
Definition claim_in_world (env : Env) (is_retry_event : bool) (exec_id : Z)
    (exit_reason_ : string) (w : World) : bool * World :=
  let '(now, w1) := utcnow env w in
  let session := db_session env (tick w1) in
  let '(claimed, tbl) :=
    if is_retry_event
    then atomic_claim_exit_retry session now (executions w1) exec_id exit_reason_
    else atomic_claim_exit session now (executions w1) exec_id exit_reason_ in
  (claimed, next_tick (with_executions tbl w1)).

(** ** supertrend_exit_service.py: the sequential exit *)

(** Local state of one call of [trigger_sequential_exit]. *)
Record ExitRun := mkRun {
  run_world : World;
  account_clients : gmap Z ExtendedOpenAlgoAPI;   (* one client per account *)
  success_count : Z
}.

Definition in_world (w : World) (run : ExitRun) : ExitRun :=
  mkRun w (account_clients run) (success_count run).

(** [bool(response)] for the returned dict *)
Definition response_truthy (r : OrderResponse) : bool :=
  negb (is_null (resp_status r)) || negb (is_null (resp_orderid r))
  || negb (is_null (resp_message r)) || resp_other_keys r.

(** [execution.product or strategy.product_order_type or 'MIS'] *)
Definition exit_product_of (execution : StrategyExecution) (strategy : Strategy)
  : string :=
  default "MIS" (str_or (product execution)
                   (str_or (product_order_type strategy) (Some "MIS"))).

(** Placement and what follows it, for a claimed execution. *)
Definition place_and_mark (env : Env) (strategy : Strategy)
    (acct : TradingAccount) (client : ExtendedOpenAlgoAPI)
    (execution : StrategyExecution) (clients : gmap Z ExtendedOpenAlgoAPI)
    (count : Z) (w : World) : ExitRun :=
  let req := mkOrderRequest client (user_id strategy) (s_name strategy)
               (symbol execution) (exchange execution) (exit_action_of execution)
               (quantity execution) "MARKET" (exit_product_of execution strategy) in
  let response :=
    match place_order_with_freeze_check env req (tick w) with
    | PlaceRaises e =>
        Some (mkOrderResponse (Some "error") None (Some ("API error: " ++ e)) false)
    | PlaceReturns r => r
    end in
  let w1 := next_tick (send_order req w) in
  (* re-fetch *)
  let refetched := query_get (executions w1) (ex_id execution) in
  let succeeded :=
    match response with
    | Some r => response_truthy r && is_success (resp_status r)
    | None => false
    end in
  if succeeded then
    let order_id_ := response ≫= resp_orderid in
    let '(now, w2) := utcnow env w1 in
    match refetched with
    | None => mkRun w2 clients count          (* raises; caught by the loop *)
    | Some e =>
        let w3 := commit_execution (mark_exit_success now e order_id_) w2 in
        let w4 := add_order (mkPollerEntry (ex_id e) acct order_id_ (s_name strategy)) w3 in
        mkRun w4 clients (count + 1)
    end
  else
    let error_msg :=
      match response with
      | Some r => if response_truthy r
                  then Some (default "Unknown error" (resp_message r))
                  else Some "No response"
      | None => Some "No response"
      end in
    let '(now, w2) := utcnow env w1 in
    match refetched with
    | None => mkRun w2 clients count
    | Some e =>
        mkRun (commit_execution (mark_exit_failed now e error_msg true) w2) clients count
    end.

(** The body of [for idx, exec_id in enumerate(execution_ids)]. *)
Definition process_execution (env : Env) (strategy : Strategy)
    (exit_reason_ : string) (is_retry_event : bool)
    (run : ExitRun) (exec_id : Z) : ExitRun :=
  let '(claimed, w1) :=
    claim_in_world env is_retry_event exec_id exit_reason_ (run_world run) in
  if negb claimed then in_world w1 run else
  match query_get (executions w1) exec_id with
  | None => in_world w1 run
  | Some execution =>
    match account execution with
    | None => in_world w1 run
    | Some acct =>
      if negb (account_is_active acct) then in_world w1 run else
      let '(client, clients) :=
        match account_clients run !! account_pk acct with
        | Some c => (c, account_clients run)
        | None =>
            let c := mkClient (api_key acct) (host_url acct) in
            (c, <[account_pk acct := c]> (account_clients run))
        end in
      let attempt_count := coalesce (exit_attempt_count execution) 0 in
      if 1 <? attempt_count then
        (* a retry: verify with the broker first *)
        let verification :=
          verify_exit_order_at_broker env (tick w1) client execution (s_name strategy) in
        let w2 := next_tick w1 in
        if negb (can_place_exit verification) then
          if bool_decide (order_status verification = Some "complete") then
            let '(now, w3) := utcnow env w2 in
            mkRun (commit_execution
                     (mark_exit_confirmed now execution "complete"
                        (order_id verification)) w3)
                  clients (success_count run + 1)
          else if position_quantity verification =? 0 then
            let '(now, w3) := utcnow env w2 in
            mkRun (commit_execution
                     (set_exit_time (Some now)
                        (set_exit_reason (Some "broker_confirmed_closed")
                           (set_status "exited" execution))) w3)
                  clients (success_count run + 1)
          else mkRun w2 clients (success_count run)
        else place_and_mark env strategy acct client execution clients
               (success_count run) w2
      else place_and_mark env strategy acct client execution clients
             (success_count run) w1
    end
  end.

(** [broker_order_status in ['rejected', 'cancelled']] *)
Definition rejected_or_cancelled (ex : StrategyExecution) : bool :=
  match broker_order_status ex with
  | Some s => str_in s ["rejected"; "cancelled"]
  | None => false
  end.

(** Candidate selection. *)
Definition open_executions_of (is_retry_event : bool) (sid : Z)
    (tbl : ExecutionTable) : list StrategyExecution :=
  let selected :=
    if is_retry_event then
      List.filter (fun r =>
          (strategy_id r =? sid)
          && ((status r =? "entered")%string || (status r =? "exit_pending")%string)
          && is_null (exit_order_id r)) tbl
    else
      List.filter (fun r =>
          (strategy_id r =? sid) && (status r =? "entered")%string
          && is_null (exit_order_id r)) tbl in
  List.filter (fun ex => negb (rejected_or_cancelled ex)) selected.

Definition leg_action_is (a : string) (ex : StrategyExecution) : bool :=
  match leg ex with
  | Some l => (action l =? a)%string
  | None => false
  end.

Definition sell_positions (open_executions : list StrategyExecution) :=
  List.filter (leg_action_is "SELL") open_executions.
Definition buy_positions (open_executions : list StrategyExecution) :=
  List.filter (leg_action_is "BUY") open_executions.
Definition unknown_positions (open_executions : list StrategyExecution) :=
  List.filter (fun ex => is_null (leg ex)) open_executions.

(** [sell_positions + buy_positions + unknown_positions] *)
Definition ordered_executions (open_executions : list StrategyExecution)
  : list StrategyExecution :=
  sell_positions open_executions ++ buy_positions open_executions
  ++ unknown_positions open_executions.

Definition is_true (b : option bool) : bool :=
  match b with Some true => true | _ => false end.

(** The loop over the ordered ids, from a world where the latch was just
    set. *)
Definition exit_loop (env : Env) (strategy : Strategy) (exit_reason_ : string)
    (is_retry_event : bool) (execution_ids : list Z) (w : World) : ExitRun :=
  fold_left (process_execution env strategy exit_reason_ is_retry_event)
    execution_ids (mkRun w ∅ 0).

Definition trigger_sequential_exit (env : Env) (strategy : Strategy)
    (exit_reason_ : string) (w : World) : World :=
  let strategy_id_ := s_id strategy in
  (* re-fetch under the row lock *)
  match strategy_get (strategies w) strategy_id_ with
  | None => w
  | Some strategy =>
    if is_true (supertrend_exit_triggered strategy) then w   (* already triggered *)
    else
      let '(triggered_at, w1) := get_ist_now env w in
      let strategy := set_triggered exit_reason_ triggered_at strategy in
      let w2 := commit_strategy strategy w1 in
      let is_retry_event := str_contains "RETRY" (upper exit_reason_) in
      let open_executions :=
        open_executions_of is_retry_event (s_id strategy) (executions w2) in
      match open_executions with
      | [] => w2
      | _ =>
          let execution_ids := map ex_id (ordered_executions open_executions) in
          run_world (exit_loop env strategy exit_reason_ is_retry_event
                       execution_ids w2)
      end
  end.

(** ** supertrend_exit_service.py: the scheduler tick *)

(** Minute of the hour in IST of an instant. *)
Definition ist_minute (t : Z) : Z := ((t + IST_OFFSET) / 60000000) mod 60.

Definition timeframe_minutes (tf : option string) : Z :=
  match tf with
  | Some "3m" => 3
  | Some "5m" => 5
  | Some "10m" => 10
  | Some "15m" => 15
  | _ => 5
  end.

Definition should_check_strategy (env : Env) (strategy : Strategy) (w : World)
  : bool * World :=
  let '(now, w1) := utcnow env w in
  (ist_minute now mod timeframe_minutes (supertrend_timeframe strategy) =? 0, w1).

(** The comparison of the latest direction with the configured exit type:
    the reason to exit with, if any. *)
Definition exit_signal (env : Env) (exit_type : option string)
    (latest_close latest_supertrend : float) (latest_direction : option Z)
  : option string :=
  if bool_decide (exit_type = Some "breakout") then
    if bool_decide (latest_direction = Some (-1)) then
      Some ("supertrend_breakout (Close: " ++ format_2f env latest_close
            ++ ", ST: " ++ format_2f env latest_supertrend ++ ")")
    else None
  else if bool_decide (exit_type = Some "breakdown") then
    if bool_decide (latest_direction = Some 1) then
      Some ("supertrend_breakdown (Close: " ++ format_2f env latest_close
            ++ ", ST: " ++ format_2f env latest_supertrend ++ ")")
    else None
  else None.

(** [pos.leg_id], truthy *)
Definition leg_id_of (pos : StrategyExecution) : option Z :=
  match leg pos with
  | Some l => if leg_id_pk l =? 0 then None else Some (leg_id_pk l)
  | None => None
  end.

Definition check_supertrend_exit (env : Env) (strategy : Strategy) (w : World)
  : World :=
  let '(now, w0) := utcnow env w in
  let w0 := with_monitoring (<[s_id strategy := now]> (monitoring_strategies w0)) w0 in
  let open_positions :=
    List.filter (fun pos => negb (rejected_or_cancelled pos))
      (List.filter (fun r => (strategy_id r =? s_id strategy)
                             && (status r =? "entered")%string) (executions w0)) in
  match open_positions with
  | [] => w0
  | _ =>
    let open_leg_ids : gset Z := list_to_set (omap leg_id_of open_positions) in
    let spread := fetch_combined_spread_data env strategy open_leg_ids (tick w0) in
    let w1 := next_tick w0 in
    match spread with
    | None => w1
    | Some spread_data =>
      if Z.of_nat (length spread_data) <? supertrend_period strategy + 5 then w1
      else
        let high := map bar_high spread_data in
        let low := map bar_low spread_data in
        let close := map bar_close spread_data in
        let st := calculate_supertrend env high low close
                    (supertrend_period strategy) (supertrend_multiplier strategy) in
        match last close, last (st_trend st), last (st_direction st) with
        | Some latest_close, Some latest_supertrend, Some latest_direction =>
            match exit_signal env (supertrend_exit_type strategy)
                    latest_close latest_supertrend latest_direction with
            | Some exit_reason_ => trigger_sequential_exit env strategy exit_reason_ w1
            | None => w1
            end
        | _, _, _ => w1           (* index error; caught and logged *)
        end
    end
  end.

(** First loop of [monitor_strategies]: signal evaluation. *)
Definition signal_pass (env : Env) (acc : gset Z * World) (strategy : Strategy)
  : gset Z * World :=
  let '(processed, w) := acc in
  let '(should_check, w1) := should_check_strategy env strategy w in
  if should_check
  then ({[ s_id strategy ]} ∪ processed, check_supertrend_exit env strategy w1)
  else (processed, w1).

(** Second loop of [monitor_strategies]: the retry sweep. *)
Definition retry_pass (env : Env) (processed : gset Z) (w : World)
    (strategy : Strategy) : World :=
  if bool_decide (s_id strategy ∈ processed) then w
  else
    let '(now, w1) := utcnow env w in
    let pending_retries := get_pending_exit_retries now (executions w1) (s_id strategy) in
    match pending_retries with
    | [] => w1
    | _ =>
        trigger_sequential_exit env strategy
          ("Supertrend RETRY - " ++ str_of_Z (Z.of_nat (length pending_retries))
           ++ " positions pending") w1
    end.

Definition monitor_strategies (env : Env) (w : World) : World :=
  let strategies_ :=
    List.filter (fun s => is_true (supertrend_exit_enabled s)
                          && bool_decide (supertrend_exit_triggered s = Some false)
                          && is_active s) (strategies w) in
  let '(strategies_processed_this_cycle, w1) :=
    fold_left (signal_pass env) strategies_ (∅, w) in
  let triggered_strategies :=
    List.filter (fun s => is_true (supertrend_exit_enabled s)
                          && is_true (supertrend_exit_triggered s)
                          && is_active s) (strategies w1) in
  fold_left (retry_pass env strategies_processed_this_cycle) triggered_strategies w1.

(** ** Sequences of claim calls *)

Inductive ClaimCall :=
| Fresh (session : DbOutcome) (now : Z) (execution_id : Z) (exit_reason_ : string)
| Retry (session : DbOutcome) (now : Z) (execution_id : Z) (exit_reason_ : string).

Definition call_target (c : ClaimCall) : Z :=
  match c with
  | Fresh _ _ i _ => i
  | Retry _ _ i _ => i
  end.

Definition run_claim (tbl : ExecutionTable) (c : ClaimCall) : bool * ExecutionTable :=
  match c with
  | Fresh session now i reason => atomic_claim_exit session now tbl i reason
  | Retry session now i reason => atomic_claim_exit_retry session now tbl i reason
  end.

(** The calls of [cs] made one after the other: what each returned, and the
    table at the end. *)
Fixpoint run_claims (tbl : ExecutionTable) (cs : list ClaimCall)
  : list bool * ExecutionTable :=
  match cs with
  | [] => ([], tbl)
  | c :: rest =>
      let '(b, tbl1) := run_claim tbl c in
      let '(bs, tbl2) := run_claims tbl1 rest in
      (b :: bs, tbl2)
  end.

(** [exit_attempt_count or 0] *)
Definition attempts (e : StrategyExecution) : Z := coalesce (exit_attempt_count e) 0.

(** The bound on attempts that claims maintain: at most the maximum, and
    strictly below it while a fresh claim is still possible. *)
Definition attempts_bounded (e : StrategyExecution) : Prop :=
  attempts e <= MAX_EXIT_ATTEMPTS /\
  (status e = "entered" -> exit_order_id e = None -> attempts e < MAX_EXIT_ATTEMPTS).

(** ** Sample data *)

Definition sample_account : TradingAccount :=
  mkAccount 1 "primary" true "key-1" "http://127.0.0.1:5000".

Definition sell_leg : StrategyLeg := mkLeg 11 1 "NIFTY" "SELL" (Some 1).
Definition buy_leg : StrategyLeg := mkLeg 12 2 "NIFTY" "BUY" (Some 1).

(** A position as created on entry: status [entered], nothing else set. *)
Definition entered_position (id_ : Z) (l : option StrategyLeg) (sym : string)
  : StrategyExecution :=
  mkExecution id_ 1 l (Some sample_account) sym "NFO" 50 (Some "MIS")
    "entered" None None None (Some 0) None false None None None.

(** A position whose exit order was placed. *)
Definition ordered_position : StrategyExecution :=
  set_exit_order_id (Some "ORD-1")
    (set_status "exit_pending" (entered_position 7 (Some sell_leg) "NIFTY24CE")).

(** A position still [entered] whose attempt counter already stands at the
    maximum. *)
Definition entered_at_max : StrategyExecution :=
  set_exit_attempt_count (Some 5) (entered_position 3 (Some sell_leg) "NIFTY24CE").

(** A position whose first exit attempt failed at instant 0. *)
Definition pending_position : StrategyExecution :=
  mark_exit_failed 0
    (set_exit_attempt_count (Some 1)
       (set_status "exit_pending" (entered_position 4 (Some sell_leg) "NIFTY24CE")))
    (Some "API error: timeout") true.

(** A clock that advances one second per interaction. *)
Definition second_clock (start : Z) (k : nat) : Z := start + Z.of_nat k * 1000000.

(** TA-Lib's MEDPRICE, [(high + low) / 2]. *)
Definition medprice (high low : list float) : option (list float) :=
  Some (zip_with (fun h l => f_mul (Some (1 # 2)) (f_add h l)) high low).

Definition Qabs' (x : Q) : Q := if Qle_bool 0 x then x else (- x)%Q.
Definition Qmax' (x y : Q) : Q := if Qle_bool x y then y else x.

Definition f_or_zero (x : float) : Q := default 0%Q x.

(** True range of bar [i >= 1]. *)
Definition true_range (high low close : list float) (i : nat) : Q :=
  let h := f_or_zero (at_ NaN high i) in
  let l := f_or_zero (at_ NaN low i) in
  let pc := f_or_zero (at_ NaN close (i - 1)) in
  Qmax' (h - l)%Q (Qmax' (Qabs' (h - pc)%Q) (Qabs' (l - pc)%Q)).

(** TA-Lib's ATR for a period of 2: NaN for the first two bars, the mean of
    the first two true ranges at bar 2, Wilder's smoothing after that. *)
Fixpoint atr2_from (high low close : list float) (prev : Q) (i n : nat) : list float :=
  match n with
  | O => []
  | S n' =>
      let a := Qred ((prev + true_range high low close i) / 2)%Q in
      Some a :: atr2_from high low close a (S i) n'
  end.

Definition atr2 (high low close : list float) (period : Z) : option (list float) :=
  let n := length close in
  if (n <=? 2)%nat then Some (replicate n NaN)
  else
    let first := Qred ((true_range high low close 1 + true_range high low close 2) / 2)%Q in
    Some ([NaN; NaN; Some first] ++ atr2_from high low close first 3 (n - 3))%list.

Definition no_spread (s : Strategy) (legs : gset Z) (k : nat) : option (list Bar) := None.

Definition format_none (x : float) : string := "0.00".

Definition accept_order (r : OrderRequest) (k : nat) : PlaceReply :=
  PlaceReturns (Some (mkOrderResponse (Some "success")
                        (Some ("ORD-" ++ str_of_Z (Z.of_nat k))) None false)).

Definition in_band_error {Row} : Reply Row := Returns (Some "error") [].

(** A broker outage seen through [_make_request]: every book query comes
    back as [{'status': 'error', ...}]. *)
Definition outage_env : Env :=
  mkEnv (second_clock 10000000) (fun _ => Executed)
    (fun _ _ => in_band_error) (fun _ _ => in_band_error) (fun _ _ => in_band_error)
    accept_order no_spread medprice atr2 format_none.

(** The position is still open at the broker (50 lots), the orderbook query
    times out, and the tradebook holds no exit trade. *)
Definition orderbook_outage_env : Env :=
  mkEnv (second_clock 10000000) (fun _ => Executed)
    (fun _ _ => Returns (Some "success") [mkPositionRow (Some "NIFTY24CE") (IntOk (-50))])
    (fun _ _ => in_band_error)
    (fun _ _ => Returns (Some "success") [])
    accept_order no_spread medprice atr2 format_none.

(** As above with the tradebook query failing as well. *)
Definition books_outage_env : Env :=
  mkEnv (second_clock 10000000) (fun _ => Executed)
    (fun _ _ => Returns (Some "success") [mkPositionRow (Some "NIFTY24CE") (IntOk (-50))])
    (fun _ _ => in_band_error)
    (fun _ _ => in_band_error)
    accept_order no_spread medprice atr2 format_none.

Definition sample_client : ExtendedOpenAlgoAPI := mkClient "key-1" "http://127.0.0.1:5000".

Definition sample_strategy (triggered : bool) (exit_type : string) : Strategy :=
  mkStrategy 1 "straddle" 1 true (Some "MIS") (Some true) (Some exit_type)
    2 3%Q (Some "5m") (Some triggered)
    (if triggered then Some "supertrend_breakout (Close: 0.00, ST: 0.00)" else None)
    (if triggered then Some 0 else None).

Definition world_of (tbl : ExecutionTable) (ss : list Strategy) : World :=
  mkWorld tbl ss 0 [] [] ∅.

(** [f'{x:.2f}'] for the values used below (two decimals, half rounded up). *)
Definition format_two_decimals (x : float) : string :=
  match x with
  | None => "nan"
  | Some q =>
      let cents := (2 * Qnum q * 100 + Z.pos (Qden q)) / (2 * Z.pos (Qden q)) in
      let a := Z.abs cents in
      let frac := a mod 100 in
      (if cents <? 0 then "-" else "") ++ str_of_Z (a / 100) ++ "."
      ++ (if frac <? 10 then "0" else "") ++ str_of_Z frac
  end.

Definition flat_bar : Bar := mkBar (Some 101%Q) (Some 99%Q) (Some 100%Q).

(** Six flat bars around 100, then a bar that closes at 120, above the
    upper band of 106. *)
Definition bullish_bars : list Bar :=
  replicate 6 flat_bar ++ [mkBar (Some 121%Q) (Some 119%Q) (Some 120%Q)].

(** Six flat bars around 100, then a bar that closes at 80, below the lower
    band of 94. *)
Definition bearish_bars : list Bar :=
  replicate 6 flat_bar ++ [mkBar (Some 81%Q) (Some 79%Q) (Some 80%Q)].

(** A broker that answers every query and accepts every order, with the
    given spread series as market data. *)
Definition signal_env (bars : list Bar) : Env :=
  mkEnv (second_clock 0) (fun _ => Executed)
    (fun _ _ => Returns (Some "success") [mkPositionRow (Some "NIFTY24CE") (IntOk (-50))])
    (fun _ _ => Returns (Some "success") [])
    (fun _ _ => Returns (Some "success") [])
    accept_order (fun _ _ _ => Some bars) medprice atr2 format_two_decimals.

(** The same broker at second 10, when the cooldown of [pending_position]
    has elapsed. *)
Definition retry_env : Env :=
  mkEnv (second_clock 10000000) (fun _ => Executed)
    (fun _ _ => Returns (Some "success") [mkPositionRow (Some "NIFTY24CE") (IntOk (-50))])
    (fun _ _ => Returns (Some "success") [])
    (fun _ _ => Returns (Some "success") [])
    accept_order no_spread medprice atr2 format_two_decimals.

Definition high_of (bars : list Bar) := map bar_high bars.
Definition low_of (bars : list Bar) := map bar_low bars.
Definition close_of (bars : list Bar) := map bar_close bars.

(** One open short position of a breakout strategy that has not triggered. *)
Definition breakout_world : World :=
  world_of [entered_position 1 (Some sell_leg) "NIFTY24CE"]
           [sample_strategy false "breakout"].

(** A triggered strategy with one position waiting for its retry. *)
Definition retry_world : World :=
  world_of [pending_position] [sample_strategy true "breakout"].

(** Open legs BUY, SELL, SELL of a strategy that has not triggered. *)
Definition three_leg_world : World :=
  world_of [entered_position 1 (Some buy_leg) "NIFTY24PE";
            entered_position 2 (Some sell_leg) "NIFTY24CE";
            entered_position 3 (Some sell_leg) "NIFTY25CE"]
           [sample_strategy false "breakout"].

(** The columns of an execution that no exit operation writes: key, leg and
    symbol. *)
Definition fixed_columns (r : StrategyExecution) : Z * option StrategyLeg * string :=
  (ex_id r, leg r, symbol r).

(** What is seen of a placement at the broker: symbol and side. *)
Definition placed (r : OrderRequest) : string * string := (req_symbol r, req_action r).

(** The placement that closes an execution. *)
Definition closing (ex : StrategyExecution) : string * string :=
  (symbol ex, exit_action_of ex).

(** The candidates of one call of [trigger_sequential_exit] in processing
    order, read off the table as the call finds it. *)
Definition candidates (exit_reason_ : string) (strategy : Strategy) (w : World)
  : list StrategyExecution :=
  ordered_executions
    (open_executions_of (str_contains "RETRY" (upper exit_reason_))
       (s_id strategy) (executions w)).

(** ** exit_order_manager.py: eligibility *)

(** [(exit_retry_after - now).total_seconds()] *)
Definition total_seconds (delta : Z) : Q := delta # 1000000.

(** [can_attempt_exit(execution)].  [format_0f] renders [f'{x:.0f}']. *)
Definition can_attempt_exit (format_0f : Q -> string) (now : Z)
    (execution : StrategyExecution) : bool * string :=
  if (status execution =? "exited")%string then
    (false, "Position already exited")
  else if truthy (exit_order_id execution) then
    (false, "Exit order " ++ default "" (exit_order_id execution) ++ " already placed")
  else
    let attempt_count := coalesce (exit_attempt_count execution) 0 in
    if MAX_EXIT_ATTEMPTS <=? attempt_count then
      (false, "Max exit attempts (" ++ str_of_Z MAX_EXIT_ATTEMPTS
              ++ ") exceeded - needs manual intervention")
    else if (status execution =? "entered")%string
            && is_null (exit_pending_since execution) then
      (true, "Fresh position - can place exit")
    else if (status execution =? "exit_pending")%string then
      match exit_retry_after execution with
      | Some t =>
          if now <? t then
            (false, "Retry not allowed yet - wait "
                    ++ format_0f (total_seconds (t - now)) ++ "s")
          else (true, "Retry timer expired - needs broker verification")
      | None => (true, "Retry timer expired - needs broker verification")
      end
    else if (status execution =? "entered")%string then
      (true, "Status is entered - can place exit")
    else (false, "Unknown status: " ++ status execution).

(** ** Sequences of controller operations

    A mark is applied the way its callers do: the row is loaded by id, the
    mark writes its attributes, and the commit stores the row. *)

Definition commit_row (e : StrategyExecution) (tbl : ExecutionTable) : ExecutionTable :=
  map (fun r => if ex_id r =? ex_id e then e else r) tbl.

Definition mark_in_table (mark : StrategyExecution -> StrategyExecution)
    (tbl : ExecutionTable) (id_ : Z) : ExecutionTable :=
  match query_get tbl id_ with
  | Some e => commit_row (mark e) tbl
  | None => tbl
  end.

Inductive ControllerOp :=
| OpClaim (c : ClaimCall)
| OpMarkPending (now id_ : Z) (exit_reason_ : string) (increment_attempt : bool)
| OpMarkSuccess (now id_ : Z) (order_id_ : option string)
| OpMarkFailed (now id_ : Z) (error_message_ : option string)
    (needs_broker_verification : bool)
| OpMarkConfirmed (now id_ : Z) (broker_status : string) (order_id_ : option string).

Definition run_op (tbl : ExecutionTable) (op : ControllerOp) : ExecutionTable :=
  match op with
  | OpClaim c => snd (run_claim tbl c)
  | OpMarkPending now i reason inc =>
      mark_in_table (fun e => mark_exit_pending now e reason inc) tbl i
  | OpMarkSuccess now i oid =>
      mark_in_table (fun e => mark_exit_success now e oid) tbl i
  | OpMarkFailed now i msg needs =>
      mark_in_table (fun e => mark_exit_failed now e msg needs) tbl i
  | OpMarkConfirmed now i st oid =>
      mark_in_table (fun e => mark_exit_confirmed now e st oid) tbl i
  end.

Definition run_ops (tbl : ExecutionTable) (ops : list ControllerOp) : ExecutionTable :=
  fold_left run_op ops tbl.

Definition call_now (c : ClaimCall) : Z :=
  match c with
  | Fresh _ now _ _ => now
  | Retry _ now _ _ => now
  end.

Definition is_fresh (c : ClaimCall) : bool :=
  match c with Fresh _ _ _ _ => true | Retry _ _ _ _ => false end.

(** The fresh claims on execution [i] that returned [True] in a run. *)
Definition fresh_successes (i : Z) (cs : list ClaimCall) (results : list bool)
  : list (ClaimCall * bool) :=
  List.filter (fun cb => is_fresh (fst cb) && (call_target (fst cb) =? i) && snd cb)
    (combine cs results).

(** What one controller operation can do to the row it addresses. *)
Inductive row_step : StrategyExecution -> StrategyExecution -> Prop :=
| step_claim reason now r :
    claim_where (ex_id r) r = true -> row_step r (claim_values reason now r)
| step_retry reason now r :
    retry_where (ex_id r) now r = true -> row_step r (retry_values reason now r)
| step_pending now r reason inc : row_step r (mark_exit_pending now r reason inc)
| step_success now r oid : row_step r (mark_exit_success now r oid)
| step_failed now r msg needs : row_step r (mark_exit_failed now r msg needs)
| step_confirmed now r st oid : row_step r (mark_exit_confirmed now r st oid).

(** No row with id [i] can be claimed freshly. *)
Definition unclaimable (i : Z) (tbl : ExecutionTable) : Prop :=
  forall r, In r tbl -> claim_where i r = false.

(** A position claimed freshly at instant 0. *)
Definition claimed_position : StrategyExecution :=
  claim_values "max_loss" 0 (entered_position 5 (Some sell_leg) "NIFTY24CE").

(** [f'{x:.0f}'] for the waits used below: nearest integer, half rounded up. *)
Definition format_whole (x : Q) : string :=
  str_of_Z ((2 * Qnum x + Z.pos (Qden x)) / (2 * Z.pos (Qden x))).

(** The positionbook query raises (the SDK failed to decode the answer). *)
Definition positionbook_raises_env : Env :=
  mkEnv (second_clock 10000000) (fun _ => Executed)
    (fun _ _ => Raises "Expecting value: line 1 column 1 (char 0)")
    (fun _ _ => Returns (Some "success") [])
    (fun _ _ => Returns (Some "success") [])
    accept_order no_spread medprice atr2 format_two_decimals.

(** The position is open at the broker and the orderbook query raises. *)
Definition orderbook_raises_env : Env :=
  mkEnv (second_clock 10000000) (fun _ => Executed)
    (fun _ _ => Returns (Some "success") [mkPositionRow (Some "NIFTY24CE") (IntOk (-50))])
    (fun _ _ => Raises "Expecting value: line 1 column 1 (char 0)")
    (fun _ _ => Returns (Some "success") [])
    accept_order no_spread medprice atr2 format_two_decimals.

Definition retry_reason : string := "Supertrend RETRY - 1 positions pending".

(** The test of the orderbook loop: an order on the symbol with the exit
    action. *)
Definition order_matches (sym exit_action : string) (order : OrderRow) : bool :=
  (default "" (o_symbol order) =? sym)%string
  && (upper (get2 (o_transaction_type order) (o_transactiontype order) "")
      =? exit_action)%string.

(** The test of the tradebook loop, and the quantity it reads. *)
Definition trade_matches (sym exit_action : string) (trade : TradeRow) : bool :=
  (default "" (t_symbol trade) =? sym)%string
  && (upper (get2 (t_transaction_type trade) (t_transactiontype trade) "")
      =? exit_action)%string.

Definition trade_quantity (trade : TradeRow) : string + Z :=
  py_int (match t_quantity trade with
          | IntAbsent => t_filled_quantity trade
          | f => f
          end) 0.

(** A trade that the tradebook loop passes over: on another symbol or side,
    or smaller than the expected quantity. *)
Definition trade_passed_over (sym exit_action : string) (expected : Z)
    (trade : TradeRow) : Prop :=
  trade_matches sym exit_action trade = false
  \/ exists z, trade_quantity trade = inr z /\ Z.abs z < expected.

(** Two half-size exit trades for a position of 50 that is still open at
    the broker. *)
Definition split_fill_env : Env :=
  mkEnv (second_clock 10000000) (fun _ => Executed)
    (fun _ _ => Returns (Some "success") [mkPositionRow (Some "NIFTY24CE") (IntOk (-50))])
    (fun _ _ => Returns (Some "success") [])
    (fun _ _ => Returns (Some "success")
       [mkTradeRow (Some "NIFTY24CE") (Some "BUY") None (Some "T1") None (IntOk 25) IntAbsent;
        mkTradeRow (Some "NIFTY24CE") (Some "BUY") None (Some "T2") None (IntOk 25) IntAbsent])
    accept_order no_spread medprice atr2 format_two_decimals.

(** A cancelled exit order listed before an open one. *)
Definition cancelled_then_open_env : Env :=
  mkEnv (second_clock 10000000) (fun _ => Executed)
    (fun _ _ => Returns (Some "success") [mkPositionRow (Some "NIFTY24CE") (IntOk (-50))])
    (fun _ _ => Returns (Some "success")
       [mkOrderRow (Some "NIFTY24CE") (Some "buy") None (Some "CANCELLED") None (Some "O1") None;
        mkOrderRow (Some "NIFTY24CE") (Some "BUY") None (Some "open") None (Some "O2") None])
    (fun _ _ => Returns (Some "success") [])
    accept_order no_spread medprice atr2 format_two_decimals.

(** The order [place_and_mark] builds for an execution. *)
Definition exit_order_for (strategy : Strategy) (client : ExtendedOpenAlgoAPI)
    (execution : StrategyExecution) : OrderRequest :=
  mkOrderRequest client (user_id strategy) (s_name strategy)
    (symbol execution) (exchange execution) (exit_action_of execution)
    (quantity execution) "MARKET" (exit_product_of execution strategy).

(** How one iteration of the loop can end, seen from the world [w1] left by
    its claim: nothing more is written; or the verification closes the
    execution; or an order is sent and the execution is marked. *)
Inductive iteration_outcome (strategy : Strategy) (i : Z) (w1 : World) (count : Z)
  : ExitRun -> Prop :=
| outcome_skipped run' :
    executions (run_world run') = executions w1 ->
    orders_sent (run_world run') = orders_sent w1 ->
    polling_queue (run_world run') = polling_queue w1 ->
    success_count run' = count ->
    iteration_outcome strategy i w1 count run'
| outcome_closed run' execution e' :
    query_get (executions w1) i = Some execution ->
    executions (run_world run') = commit_row e' (executions w1) ->
    fixed_columns e' = fixed_columns execution ->
    status e' = "exited" ->
    orders_sent (run_world run') = orders_sent w1 ->
    polling_queue (run_world run') = polling_queue w1 ->
    success_count run' = count + 1 ->
    iteration_outcome strategy i w1 count run'
| outcome_placed run' execution acct client now oid :
    query_get (executions w1) i = Some execution ->
    account execution = Some acct -> account_is_active acct = true ->
    executions (run_world run')
    = commit_row (mark_exit_success now execution oid) (executions w1) ->
    orders_sent (run_world run')
    = (orders_sent w1 ++ [exit_order_for strategy client execution])%list ->
    polling_queue (run_world run')
    = (polling_queue w1 ++ [mkPollerEntry i acct oid (s_name strategy)])%list ->
    success_count run' = count + 1 ->
    iteration_outcome strategy i w1 count run'
| outcome_failed run' execution acct client now msg :
    query_get (executions w1) i = Some execution ->
    account execution = Some acct -> account_is_active acct = true ->
    executions (run_world run')
    = commit_row (mark_exit_failed now execution msg true) (executions w1) ->
    orders_sent (run_world run')
    = (orders_sent w1 ++ [exit_order_for strategy client execution])%list ->
    polling_queue (run_world run') = polling_queue w1 ->
    success_count run' = count ->
    iteration_outcome strategy i w1 count run'.

(** Reasons for which an execution is not a candidate of a call of
    [trigger_sequential_exit] for [strategy] with [exit_reason_]. *)
Definition not_selected (exit_reason_ : string) (strategy : Strategy)
    (r : StrategyExecution) : Prop :=
  exit_order_id r <> None
  \/ strategy_id r <> s_id strategy
  \/ (status r <> "entered" /\ status r <> "exit_pending")
  \/ (status r = "exit_pending" /\ str_contains "RETRY" (upper exit_reason_) = false)
  \/ rejected_or_cancelled r = true
  \/ (exists l, leg r = Some l /\ action l <> "SELL" /\ action l <> "BUY").

(** An exited position, and an open one whose leg action is in lower
    case, next to a regular candidate. *)
Definition mixed_world : World :=
  world_of [ordered_position;
            entered_position 8 (Some (mkLeg 13 3 "NIFTY" "sell" (Some 1))) "NIFTY24CE";
            entered_position 9 (Some sell_leg) "NIFTY25CE"]
           [sample_strategy false "breakout"].


(** The poller entry and the stored row agree on the order. *)
Definition polled_as_stored (tbl : ExecutionTable) (p : PollerEntry) : Prop :=
  exists e,
    query_get tbl (poll_execution_id p) = Some e
    /\ exit_order_id e = poll_order_id p
    /\ broker_order_status e = Some "open"
    /\ account e = Some (poll_account p).

(** Whole minutes since the epoch of an instant. *)
Definition epoch_minutes (t : Z) : Z := t / 60000000.

(** Conditions under which [check_supertrend_exit] has nothing to compute a
    signal from: no data, too few bars, or a failing TA-Lib call. *)
Definition no_signal_data (env : Env) (strategy : Strategy) : Prop :=
  (forall legs k, fetch_combined_spread_data env strategy legs k = None)
  \/ (forall legs k, exists bars,
         fetch_combined_spread_data env strategy legs k = Some bars
         /\ Z.of_nat (length bars) < supertrend_period strategy + 5)
  \/ (forall high low, talib_MEDPRICE env high low = None)
  \/ (forall high low close period, talib_ATR env high low close period = None).

(** [get_supertrend_signal(direction)] *)
Definition get_supertrend_signal (direction : list (option Z)) : string :=
  match last direction with
  | None => "NEUTRAL"                 (* empty array *)
  | Some None => "NEUTRAL"            (* NaN *)
  | Some (Some current_dir) => if 0 <? current_dir then "BUY" else "SELL"
  end.

(** The bands after the first [j] iterations of the loop of
    [get_final_bands_nb]. *)
Definition bands_after (close upper lower : list float) (j : nat) : Bands :=
  let n := length close in
  fold_left (final_bands_step close) (seq 1 j)
    (mkBands upper lower (replicate n NaN) (replicate n 1)
       (replicate n NaN) (replicate n NaN)).

(** Market data whose fetch fails, and TA-Lib raising on every input. *)
Definition talib_raises_env : Env :=
  mkEnv (second_clock 0) (fun _ => Executed)
    (fun _ _ => Returns (Some "success") [])
    (fun _ _ => Returns (Some "success") [])
    (fun _ _ => Returns (Some "success") [])
    accept_order (fun _ _ _ => Some bearish_bars) medprice (fun _ _ _ _ => None)
    format_two_decimals.

(** ** The scheduler tick as a sequence of steps *)

(** Two worlds with the same tables, order trace and poller queue. *)
Definition same_store (w w' : World) : Prop :=
  executions w' = executions w /\ strategies w' = strategies w
  /\ orders_sent w' = orders_sent w /\ polling_queue w' = polling_queue w.

(** A step of the tick: bookkeeping only, or one call of
    [trigger_sequential_exit] for a strategy satisfying [P]. *)
Definition tick_step (env : Env) (P : Strategy -> Prop) (w w' : World) : Prop :=
  same_store w w'
  \/ exists w0 strategy reason,
       same_store w w0 /\ P strategy
       /\ w' = trigger_sequential_exit env strategy reason w0.

(** A strategy the scheduler works on. *)
Definition monitored (s : Strategy) : bool :=
  is_true (supertrend_exit_enabled s) && is_active s.

(** Every strategy row of [w'] has a row of [w] with the same id and the
    same monitoring flags. *)
Definition strategies_from (w w' : World) : Prop :=
  forall s', In s' (strategies w') ->
    exists s, In s (strategies w) /\ s_id s = s_id s' /\ monitored s = monitored s'.

(** A scheduled strategy with the given id. *)
Definition scheduled_in (w : World) (st : Strategy) : Prop :=
  exists s, In s (strategies w) /\ s_id s = s_id st /\ monitored s = true.

(** Strategy 1 is disabled and holds an open position; strategy 2 is
    enabled with a position of its own. *)
Definition two_strategy_world : World :=
  world_of [entered_position 1 (Some sell_leg) "NIFTY24CE";
            mkExecution 2 2 (Some sell_leg) (Some sample_account) "NIFTY25CE" "NFO" 50
              (Some "MIS") "entered" None None None (Some 0) None false None None None]
           [mkStrategy 1 "disabled" 1 true (Some "MIS") (Some false) (Some "breakout")
              2 3%Q (Some "5m") (Some false) None None;
            mkStrategy 2 "enabled" 1 true (Some "MIS") (Some true) (Some "breakout")
              2 3%Q (Some "5m") (Some false) None None].

(** A triggered strategy next to one that is about to trigger. *)
Definition latched_world : World :=
  world_of [mkExecution 2 2 (Some sell_leg) (Some sample_account) "NIFTY25CE" "NFO" 50
              (Some "MIS") "entered" None None None (Some 0) None false None None None]
           [sample_strategy true "breakout";
            mkStrategy 2 "enabled" 1 true (Some "MIS") (Some true) (Some "breakout")
              2 3%Q (Some "5m") (Some false) None None].

(** ** The selection of one call, and sample data for its failure paths *)




(** A broker that answers every query and refuses every order. *)
Definition refuse_order (r : OrderRequest) (k : nat) : PlaceReply :=
  PlaceReturns (Some (mkOrderResponse (Some "error") None
                        (Some "Insufficient margin") false)).

Definition refusing_env : Env :=
  mkEnv (second_clock 0) (fun _ => Executed)
    (fun _ _ => Returns (Some "success") [mkPositionRow (Some "NIFTY24CE") (IntOk (-50))])
    (fun _ _ => Returns (Some "success") [])
    (fun _ _ => Returns (Some "success") [])
    refuse_order (fun _ _ _ => Some bearish_bars) medprice atr2 format_two_decimals.

(** The rupee sign, three bytes in UTF-8, and a message of 219 of them. *)
Definition rupee : string :=
  String (ascii_of_nat 226) (String (ascii_of_nat 130)
    (String (ascii_of_nat 185) EmptyString)).

Fixpoint str_repeat (n : nat) (s : string) : string :=
  match n with
  | O => EmptyString
  | S m => (s ++ str_repeat m s)%string
  end.

(** * Properties *)

(** ** Conditional updates *)

Lemma sa_update_none w v tbl :
  (forall r, In r tbl -> w r = false) -> sa_update w v tbl = (0%nat, tbl).
Proof.
  intros Hw. unfold sa_update. f_equal.
  - induction tbl as [|r tbl IH]; simpl; [reflexivity|].
    rewrite Hw by (left; reflexivity). apply IH. intros; apply Hw; right; assumption.
  - induction tbl as [|r tbl IH]; simpl; [reflexivity|].
    rewrite Hw by (left; reflexivity). f_equal. apply IH.
    intros; apply Hw; right; assumption.
Qed.

Lemma sa_update_rowcount_pos w v tbl r :
  In r tbl -> w r = true -> (0 <? fst (sa_update w v tbl))%nat = true.
Proof.
  intros Hin Hw. unfold sa_update; simpl. apply Nat.ltb_lt.
  assert (In r (List.filter w tbl)) as H by (apply filter_In; split; assumption).
  destruct (List.filter w tbl); [destruct H | simpl; lia].
Qed.

Lemma sa_update_lookup w v (tbl : ExecutionTable) k :
  snd (sa_update w v tbl) !! k = (fun r => if w r then v r else r) <$> (tbl !! k).
Proof. unfold sa_update; simpl. apply list_lookup_fmap. Qed.

Lemma pk_unique_inj tbl a b :
  pk_unique tbl -> In a tbl -> In b tbl -> ex_id a = ex_id b -> a = b.
Proof.
  unfold pk_unique. induction tbl as [|r tbl IH]; simpl; [tauto|].
  intros Hnd Ha Hb Heq. apply NoDup_cons in Hnd as [Hnotin Hnd].
  destruct Ha as [->|Ha], Hb as [->|Hb]; auto.
  - exfalso. apply Hnotin. rewrite Heq. apply list_elem_of_In, in_map, Hb.
  - exfalso. apply Hnotin. rewrite <- Heq. apply list_elem_of_In, in_map, Ha.
Qed.

Lemma query_get_unique tbl p :
  pk_unique tbl -> In p tbl -> query_get tbl (ex_id p) = Some p.
Proof.
  intros Hpk Hin. unfold query_get.
  destruct (List.find _ tbl) as [r|] eqn:Hf.
  - apply find_some in Hf as [Hr Hid]. apply Z.eqb_eq in Hid.
    f_equal. apply (pk_unique_inj tbl); auto.
  - exfalso. apply (find_none _ _ Hf) in Hin. rewrite Z.eqb_refl in Hin. discriminate.
Qed.

(** Claims rewrite rows in place: ids, hence the primary key, are kept. *)
Lemma claim_values_id reason now r : ex_id (claim_values reason now r) = ex_id r.
Proof. reflexivity. Qed.

Lemma retry_values_id reason now r : ex_id (retry_values reason now r) = ex_id r.
Proof. reflexivity. Qed.

Lemma sa_update_ids w v tbl :
  (forall r, ex_id (v r) = ex_id r) ->
  map ex_id (snd (sa_update w v tbl)) = map ex_id tbl.
Proof.
  intros Hv. unfold sa_update; simpl. rewrite map_map. apply map_ext.
  intros r. destruct (w r); auto.
Qed.

Lemma run_claim_ids tbl c : map ex_id (snd (run_claim tbl c)) = map ex_id tbl.
Proof.
  destruct c as [[] now i reason|[] now i reason]; simpl; try reflexivity.
  - apply (sa_update_ids _ _ tbl). intros; apply claim_values_id.
  - apply (sa_update_ids _ _ tbl). intros; apply retry_values_id.
Qed.

Lemma run_claim_pk tbl c : pk_unique tbl -> pk_unique (snd (run_claim tbl c)).
Proof. unfold pk_unique. rewrite run_claim_ids. auto. Qed.

(** A row that holds an order id is selected by neither claim. *)
Lemma run_claim_refused tbl p c :
  pk_unique tbl -> In p tbl -> exit_order_id p <> None ->
  call_target c = ex_id p -> run_claim tbl c = (false, tbl).
Proof.
  intros Hpk Hin Hoid Htgt.
  assert (forall now r, In r tbl -> claim_where (ex_id p) r = false
                                    /\ retry_where (ex_id p) now r = false) as Hw.
  { intros now r Hr. unfold claim_where, retry_where.
    destruct (Z.eqb_spec (ex_id r) (ex_id p)) as [Heq|]; [|split; reflexivity].
    assert (r = p) as -> by (apply (pk_unique_inj tbl); auto).
    destruct (exit_order_id p); [|congruence].
    simpl. rewrite !andb_false_r. split; reflexivity. }
  destruct c as [[] now i reason|[] now i reason]; cbn [call_target] in Htgt;
    subst i; cbn [run_claim atomic_claim_exit atomic_claim_exit_retry];
    try reflexivity.
  - rewrite sa_update_none; [reflexivity|]. intros r Hr. apply (Hw now r Hr).
  - rewrite sa_update_none; [reflexivity|]. intros r Hr. apply (Hw now r Hr).
Qed.

(** ** C1 *)

(** C1. Once a position holds an [exit_order_id], every later call of
    [atomic_claim_exit] or [atomic_claim_exit_retry] on it returns [False],
    and the position is found unchanged afterwards, whatever other claims are
    made in between. *)
Theorem claims_refused_once_order_id_set :
  forall (cs : list ClaimCall) (tbl : ExecutionTable) (p : StrategyExecution),
    pk_unique tbl -> In p tbl -> exit_order_id p <> None ->
    query_get (snd (run_claims tbl cs)) (ex_id p) = Some p
    /\ (forall c b, In (c, b) (combine cs (fst (run_claims tbl cs))) ->
                    call_target c = ex_id p -> b = false).
Proof.
  induction cs as [|c cs IH]; intros tbl p Hpk Hin Hoid.
  - simpl. split; [apply query_get_unique; assumption | intros c b []].
  - simpl. destruct (run_claim tbl c) as [b1 tbl1] eqn:Hc.
    destruct (run_claims tbl1 cs) as [bs tbl2] eqn:Hcs. simpl.
    assert (pk_unique tbl1) as Hpk1.
    { pose proof (run_claim_pk tbl c Hpk) as H. rewrite Hc in H. exact H. }
    assert (In p tbl1 /\ (call_target c = ex_id p -> b1 = false)) as [Hin1 Hb1].
    { destruct (Z.eq_dec (call_target c) (ex_id p)) as [Heq|Hne].
      - rewrite (run_claim_refused tbl p c) in Hc by assumption.
        injection Hc as <- <-. auto.
      - split; [|tauto].
        assert (snd (run_claim tbl c) = tbl1) as <- by (rewrite Hc; reflexivity).
        destruct c as [[] now i reason|[] now i reason]; simpl in *; auto;
          unfold sa_update; simpl; apply in_map_iff; exists p; (split; [|assumption]).
        + unfold claim_where.
          destruct (Z.eqb_spec (ex_id p) i); [congruence|reflexivity].
        + unfold retry_where.
          destruct (Z.eqb_spec (ex_id p) i); [congruence|reflexivity]. }
    specialize (IH tbl1 p Hpk1 Hin1 Hoid). rewrite Hcs in IH. simpl in IH.
    destruct IH as [IHq IHb]. split; [exact IHq|].
    intros c' b' [Heq|Hin'] Htgt.
    + injection Heq as <- <-. auto.
    + eapply IHb; eauto.
Qed.

(** A position with an order id, claimed freshly and then for retry. *)
Lemma claims_refused_once_order_id_set_witness :
  query_get (snd (run_claims [ordered_position]
                    [Fresh Executed 100 7 "max_loss"; Retry Executed 99000000 7 "retry"]))
    7 = Some ordered_position
  /\ fst (run_claims [ordered_position]
            [Fresh Executed 100 7 "max_loss"; Retry Executed 99000000 7 "retry"])
     = [false; false].
Proof.
  pose proof (claims_refused_once_order_id_set
                [Fresh Executed 100 7 "max_loss"; Retry Executed 99000000 7 "retry"]
                [ordered_position] ordered_position) as H.
  destruct H as [Hq _].
  - unfold pk_unique. simpl. apply NoDup_cons. split; [apply not_elem_of_nil|apply NoDup_nil_2].
  - left; reflexivity.
  - discriminate.
  - split; [exact Hq | reflexivity].
Defined.

Lemma atomic_claim_exit_table now tbl i reason :
  snd (atomic_claim_exit Executed now tbl i reason)
  = snd (sa_update (claim_where i) (claim_values reason now) tbl).
Proof. reflexivity. Qed.

Lemma atomic_claim_exit_retry_table now tbl i reason :
  snd (atomic_claim_exit_retry Executed now tbl i reason)
  = snd (sa_update (retry_where i now) (retry_values reason now) tbl).
Proof. reflexivity. Qed.

(** ** C2 *)

Lemma sa_update_order_ids w v tbl :
  (forall r, exit_order_id (v r) = exit_order_id r) ->
  map exit_order_id (snd (sa_update w v tbl)) = map exit_order_id tbl.
Proof.
  intros Hv. unfold sa_update; simpl. rewrite map_map. apply map_ext.
  intros r. destruct (w r); auto.
Qed.

Lemma run_claim_order_ids tbl c :
  map exit_order_id (snd (run_claim tbl c)) = map exit_order_id tbl.
Proof.
  destruct c as [[] now i reason|[] now i reason]; cbn [run_claim];
    try reflexivity.
  - rewrite atomic_claim_exit_table. apply sa_update_order_ids. reflexivity.
  - rewrite atomic_claim_exit_retry_table. apply sa_update_order_ids. reflexivity.
Qed.

(** C2, as the code has it.  The two claims, [mark_exit_pending] and
    [mark_exit_failed] leave [exit_order_id] as it is.  [mark_exit_confirmed]
    keeps it when called without an order id and otherwise stores the given
    one, and [mark_exit_success] always stores the given one; neither looks
    at the value already there. *)
Theorem exit_order_id_writes :
  forall (tbl : ExecutionTable) (c : ClaimCall) (e : StrategyExecution)
         (now : Z) (reason : string) (increment : bool)
         (msg : option string) (needs : bool) (broker_status : string)
         (oid : option string),
    map exit_order_id (snd (run_claim tbl c)) = map exit_order_id tbl
    /\ exit_order_id (mark_exit_pending now e reason increment) = exit_order_id e
    /\ exit_order_id (mark_exit_failed now e msg needs) = exit_order_id e
    /\ exit_order_id (mark_exit_confirmed now e broker_status oid)
       = (if truthy oid then oid else exit_order_id e)
    /\ exit_order_id (mark_exit_success now e oid) = oid.
Proof.
  intros. split; [apply run_claim_order_ids|].
  split.
  { unfold mark_exit_pending. cbn [exit_pending_since set_exit_reason set_status].
    destruct (is_null (exit_pending_since e)), increment; reflexivity. }
  split; [reflexivity|].
  split; [|reflexivity].
  unfold mark_exit_confirmed. destruct (truthy oid).
  - cbn [exit_time set_exit_order_id]. destruct (is_null _); reflexivity.
  - cbn [exit_time set_broker_order_status set_status].
    destruct (is_null (exit_time e)); reflexivity.
Qed.

(** C2 fails as stated: on a position holding order id ["ORD-1"],
    [mark_exit_confirmed] with another id replaces it, and
    [mark_exit_success] with a response that carried no ['orderid'] clears
    it. *)
Lemma exit_order_id_overwritten :
  exit_order_id ordered_position = Some "ORD-1"
  /\ exit_order_id (mark_exit_confirmed 0 ordered_position "complete" (Some "ORD-2"))
     = Some "ORD-2"
  /\ exit_order_id (mark_exit_success 0 ordered_position None) = None.
Proof. repeat split. Qed.

(** ** C6 *)

Lemma claim_values_bounded reason now r :
  claim_where (ex_id r) r = true -> attempts_bounded r ->
  attempts_bounded (claim_values reason now r).
Proof.
  unfold claim_where, attempts_bounded, attempts. intros Hw [Hle Hfresh].
  apply andb_prop in Hw as [Hw Hnull]. apply andb_prop in Hw as [_ Hst].
  apply String.eqb_eq in Hst. destruct (exit_order_id r) eqn:Ho; [discriminate|].
  specialize (Hfresh Hst eq_refl). cbn. split; [lia|]. discriminate.
Qed.

Lemma retry_values_bounded reason now r :
  retry_where (ex_id r) now r = true -> attempts_bounded (retry_values reason now r).
Proof.
  unfold retry_where, attempts_bounded, attempts. intros Hw.
  apply andb_prop in Hw as [Hw Hlt]. apply andb_prop in Hw as [Hw _].
  apply andb_prop in Hw as [Hw _]. apply andb_prop in Hw as [_ Hst].
  apply String.eqb_eq in Hst.
  destruct (exit_attempt_count r) as [c|] eqn:Hc; [|discriminate].
  cbn in Hlt. apply Z.ltb_lt in Hlt. cbn. rewrite Hst, Hc. cbn.
  split; [lia|]. discriminate.
Qed.

Lemma run_claim_bounded tbl c k r :
  tbl !! k = Some r -> attempts_bounded r ->
  exists r', snd (run_claim tbl c) !! k = Some r'
             /\ ex_id r' = ex_id r /\ attempts_bounded r'.
Proof.
  intros Hk Hb.
  destruct c as [[] now i reason|[] now i reason]; cbn [run_claim];
    try solve [exists r; auto].
  - rewrite atomic_claim_exit_table, sa_update_lookup, Hk. cbn.
    destruct (claim_where i r) eqn:Hw; [|exists r; auto].
    eexists; split; [reflexivity|]. split; [reflexivity|].
    apply claim_values_bounded; [|assumption].
    assert (ex_id r = i) as ->; [|assumption].
    unfold claim_where in Hw. apply andb_prop in Hw as [Hw _].
    apply andb_prop in Hw as [Hw _]. apply Z.eqb_eq in Hw. exact Hw.
  - rewrite atomic_claim_exit_retry_table, sa_update_lookup, Hk. cbn.
    destruct (retry_where i now r) eqn:Hw; [|exists r; auto].
    eexists; split; [reflexivity|]. split; [reflexivity|].
    apply retry_values_bounded with (now := now).
    assert (ex_id r = i) as ->; [|assumption].
    unfold retry_where in Hw. repeat (apply andb_prop in Hw as [Hw _]).
    apply Z.eqb_eq in Hw. exact Hw.
Qed.

(** C6, as the code has it.  A row whose attempt count is at most
    [MAX_EXIT_ATTEMPTS], and below it if the row is still [entered] without
    an order id, keeps a count of at most [MAX_EXIT_ATTEMPTS] through any
    sequence of [atomic_claim_exit] and [atomic_claim_exit_retry] calls. *)
Theorem attempt_count_bounded :
  forall (cs : list ClaimCall) (tbl : ExecutionTable) (k : nat) (p : StrategyExecution),
    tbl !! k = Some p ->
    attempts p <= MAX_EXIT_ATTEMPTS ->
    (status p = "entered" -> exit_order_id p = None -> attempts p < MAX_EXIT_ATTEMPTS) ->
    exists p', snd (run_claims tbl cs) !! k = Some p'
               /\ ex_id p' = ex_id p
               /\ attempts p' <= MAX_EXIT_ATTEMPTS.
Proof.
  intros cs tbl k p Hk Hle Hfresh.
  assert (attempts_bounded p) as Hb by (split; assumption). clear Hle Hfresh.
  revert tbl p Hk Hb.
  induction cs as [|c cs IH]; intros tbl p Hk Hb.
  - exists p. simpl. destruct Hb. auto.
  - simpl. destruct (run_claim_bounded tbl c k p Hk Hb) as (r1 & Hk1 & Hid1 & Hb1).
    destruct (run_claim tbl c) as [b1 tbl1]. simpl in Hk1.
    destruct (IH tbl1 r1 Hk1 Hb1) as (p' & Hk' & Hid' & Hle').
    destruct (run_claims tbl1 cs) as [bs tbl2]. simpl in *.
    exists p'. repeat split; auto. congruence.
Qed.

(** A fresh position claimed once and retried five times, ten seconds
    apart: the count stops at the maximum. *)
Lemma attempt_count_bounded_witness :
  exists p', snd (run_claims [entered_position 1 (Some sell_leg) "NIFTY24CE"]
                    [Fresh Executed 0 1 "max_loss";
                     Retry Executed 10000000 1 "retry"; Retry Executed 20000000 1 "retry";
                     Retry Executed 30000000 1 "retry"; Retry Executed 40000000 1 "retry";
                     Retry Executed 50000000 1 "retry"]) !! 0%nat = Some p'
             /\ ex_id p' = 1
             /\ attempts p' <= MAX_EXIT_ATTEMPTS.
Proof.
  apply (attempt_count_bounded _ [entered_position 1 (Some sell_leg) "NIFTY24CE"]
           0%nat (entered_position 1 (Some sell_leg) "NIFTY24CE")).
  - reflexivity.
  - vm_compute. discriminate.
  - intros _ _. vm_compute. reflexivity.
Defined.

(** C6 fails as stated: a position that is [entered] with a count of 5 is
    within the bound, and a fresh claim on it succeeds and takes the count
    to 6. *)
Lemma attempt_count_exceeds_max :
  attempts entered_at_max <= MAX_EXIT_ATTEMPTS
  /\ fst (run_claims [entered_at_max] [Fresh Executed 0 3 "max_loss"]) = [true]
  /\ (attempts <$> snd (run_claims [entered_at_max] [Fresh Executed 0 3 "max_loss"]))
     = [6]
  /\ ~ (6 <= MAX_EXIT_ATTEMPTS).
Proof.
  split; [vm_compute; discriminate|].
  split; [reflexivity|]. split; [reflexivity|]. vm_compute. auto.
Qed.

(** ** C7 *)

Lemma retry_where_other tbl p now r :
  pk_unique tbl -> In p tbl -> In r tbl ->
  retry_where (ex_id p) now r = true -> r = p.
Proof.
  intros Hpk Hp Hr Hw. apply (pk_unique_inj tbl); auto.
  unfold retry_where in Hw. repeat (apply andb_prop in Hw as [Hw _]).
  apply Z.eqb_eq in Hw. exact Hw.
Qed.

Lemma query_get_map_hit (f : StrategyExecution -> StrategyExecution) tbl p :
  pk_unique tbl -> In p tbl -> (forall r, ex_id (f r) = ex_id r) ->
  query_get (map f tbl) (ex_id p) = Some (f p).
Proof.
  intros Hpk Hin Hid.
  assert (pk_unique (map f tbl)) as Hpk'.
  { unfold pk_unique. rewrite map_map.
    rewrite (map_ext _ ex_id) by (intros; apply Hid). exact Hpk. }
  rewrite <- (Hid p). apply query_get_unique; [exact Hpk'|]. apply in_map, Hin.
Qed.

(** C7. [atomic_claim_exit_retry] on a position before its
    [exit_retry_after] returns [False] and changes nothing.  At or after that
    instant, on a position that is [exit_pending] without an order id and
    with attempts left, and with the statement executed by the store, it
    returns [True]; the position then has one more attempt, a retry instant
    of [now + EXIT_RETRY_DELAY_SECONDS], and the given reason. *)
Theorem retry_claim_cooldown :
  forall (tbl : ExecutionTable) (p : StrategyExecution) (t now : Z) (reason : string),
    pk_unique tbl -> In p tbl -> exit_retry_after p = Some t ->
    (now < t ->
     forall session,
       atomic_claim_exit_retry session now tbl (ex_id p) reason = (false, tbl))
    /\ (t <= now ->
        forall c, status p = "exit_pending" -> exit_order_id p = None ->
          exit_attempt_count p = Some c -> c < MAX_EXIT_ATTEMPTS ->
          exists p',
            fst (atomic_claim_exit_retry Executed now tbl (ex_id p) reason) = true
            /\ query_get (snd (atomic_claim_exit_retry Executed now tbl (ex_id p) reason))
                 (ex_id p) = Some p'
            /\ exit_attempt_count p' = Some (c + 1)
            /\ exit_retry_after p' = Some (now + 10 * 1000000)
            /\ exit_reason p' = Some reason
            /\ status p' = "exit_pending"
            /\ exit_order_id p' = None).
Proof.
  intros tbl p t now reason Hpk Hin Hra. split.
  - intros Hlt session. destruct session; [|reflexivity].
    unfold atomic_claim_exit_retry. rewrite sa_update_none; [reflexivity|].
    intros r Hr. destruct (retry_where (ex_id p) now r) eqn:Hw; [|reflexivity].
    assert (r = p) as -> by (eapply retry_where_other; eauto).
    unfold retry_where in Hw. rewrite Hra in Hw. cbn [sql_le] in Hw.
    apply andb_prop in Hw as [Hw _]. apply andb_prop in Hw as [_ Hle].
    apply Z.leb_le in Hle. lia.
  - intros Hle c Hst Hoid Hc Hmax.
    assert (retry_where (ex_id p) now p = true) as Hw.
    { unfold retry_where. rewrite Hst, Hoid, Hra, Hc, Z.eqb_refl. cbn.
      apply andb_true_intro. split; [apply Z.leb_le; lia | apply Z.ltb_lt; exact Hmax]. }
    exists (retry_values reason now p). split.
    { unfold atomic_claim_exit_retry.
      pose proof (sa_update_rowcount_pos (retry_where (ex_id p) now)
                    (retry_values reason now) tbl p Hin Hw) as Hpos.
      destruct (sa_update _ _ tbl) as [n tb]. exact Hpos. }
    split.
    { rewrite atomic_claim_exit_retry_table. unfold sa_update. cbn [snd].
      rewrite (query_get_map_hit
                 (fun r => if retry_where (ex_id p) now r
                           then retry_values reason now r else r) tbl p Hpk Hin).
      - rewrite Hw. reflexivity.
      - intros r. destruct (retry_where _ _ r); reflexivity. }
    cbn. rewrite Hc, Hst, Hoid. repeat split.
Qed.

(** The position failed at instant 0 is refused at second 9 and claimed at
    second 10. *)
Lemma retry_claim_cooldown_witness :
  atomic_claim_exit_retry Executed 9000000 [pending_position] 4 "retry"
    = (false, [pending_position])
  /\ fst (atomic_claim_exit_retry Executed 10000000 [pending_position] 4 "retry") = true.
Proof.
  assert (pk_unique [pending_position]) as Hpk.
  { unfold pk_unique. simpl. apply NoDup_cons.
    split; [apply not_elem_of_nil | apply NoDup_nil_2]. }
  assert (In pending_position [pending_position]) as Hin by (left; reflexivity).
  split.
  - destruct (retry_claim_cooldown [pending_position] pending_position
                10000000 9000000 "retry" Hpk Hin eq_refl) as [H _].
    apply H. reflexivity.
  - destruct (retry_claim_cooldown [pending_position] pending_position
                10000000 10000000 "retry" Hpk Hin eq_refl) as [_ H].
    destruct (H ltac:(discriminate) 1 eq_refl eq_refl eq_refl eq_refl) as (p' & Hfst & _).
    exact Hfst.
Defined.

(** ** C5 and C10: broker verification *)

Lemma is_success_false st : st <> Some "success" -> is_success st = false.
Proof. intros H. unfold is_success. apply bool_decide_eq_false. exact H. Qed.

(** A query that raises is answered with [can_place_exit = False]. *)
Lemma verification_error_closed q e : can_place_exit (verification_error q e) = false.
Proof. reflexivity. Qed.

(** C5 fails on the code.  When the position is still open at the broker and
    the orderbook and tradebook queries both fail in-band, the verification
    answers [can_place_exit = True]. *)
Theorem book_failures_reported_safe :
  forall (env : Env) (t : nat) (client : ExtendedOpenAlgoAPI)
         (execution : StrategyExecution) (name : string)
         (positions : list PositionRow) (q : Z)
         (st2 : option string) (orders : list OrderRow)
         (st3 : option string) (trades : list TradeRow),
    positionbook env client t = Returns (Some "success") positions ->
    scan_positions (symbol execution) positions = inr (Some q) -> q <> 0 ->
    orderbook env client t = Returns st2 orders -> st2 <> Some "success" ->
    tradebook env client t = Returns st3 trades -> st3 <> Some "success" ->
    verify_exit_order_at_broker env t client execution name
    = mkVerify false None None q true
        ("No exit order found for " ++ symbol execution ++ ", position quantity="
         ++ str_of_Z q).
Proof.
  intros env t client execution name positions q st2 orders st3 trades
         Hpb Hscan Hq Hob Hst2 Htb Hst3.
  unfold verify_exit_order_at_broker.
  rewrite Hpb. change (is_success (Some "success")) with true. cbv iota.
  rewrite Hscan. cbv [default from_option id].
  rewrite Hob, (is_success_false st2 Hst2), Htb, (is_success_false st3 Hst3).
  destruct (Z.eqb_spec q 0) as [|_]; [contradiction|reflexivity].
Qed.

Lemma book_failures_reported_safe_witness :
  can_place_exit
    (verify_exit_order_at_broker books_outage_env 0 sample_client
       pending_position "straddle") = true.
Proof.
  rewrite (book_failures_reported_safe books_outage_env 0 sample_client
             pending_position "straddle"
             [mkPositionRow (Some "NIFTY24CE") (IntOk (-50))] 50
             (Some "error") [] (Some "error") []);
    try reflexivity; discriminate.
Defined.

(** The same answer when only the orderbook query fails and the tradebook
    shows no exit trade. *)
Lemma orderbook_failure_reported_safe :
  verify_exit_order_at_broker orderbook_outage_env 0 sample_client
    pending_position "straddle"
  = mkVerify false None None 50 true
      "No exit order found for NIFTY24CE, position quantity=50".
Proof. vm_compute. reflexivity. Qed.

Lemma verify_positionbook_failure env t client execution name st rows :
  positionbook env client t = Returns st rows -> st <> Some "success" ->
  verify_exit_order_at_broker env t client execution name
  = mkVerify true (Some "complete") None 0 false
      "Position already closed at broker (quantity=0)".
Proof.
  intros Hpb Hst. unfold verify_exit_order_at_broker.
  rewrite Hpb, (is_success_false st Hst). reflexivity.
Qed.

Lemma query_get_id tbl i e : query_get tbl i = Some e -> ex_id e = i.
Proof.
  unfold query_get. intros H. apply find_some in H as [_ H].
  apply Z.eqb_eq in H. exact H.
Qed.

Lemma query_get_commit tbl i e e' :
  query_get tbl i = Some e -> ex_id e' = ex_id e ->
  query_get (map (fun r => if ex_id r =? ex_id e' then e' else r) tbl) i = Some e'.
Proof.
  intros Hget Hid. pose proof (query_get_id _ _ _ Hget) as Hi.
  unfold query_get in *. induction tbl as [|r tbl IH]; simpl in *; [discriminate|].
  destruct (Z.eqb_spec (ex_id r) i) as [Hr|Hr].
  - injection Hget as ->. rewrite Hid, Z.eqb_refl, Hid, Hi, Z.eqb_refl. reflexivity.
  - destruct (Z.eqb_spec (ex_id r) (ex_id e')) as [Hr'|Hr']; [congruence|].
    destruct (Z.eqb_spec (ex_id r) i); [contradiction|]. apply IH, Hget.
Qed.

Lemma mark_exit_confirmed_status now e st oid :
  status (mark_exit_confirmed now e st oid) = "exited".
Proof.
  unfold mark_exit_confirmed. destruct (truthy oid); cbn;
    destruct (is_null (exit_time e)); reflexivity.
Qed.

Lemma mark_exit_confirmed_id now e st oid :
  ex_id (mark_exit_confirmed now e st oid) = ex_id e.
Proof.
  unfold mark_exit_confirmed. destruct (truthy oid); cbn;
    destruct (is_null (exit_time e)); reflexivity.
Qed.

(** C10. When the positionbook query comes back with a status other than
    ['success'], [verify_exit_order_at_broker] reports a position quantity of
    0, [has_exit_order = True], [order_status = 'complete'] and
    [can_place_exit = False]; and for a claimed execution on a retry attempt
    the service then calls [mark_exit_confirmed], counts a success and places
    no order: the position ends [exited]. *)
Theorem positionbook_failure_confirms_exit :
  forall (env : Env) (strategy : Strategy) (reason : string) (is_retry : bool)
         (run : ExitRun) (exec_id : Z) (w1 : World)
         (execution : StrategyExecution) (acct : TradingAccount)
         (st : option string) (rows : list PositionRow),
    claim_in_world env is_retry exec_id reason (run_world run) = (true, w1) ->
    query_get (executions w1) exec_id = Some execution ->
    account execution = Some acct -> account_is_active acct = true ->
    1 < attempts execution ->
    (forall client, positionbook env client (tick w1) = Returns st rows) ->
    st <> Some "success" ->
    (forall client,
        verify_exit_order_at_broker env (tick w1) client execution (s_name strategy)
        = mkVerify true (Some "complete") None 0 false
            "Position already closed at broker (quantity=0)")
    /\ exists now e',
        e' = mark_exit_confirmed now execution "complete" None
        /\ query_get
             (executions (run_world
                (process_execution env strategy reason is_retry run exec_id)))
             exec_id = Some e'
        /\ status e' = "exited"
        /\ success_count (process_execution env strategy reason is_retry run exec_id)
           = success_count run + 1
        /\ orders_sent (run_world
             (process_execution env strategy reason is_retry run exec_id))
           = orders_sent w1.
Proof.
  intros env strategy reason is_retry run exec_id w1 execution acct st rows
         Hclaim Hget Hacct Hactive Hattempts Hpb Hst.
  assert (forall client,
             verify_exit_order_at_broker env (tick w1) client execution (s_name strategy)
             = mkVerify true (Some "complete") None 0 false
                 "Position already closed at broker (quantity=0)") as Hverify.
  { intros client. eapply verify_positionbook_failure; eauto. }
  split; [exact Hverify|].
  exists (utc_clock env (S (tick w1))), 
         (mark_exit_confirmed (utc_clock env (S (tick w1))) execution "complete" None).
  split; [reflexivity|].
  unfold process_execution. rewrite Hclaim. cbn [negb].
  rewrite Hget, Hacct, Hactive. cbn [negb].
  unfold attempts in Hattempts. apply Z.ltb_lt in Hattempts.
  destruct (account_clients run !! account_pk acct) as [c|];
    rewrite Hattempts, Hverify; cbn -[mark_exit_confirmed query_get];
    (split; [|split; [apply mark_exit_confirmed_status|split; reflexivity]]);
    apply (query_get_commit (executions w1) exec_id execution); auto;
    apply mark_exit_confirmed_id.
Qed.

Lemma positionbook_failure_confirms_exit_witness :
  exists e',
    query_get
      (executions (run_world
         (process_execution outage_env (sample_strategy true "breakout")
            "Supertrend RETRY - 1 positions pending" true
            (mkRun retry_world ∅ 0) 4))) 4 = Some e'
    /\ status e' = "exited"
    /\ success_count
         (process_execution outage_env (sample_strategy true "breakout")
            "Supertrend RETRY - 1 positions pending" true
            (mkRun retry_world ∅ 0) 4) = 1.
Proof.
  pose (w1 := snd (claim_in_world outage_env true 4
                     "Supertrend RETRY - 1 positions pending" retry_world)).
  pose (e := retry_values "Supertrend RETRY - 1 positions pending" 10000000
               pending_position).
  destruct (positionbook_failure_confirms_exit outage_env
              (sample_strategy true "breakout")
              "Supertrend RETRY - 1 positions pending" true
              (mkRun retry_world ∅ 0) 4 w1 e sample_account (Some "error") [])
    as [_ (now & e' & _ & Hq & Hs & Hc & _)].
  - vm_compute. reflexivity.
  - vm_compute. reflexivity.
  - reflexivity.
  - reflexivity.
  - vm_compute. reflexivity.
  - intros client. reflexivity.
  - discriminate.
  - exists e'. split; [exact Hq|]. split; [exact Hs | exact Hc].
Defined.

(** ** C3: the retry sweep and the latch *)

Lemma trigger_latched env strategy reason w s :
  strategy_get (strategies w) (s_id strategy) = Some s ->
  supertrend_exit_triggered s = Some true ->
  trigger_sequential_exit env strategy reason w = w.
Proof.
  intros Hget Htrig. unfold trigger_sequential_exit. rewrite Hget, Htrig. reflexivity.
Qed.

(** C3 fails on the code.  For a strategy whose latch is set, the retry
    sweep finds the positions due for retry and calls
    [trigger_sequential_exit], which returns at the latch check: no
    execution is claimed or changed and no order is placed. *)
Theorem retry_sweep_stops_at_latch :
  forall (env : Env) (processed : gset Z) (w : World) (strategy s : Strategy),
    strategy_get (strategies w) (s_id strategy) = Some s ->
    supertrend_exit_triggered s = Some true ->
    executions (retry_pass env processed w strategy) = executions w
    /\ orders_sent (retry_pass env processed w strategy) = orders_sent w
    /\ strategies (retry_pass env processed w strategy) = strategies w.
Proof.
  intros env processed w strategy s Hget Htrig. unfold retry_pass.
  destruct (bool_decide _); [repeat split|].
  cbn [utcnow]. destruct (get_pending_exit_retries _ _ _); [repeat split|].
  rewrite (trigger_latched env strategy _ (next_tick w) s Hget Htrig).
  repeat split.
Qed.

(** One position is due for retry (pending, no order id, cooldown elapsed,
    one attempt made), and a whole scheduler tick leaves it as it was. *)
Lemma retry_sweep_stops_at_latch_witness :
  get_pending_exit_retries 10000000 (executions retry_world) 1 = [pending_position]
  /\ executions (retry_pass retry_env ∅ retry_world (sample_strategy true "breakout"))
     = [pending_position]
  /\ executions (monitor_strategies retry_env retry_world) = [pending_position]
  /\ orders_sent (monitor_strategies retry_env retry_world) = [].
Proof.
  split; [reflexivity|].
  destruct (retry_sweep_stops_at_latch retry_env ∅ retry_world
              (sample_strategy true "breakout") (sample_strategy true "breakout")
              eq_refl eq_refl) as (He & _ & _).
  split; [exact He|]. split; vm_compute; reflexivity.
Defined.

(** ** C4: direction convention *)

(** In [get_final_bands_nb] a close above the previous upper band sets the
    direction of the bar to 1, and a close below the previous lower band
    (and not above the upper one) sets it to -1. *)
Lemma final_bands_step_up close b i :
  (i < length (dir_ b))%nat ->
  f_gt (at_ NaN close i) (at_ NaN (upper_ b) (i - 1)) = true ->
  at_ 0 (dir_ (final_bands_step close b i)) i = 1.
Proof.
  intros Hi Hgt. unfold final_bands_step. rewrite Hgt.
  assert (at_ 0 (<[i:=1]> (dir_ b)) i = 1) as Hd.
  { unfold at_. rewrite list_lookup_insert_eq by exact Hi. reflexivity. }
  rewrite Hd. cbn. exact Hd.
Qed.

Lemma final_bands_step_down close b i :
  (i < length (dir_ b))%nat ->
  f_gt (at_ NaN close i) (at_ NaN (upper_ b) (i - 1)) = false ->
  f_lt (at_ NaN close i) (at_ NaN (lower_ b) (i - 1)) = true ->
  at_ 0 (dir_ (final_bands_step close b i)) i = -1.
Proof.
  intros Hi Hgt Hlt. unfold final_bands_step. rewrite Hgt, Hlt.
  assert (at_ 0 (<[i:=-1]> (dir_ b)) i = -1) as Hd.
  { unfold at_. rewrite list_lookup_insert_eq by exact Hi. reflexivity. }
  rewrite Hd. cbn. exact Hd.
Qed.

(** The service reads the direction the other way round: a breakout exit
    is signalled exactly on direction -1 and a breakdown exit exactly on
    direction 1. *)
Lemma exit_signal_breakout env c s d :
  is_Some (exit_signal env (Some "breakout") c s d) <-> d = Some (-1).
Proof.
  unfold exit_signal. rewrite bool_decide_eq_true_2 by reflexivity.
  destruct (bool_decide (d = Some (-1))) eqn:Hd.
  - apply bool_decide_eq_true in Hd. split; [intros _; exact Hd | intros _; eauto].
  - apply bool_decide_eq_false in Hd. split; [intros [x Hx]; discriminate | contradiction].
Qed.

Lemma exit_signal_breakdown env c s d :
  is_Some (exit_signal env (Some "breakdown") c s d) <-> d = Some 1.
Proof.
  unfold exit_signal. rewrite bool_decide_eq_false_2 by discriminate.
  rewrite bool_decide_eq_true_2 by reflexivity.
  destruct (bool_decide (d = Some 1)) eqn:Hd.
  - apply bool_decide_eq_true in Hd. split; [intros _; exact Hd | intros _; eauto].
  - apply bool_decide_eq_false in Hd. split; [intros [x Hx]; discriminate | contradiction].
Qed.

(** C4 fails on the code.  A last bar closing above the upper band gets
    direction 1 from [calculate_supertrend] (bullish, by its docstring), and
    a breakout strategy is then not triggered and no order is placed; a last
    bar closing below the lower band gets direction -1, and the breakout
    strategy is triggered and its position closed.  In general the breakout
    signal is given exactly on direction -1 and the breakdown signal exactly
    on direction 1. *)
Theorem breakout_fires_on_bearish_direction :
  last (st_direction
          (calculate_supertrend (signal_env bullish_bars) (high_of bullish_bars)
             (low_of bullish_bars) (close_of bullish_bars) 2 3%Q)) = Some (Some 1)
  /\ orders_sent (check_supertrend_exit (signal_env bullish_bars)
                    (sample_strategy false "breakout") breakout_world) = []
  /\ (supertrend_exit_triggered <$>
        strategies (check_supertrend_exit (signal_env bullish_bars)
                      (sample_strategy false "breakout") breakout_world))
     = [Some false]
  /\ last (st_direction
             (calculate_supertrend (signal_env bearish_bars) (high_of bearish_bars)
                (low_of bearish_bars) (close_of bearish_bars) 2 3%Q)) = Some (Some (-1))
  /\ ((fun r => (req_action r, req_symbol r)) <$>
        orders_sent (check_supertrend_exit (signal_env bearish_bars)
                       (sample_strategy false "breakout") breakout_world))
     = [("BUY", "NIFTY24CE")]
  /\ (supertrend_exit_reason <$>
        strategies (check_supertrend_exit (signal_env bearish_bars)
                      (sample_strategy false "breakout") breakout_world))
     = [Some "supertrend_breakout (Close: 80.00, ST: 114.50)"]
  /\ (forall env c s d,
         is_Some (exit_signal env (Some "breakout") c s d) <-> d = Some (-1))
  /\ (forall env c s d,
         is_Some (exit_signal env (Some "breakdown") c s d) <-> d = Some 1).
Proof.
  split; [vm_compute; reflexivity|].
  split; [vm_compute; reflexivity|].
  split; [vm_compute; reflexivity|].
  split; [vm_compute; reflexivity|].
  split; [vm_compute; reflexivity|].
  split; [vm_compute; reflexivity|].
  split; [apply exit_signal_breakout | apply exit_signal_breakdown].
Qed.

(** ** C8: processing order *)

Lemma sa_update_column {A} (f : StrategyExecution -> A) w v tbl :
  (forall r, f (v r) = f r) -> f <$> snd (sa_update w v tbl) = f <$> tbl.
Proof.
  intros Hv. unfold sa_update; cbn [snd]. rewrite <- list_fmap_compose.
  apply list_fmap_ext. intros _ r _. cbn. destruct (w r); auto.
Qed.

Lemma fixed_columns_ids t1 t2 :
  fixed_columns <$> t1 = fixed_columns <$> t2 -> map ex_id t1 = map ex_id t2.
Proof.
  intros H. apply (f_equal (fmap (fun c : Z * option StrategyLeg * string => c.1.1))) in H.
  rewrite <- !list_fmap_compose in H. exact H.
Qed.

Lemma fixed_columns_pk t1 t2 :
  fixed_columns <$> t1 = fixed_columns <$> t2 -> pk_unique t2 -> pk_unique t1.
Proof. unfold pk_unique. intros H. rewrite (fixed_columns_ids _ _ H). auto. Qed.

Lemma claim_in_world_fixed env is_retry i reason w :
  fixed_columns <$> executions (snd (claim_in_world env is_retry i reason w))
  = fixed_columns <$> executions w
  /\ orders_sent (snd (claim_in_world env is_retry i reason w)) = orders_sent w.
Proof.
  unfold claim_in_world. cbn [utcnow].
  destruct is_retry.
  - destruct (atomic_claim_exit_retry _ _ _ _ _) as [b t] eqn:E. cbn.
    split; [|reflexivity]. change t with (snd (b, t)). rewrite <- E.
    destruct (db_session env _); [|reflexivity].
    rewrite atomic_claim_exit_retry_table. apply sa_update_column. reflexivity.
  - destruct (atomic_claim_exit _ _ _ _ _) as [b t] eqn:E. cbn.
    split; [|reflexivity]. change t with (snd (b, t)). rewrite <- E.
    destruct (db_session env _); [|reflexivity].
    rewrite atomic_claim_exit_table. apply sa_update_column. reflexivity.
Qed.

Lemma query_get_In tbl i e : query_get tbl i = Some e -> In e tbl.
Proof. unfold query_get. intros H. apply find_some in H as [H _]. exact H. Qed.

Lemma commit_execution_fixed e0 e w :
  pk_unique (executions w) -> In e0 (executions w) ->
  fixed_columns e = fixed_columns e0 ->
  fixed_columns <$> executions (commit_execution e w) = fixed_columns <$> executions w
  /\ orders_sent (commit_execution e w) = orders_sent w.
Proof.
  intros Hpk Hin Hfix. split; [|reflexivity].
  unfold commit_execution. cbn [executions with_executions].
  change (map ?f ?l) with (f <$> l). rewrite <- list_fmap_compose.
  apply list_fmap_ext. intros k r Hr. cbn.
  destruct (Z.eqb_spec (ex_id r) (ex_id e)) as [Heq|]; [|reflexivity].
  assert (r = e0) as Hre; [|rewrite Hre; exact Hfix].
  apply (pk_unique_inj (executions w)); auto.
  - apply list_elem_of_In. eapply list_elem_of_lookup_2. exact Hr.
  - rewrite Heq. injection Hfix as H _ _. exact H.
Qed.

Lemma place_and_mark_effect env strategy acct client execution clients count w :
  pk_unique (executions w) ->
  exists req,
    placed req = closing execution
    /\ orders_sent (run_world (place_and_mark env strategy acct client execution
                                 clients count w)) = (orders_sent w ++ [req])%list
    /\ fixed_columns <$> executions (run_world (place_and_mark env strategy acct client
                                          execution clients count w))
       = fixed_columns <$> executions w.
Proof.
  intros Hpk. unfold place_and_mark.
  set (req := mkOrderRequest _ _ _ _ _ _ _ _ _).
  exists req. split; [reflexivity|].
  set (response := match place_order_with_freeze_check env req (tick w) with
                   | PlaceRaises e => _ | PlaceReturns r => r end).
  set (succeeded := match response with Some r => _ | None => false end).
  cbn [utcnow]. 
  destruct (query_get (executions (next_tick (send_order req w))) (ex_id execution))
    as [e|] eqn:Hget.
  - apply query_get_In in Hget. cbn [executions next_tick send_order] in Hget.
    destruct succeeded; cbn [run_world].
    + destruct (commit_execution_fixed e (mark_exit_success
                  (utc_clock env (tick (next_tick (send_order req w)))) e
                  (response ≫= resp_orderid))
                  (next_tick (next_tick (send_order req w)))) as [Hf Ho];
        [exact Hpk | exact Hget | reflexivity |].
      split; [|exact Hf]. reflexivity.
    + destruct (commit_execution_fixed e (mark_exit_failed
                  (utc_clock env (tick (next_tick (send_order req w)))) e
                  match response with
                  | Some r => if response_truthy r
                              then Some (default "Unknown error" (resp_message r))
                              else Some "No response"
                  | None => Some "No response"
                  end true)
                  (next_tick (next_tick (send_order req w)))) as [Hf Ho];
        [exact Hpk | exact Hget | reflexivity |].
      split; [|exact Hf]. reflexivity.
  - destruct succeeded; cbn; split; reflexivity.
Qed.

Lemma mark_exit_confirmed_fixed now e st oid :
  fixed_columns (mark_exit_confirmed now e st oid) = fixed_columns e.
Proof.
  unfold mark_exit_confirmed. destruct (truthy oid); cbn;
    destruct (is_null (exit_time e)); reflexivity.
Qed.

(** One iteration keeps the fixed columns of every row and places at most
    one order, the one that closes the row with the processed id. *)
Lemma process_execution_effect env strategy reason is_retry run i :
  pk_unique (executions (run_world run)) ->
  fixed_columns <$> executions (run_world
      (process_execution env strategy reason is_retry run i))
  = fixed_columns <$> executions (run_world run)
  /\ (orders_sent (run_world (process_execution env strategy reason is_retry run i))
      = orders_sent (run_world run)
      \/ exists e req,
          ex_id e = i
          /\ fixed_columns e ∈ (fixed_columns <$> executions (run_world run))
          /\ placed req = closing e
          /\ orders_sent (run_world (process_execution env strategy reason is_retry run i))
             = (orders_sent (run_world run) ++ [req])%list).
Proof.
  intros Hpk. unfold process_execution.
  destruct (claim_in_world_fixed env is_retry i reason (run_world run)) as [Hf1 Ho1].
  destruct (claim_in_world env is_retry i reason (run_world run)) as [claimed w1].
  cbn [snd] in Hf1, Ho1.
  assert (pk_unique (executions w1)) as Hpk1 by (eapply fixed_columns_pk; eauto).
  destruct claimed; cbn [negb]; [|split; [exact Hf1 | left; exact Ho1]].
  destruct (query_get (executions w1) i) as [execution|] eqn:Hget;
    [|split; [exact Hf1 | left; exact Ho1]].
  pose proof (query_get_In _ _ _ Hget) as Hin.
  pose proof (query_get_id _ _ _ Hget) as Hid.
  destruct (account execution) as [acct|]; [|split; [exact Hf1 | left; exact Ho1]].
  destruct (account_is_active acct); cbn [negb];
    [|split; [exact Hf1 | left; exact Ho1]].
  assert (forall client clients count w,
    executions w = executions w1 -> orders_sent w = orders_sent w1 ->
    fixed_columns <$> executions (run_world
        (place_and_mark env strategy acct client execution clients count w))
    = fixed_columns <$> executions (run_world run)
    /\ (orders_sent (run_world
          (place_and_mark env strategy acct client execution clients count w))
        = orders_sent (run_world run)
        \/ exists e req,
            ex_id e = i
            /\ fixed_columns e ∈ (fixed_columns <$> executions (run_world run))
            /\ placed req = closing e
            /\ orders_sent (run_world
                 (place_and_mark env strategy acct client execution clients count w))
               = (orders_sent (run_world run) ++ [req])%list)) as Hplace.
  { intros client clients count w He Ho.
    destruct (place_and_mark_effect env strategy acct client execution clients count w)
      as (req & Hreq & Hsent & Hfix); [rewrite He; exact Hpk1|].
    split; [rewrite Hfix, He; exact Hf1|].
    right. exists execution, req. split; [exact Hid|]. split.
    - rewrite <- Hf1. apply list_elem_of_fmap_2, list_elem_of_In, Hin.
    - split; [exact Hreq|]. rewrite Hsent, Ho, Ho1. reflexivity. }
  set (cached := match account_clients run !! account_pk acct with
                 | Some c => (c, account_clients run)
                 | None => _
                 end).
  destruct cached as [client clients].
  destruct (1 <? coalesce (exit_attempt_count execution) 0); [|apply Hplace; reflexivity].
  destruct (can_place_exit _); cbn [negb]; [apply Hplace; reflexivity|].
  destruct (bool_decide _).
  { cbn [utcnow run_world].
    destruct (commit_execution_fixed execution
                (mark_exit_confirmed (utc_clock env (tick (next_tick w1))) execution
                   "complete"
                   (order_id (verify_exit_order_at_broker env (tick w1) client
                                execution (s_name strategy))))
                (next_tick (next_tick w1))) as [Hf Ho];
      [exact Hpk1 | exact Hin | apply mark_exit_confirmed_fixed |].
    split; [rewrite Hf; exact Hf1 | left; rewrite Ho; exact Ho1]. }
  destruct (position_quantity _ =? 0).
  { cbn [utcnow run_world].
    destruct (commit_execution_fixed execution
                (set_exit_time (Some (utc_clock env (tick (next_tick w1))))
                   (set_exit_reason (Some "broker_confirmed_closed")
                      (set_status "exited" execution)))
                (next_tick (next_tick w1))) as [Hf Ho];
      [exact Hpk1 | exact Hin | reflexivity |].
    split; [rewrite Hf; exact Hf1 | left; rewrite Ho; exact Ho1]. }
  cbn [run_world]. split; [exact Hf1 | left; exact Ho1].
Qed.




Lemma strategy_get_id ss i s : strategy_get ss i = Some s -> s_id s = i.
Proof.
  unfold strategy_get. intros H. apply find_some in H as [_ H].
  apply Z.eqb_eq in H. exact H.
Qed.

Lemma candidates_in_table reason strategy w c :
  In c (candidates reason strategy w) -> In c (executions w).
Proof.
  unfold candidates, ordered_executions, sell_positions, buy_positions,
    unknown_positions, open_executions_of.
  intros H. repeat (apply in_app_or in H as [H|H]);
    apply filter_In in H as [H _]; apply filter_In in H as [H _];
    destruct (str_contains _ _); apply filter_In in H as [H _]; exact H.
Qed.




Lemma leg_action_is_spec a ex :
  leg_action_is a ex = true -> exists l, leg ex = Some l /\ action l = a.
Proof.
  unfold leg_action_is. destruct (leg ex) as [l|]; [|discriminate].
  intros H. apply String.eqb_eq in H. eauto.
Qed.






(** * Further properties of the exit lifecycle *)

(** ** Fresh claims happen once *)

Lemma claim_values_unclaimable i reason now r :
  claim_where i (claim_values reason now r) = false.
Proof. unfold claim_where. cbn. rewrite andb_false_r. reflexivity. Qed.

Lemma retry_values_unclaimable i j reason now r :
  retry_where j now r = true -> claim_where i (retry_values reason now r) = false.
Proof.
  unfold retry_where, claim_where. intros H.
  do 3 (apply andb_prop in H as [H _]). apply andb_prop in H as [_ H].
  apply String.eqb_eq in H. cbn. rewrite H. cbn. rewrite andb_false_r. reflexivity.
Qed.

Lemma sa_update_In w v tbl r' :
  In r' (snd (sa_update w v tbl)) ->
  exists r, In r tbl /\ r' = (if w r then v r else r).
Proof.
  unfold sa_update; cbn [snd]. intros H. apply in_map_iff in H as (r & <- & Hr). eauto.
Qed.

Lemma run_claim_unclaimable i tbl c :
  unclaimable i tbl -> unclaimable i (snd (run_claim tbl c)).
Proof.
  intros Hu. destruct c as [[] now j reason|[] now j reason]; cbn [run_claim];
    try exact Hu.
  - rewrite atomic_claim_exit_table. intros r' Hr'.
    apply sa_update_In in Hr' as (r & Hr & ->).
    destruct (claim_where j r); [apply claim_values_unclaimable | apply Hu, Hr].
  - rewrite atomic_claim_exit_retry_table. intros r' Hr'.
    apply sa_update_In in Hr' as (r & Hr & ->).
    destruct (retry_where j now r) eqn:Hw;
      [eapply retry_values_unclaimable; eauto | apply Hu, Hr].
Qed.

Lemma fresh_claim_consumes session now tbl i reason :
  unclaimable i (snd (atomic_claim_exit Executed now tbl i reason))
  /\ (fst (atomic_claim_exit session now tbl i reason) = true -> session = Executed).
Proof.
  split.
  - rewrite atomic_claim_exit_table. intros r' Hr'.
    apply sa_update_In in Hr' as (r & Hr & ->).
    destruct (claim_where i r) eqn:Hw; [apply claim_values_unclaimable | exact Hw].
  - destruct session; [reflexivity | discriminate].
Qed.

Lemma fresh_claim_unclaimable session now tbl i reason :
  unclaimable i tbl -> fst (atomic_claim_exit session now tbl i reason) = false.
Proof.
  intros Hu. destruct session; [|reflexivity].
  unfold atomic_claim_exit. rewrite sa_update_none by exact Hu. reflexivity.
Qed.

Lemma fresh_successes_none i cs tbl :
  unclaimable i tbl -> fresh_successes i cs (fst (run_claims tbl cs)) = [].
Proof.
  revert tbl. induction cs as [|c cs IH]; intros tbl Hu; [reflexivity|].
  cbn [run_claims].
  pose proof (run_claim_unclaimable i tbl c Hu) as Hu1.
  destruct (run_claim tbl c) as [b tbl1] eqn:Hc. cbn [snd] in Hu1.
  specialize (IH tbl1 Hu1). destruct (run_claims tbl1 cs) as [bs tbl2].
  cbn [fst] in *. unfold fresh_successes in *. cbn [combine List.filter fst snd].
  rewrite IH.
  destruct c as [session now j reason|session now j reason]; cbn [is_fresh andb];
    [|reflexivity].
  cbn [call_target]. destruct (Z.eqb_spec j i) as [->|]; [|reflexivity].
  cbn [run_claim] in Hc.
  pose proof (fresh_claim_unclaimable session now tbl i reason Hu) as Hb.
  rewrite Hc in Hb. cbn in Hb. subst b. reflexivity.
Qed.

(** X1. In any sequence of claims on any table, at most one
    [atomic_claim_exit] on a given execution returns [True]. *)
Theorem fresh_claim_at_most_once :
  forall (cs : list ClaimCall) (tbl : ExecutionTable) (i : Z),
    (length (fresh_successes i cs (fst (run_claims tbl cs))) <= 1)%nat.
Proof.
  induction cs as [|c cs IH]; intros tbl i; [cbn; lia|].
  cbn [run_claims].
  destruct (run_claim tbl c) as [b tbl1] eqn:Hc.
  pose proof (IH tbl1 i) as IH1.
  pose proof (fresh_successes_none i cs tbl1) as Hnone.
  destruct (run_claims tbl1 cs) as [bs tbl2]. cbn [fst] in *.
  unfold fresh_successes in *. cbn [combine List.filter fst snd].
  destruct (is_fresh c && (call_target c =? i) && b) eqn:Hhit; [|exact IH1].
  apply andb_prop in Hhit as [Hhit Hb]. apply andb_prop in Hhit as [Hf Ht].
  apply Z.eqb_eq in Ht. subst b.
  destruct c as [session now j reason|]; [|discriminate]. cbn in Ht. subst j.
  cbn [run_claim] in Hc.
  destruct (fresh_claim_consumes session now tbl i reason) as [Hu Hs].
  rewrite Hc in Hs. specialize (Hs eq_refl). subst session.
  rewrite Hc in Hu. cbn [snd] in Hu.
  rewrite (Hnone Hu). cbn. lia.
Qed.

(** ** The lifecycle of one row under controller operations *)

Lemma query_get_map (f : StrategyExecution -> StrategyExecution) tbl i :
  (forall r, ex_id (f r) = ex_id r) ->
  query_get (map f tbl) i = f <$> query_get tbl i.
Proof.
  intros Hid. unfold query_get. induction tbl as [|r tbl IH]; [reflexivity|].
  cbn [map List.find]. rewrite Hid. destruct (ex_id r =? i); [reflexivity | exact IH].
Qed.

Lemma mark_exit_pending_id now e reason inc :
  ex_id (mark_exit_pending now e reason inc) = ex_id e.
Proof.
  unfold mark_exit_pending. cbn [exit_pending_since set_exit_reason set_status].
  destruct (is_null (exit_pending_since e)), inc; reflexivity.
Qed.

Lemma mark_in_table_get (mark : StrategyExecution -> StrategyExecution) tbl j i r :
  (forall e, ex_id (mark e) = ex_id e) ->
  query_get tbl i = Some r ->
  query_get (mark_in_table mark tbl j) i = Some (if i =? j then mark r else r).
Proof.
  intros Hid Hget. unfold mark_in_table.
  destruct (query_get tbl j) as [e|] eqn:Hj.
  - unfold commit_row. rewrite query_get_map, Hget.
    + cbn. f_equal. rewrite Hid.
      pose proof (query_get_id _ _ _ Hget) as Hr.
      pose proof (query_get_id _ _ _ Hj) as He. rewrite Hr, He.
      destruct (Z.eqb_spec i j) as [->|]; [|reflexivity].
      rewrite Hj in Hget. injection Hget as ->. reflexivity.
    + intros x. destruct (Z.eqb_spec (ex_id x) (ex_id (mark e))); auto.
  - destruct (Z.eqb_spec i j) as [->|]; [congruence | exact Hget].
Qed.

(** One operation leaves the row with id [i] as it is or takes one step. *)
Lemma run_op_row tbl op i r :
  query_get tbl i = Some r ->
  exists r', query_get (run_op tbl op) i = Some r' /\ (r' = r \/ row_step r r').
Proof.
  intros Hget. pose proof (query_get_id _ _ _ Hget) as Hid.
  destruct op as [c|now j reason inc|now j oid|now j msg needs|now j st oid]; cbn [run_op].
  - destruct c as [[] now j reason|[] now j reason]; cbn [run_claim];
      try (exists r; split; [exact Hget | left; reflexivity]).
    + rewrite atomic_claim_exit_table. unfold sa_update; cbn [snd].
      rewrite query_get_map, Hget by (intros x; destruct (claim_where j x); reflexivity).
      cbn. destruct (claim_where j r) eqn:Hw; eexists; (split; [reflexivity|]);
        [right | left; reflexivity].
      constructor. unfold claim_where in *. do 2 (apply andb_prop in Hw as [Hw ?]).
      rewrite Z.eqb_refl. cbn. apply Z.eqb_eq in Hw.
      apply andb_true_intro; split; assumption.
    + rewrite atomic_claim_exit_retry_table. unfold sa_update; cbn [snd].
      rewrite query_get_map, Hget by (intros x; destruct (retry_where j now x); reflexivity).
      cbn. destruct (retry_where j now r) eqn:Hw; eexists; (split; [reflexivity|]);
        [right | left; reflexivity].
      constructor. unfold retry_where in *.
      destruct (Z.eqb_spec (ex_id r) j) as [_|]; [|discriminate].
      rewrite Z.eqb_refl. exact Hw.
  - rewrite (mark_in_table_get _ tbl j i r) by (auto using mark_exit_pending_id).
    destruct (i =? j); eexists; (split; [reflexivity|]); [right; constructor | left; reflexivity].
  - rewrite (mark_in_table_get _ tbl j i r) by reflexivity || auto.
    destruct (i =? j); eexists; (split; [reflexivity|]); [right; constructor | left; reflexivity].
  - rewrite (mark_in_table_get _ tbl j i r) by reflexivity || auto.
    destruct (i =? j); eexists; (split; [reflexivity|]); [right; constructor | left; reflexivity].
  - rewrite (mark_in_table_get _ tbl j i r) by (auto using mark_exit_confirmed_id).
    destruct (i =? j); eexists; (split; [reflexivity|]); [right; constructor | left; reflexivity].
Qed.

Lemma run_ops_row ops tbl i r :
  query_get tbl i = Some r ->
  exists r', query_get (run_ops tbl ops) i = Some r' /\ rtc row_step r r'.
Proof.
  revert tbl r. induction ops as [|op ops IH]; intros tbl r Hget.
  - exists r. split; [exact Hget | constructor].
  - cbn. destruct (run_op_row tbl op i r Hget) as (r1 & Hget1 & Hstep).
    destruct (IH _ _ Hget1) as (r' & Hget' & Hrtc).
    exists r'. split; [exact Hget'|].
    destruct Hstep as [->|Hstep]; [exact Hrtc | econstructor; eauto].
Qed.

Lemma mark_exit_pending_fields now r reason inc :
  status (mark_exit_pending now r reason inc) = "exit_pending"
  /\ attempts r <= attempts (mark_exit_pending now r reason inc)
  /\ exit_pending_since (mark_exit_pending now r reason inc)
     = (if is_null (exit_pending_since r) then Some now else exit_pending_since r).
Proof.
  unfold mark_exit_pending, attempts.
  cbn [exit_pending_since set_exit_reason set_status].
  destruct (is_null (exit_pending_since r)), inc; cbn; repeat split; lia.
Qed.

(** The three facts below hold across one step. *)
Lemma row_step_monotone r r' :
  row_step r r' ->
  (status r <> "entered" -> status r' <> "entered")
  /\ attempts r <= attempts r'
  /\ ex_id r' = ex_id r.
Proof.
  intros H. destruct H as [reason now r Hw|reason now r Hw|now r reason inc
                          |now r oid|now r msg needs|now r st oid].
  - unfold attempts. cbn. repeat split; [discriminate | lia].
  - unfold retry_where in Hw.
    apply andb_prop in Hw as [_ Hlt].
    destruct (exit_attempt_count r) as [c|] eqn:Hc; [|discriminate].
    unfold attempts. cbn. rewrite Hc. cbn. repeat split; [auto | lia].
  - destruct (mark_exit_pending_fields now r reason inc) as (Hs & Ha & _).
    rewrite Hs. repeat split; [discriminate | exact Ha | apply mark_exit_pending_id].
  - repeat split; [auto | unfold attempts; cbn; lia].
  - repeat split; [discriminate | unfold attempts; cbn; lia].
  - rewrite mark_exit_confirmed_status. repeat split; [discriminate| |apply mark_exit_confirmed_id].
    unfold attempts, mark_exit_confirmed. destruct (truthy oid); cbn;
      destruct (is_null (exit_time r)); cbn; lia.
Qed.

(** X2. Whatever controller operations (the two claims and the four marks,
    on any ids, at any instants) are run on a table, an execution that has
    left [entered] never gets back to it, and its attempt count never
    decreases. *)
Theorem lifecycle_never_returns_to_entered :
  forall (ops : list ControllerOp) (tbl : ExecutionTable) (i : Z)
         (r : StrategyExecution),
    query_get tbl i = Some r ->
    exists r',
      query_get (run_ops tbl ops) i = Some r'
      /\ (status r <> "entered" -> status r' <> "entered")
      /\ attempts r <= attempts r'.
Proof.
  intros ops tbl i r Hget.
  destruct (run_ops_row ops tbl i r Hget) as (r' & Hget' & Hrtc).
  exists r'. split; [exact Hget'|]. clear Hget Hget'.
  induction Hrtc as [x|x y z Hstep _ IH]; [split; [auto | lia]|].
  destruct (row_step_monotone x y Hstep) as (Hs & Ha & _).
  destruct IH as [IHs IHa]. split; [auto | lia].
Qed.

Lemma lifecycle_never_returns_to_entered_witness :
  exists r',
    query_get (run_ops [pending_position]
                 [OpClaim (Fresh Executed 20000000 4 "max_loss");
                  OpMarkFailed 30000000 4 (Some "timeout") true;
                  OpClaim (Retry Executed 40000000 4 "retry");
                  OpMarkSuccess 41000000 4 (Some "ORD-9")]) 4 = Some r'
    /\ (status pending_position <> "entered" -> status r' <> "entered")
    /\ attempts pending_position <= attempts r'.
Proof.
  apply (lifecycle_never_returns_to_entered _ [pending_position] 4 pending_position).
  reflexivity.
Defined.

Lemma row_step_pending_since r r' :
  row_step r r' ->
  (status r = "entered" -> exit_pending_since r = None) ->
  (status r' = "entered" -> exit_pending_since r' = None)
  /\ (forall t, exit_pending_since r = Some t -> exit_pending_since r' = Some t).
Proof.
  intros H J. destruct H as [reason now r Hw|reason now r Hw|now r reason inc
                            |now r oid|now r msg needs|now r st oid].
  - split; [discriminate|]. intros t Ht.
    unfold claim_where in Hw. apply andb_prop in Hw as [Hw _].
    apply andb_prop in Hw as [_ Hs]. apply String.eqb_eq in Hs.
    rewrite (J Hs) in Ht. discriminate.
  - split; [exact J | auto].
  - destruct (mark_exit_pending_fields now r reason inc) as (Hs & _ & Hp).
    rewrite Hs, Hp. split; [discriminate|]. intros t Ht. rewrite Ht. reflexivity.
  - split; [exact J | auto].
  - split; [discriminate | auto].
  - rewrite mark_exit_confirmed_status. split; [discriminate|].
    intros t Ht. unfold mark_exit_confirmed. destruct (truthy oid); cbn;
      destruct (is_null (exit_time r)); exact Ht.
Qed.

(** X3. [exit_pending_since] is written once: on an execution that is not
    both [entered] and already stamped, the stamp survives every sequence of
    controller operations. *)
Theorem exit_pending_since_set_once :
  forall (ops : list ControllerOp) (tbl : ExecutionTable) (i t : Z)
         (r : StrategyExecution),
    query_get tbl i = Some r ->
    (status r = "entered" -> exit_pending_since r = None) ->
    exit_pending_since r = Some t ->
    exists r',
      query_get (run_ops tbl ops) i = Some r' /\ exit_pending_since r' = Some t.
Proof.
  intros ops tbl i t r Hget J Ht.
  destruct (run_ops_row ops tbl i r Hget) as (r' & Hget' & Hrtc).
  exists r'. split; [exact Hget'|]. clear Hget Hget'.
  induction Hrtc as [x|x y z Hstep _ IH]; [exact Ht|].
  destruct (row_step_pending_since x y Hstep J) as [J' Hkeep]. auto.
Qed.

Lemma exit_pending_since_set_once_witness :
  exists r',
    query_get (run_ops [claimed_position]
                 [OpMarkFailed 1000000 5 (Some "timeout") true;
                  OpMarkPending 12000000 5 "max_loss" true;
                  OpClaim (Retry Executed 30000000 5 "retry");
                  OpMarkConfirmed 31000000 5 "complete" None]) 5 = Some r'
    /\ exit_pending_since r' = Some 0.
Proof.
  apply (exit_pending_since_set_once _ [claimed_position] 5 0 claimed_position).
  - reflexivity.
  - discriminate.
  - reflexivity.
Defined.

(** ** Cooldown *)

(** A row that is [exit_pending] with a retry instant refuses every fresh
    claim, and every retry claim before that instant. *)
Lemma claim_refused_in_cooldown tbl r c T :
  pk_unique tbl -> In r tbl ->
  status r = "exit_pending" -> exit_retry_after r = Some T ->
  call_target c = ex_id r ->
  is_fresh c = true \/ call_now c < T ->
  run_claim tbl c = (false, tbl).
Proof.
  intros Hpk Hin Hs HT Htgt Hc.
  destruct c as [[] now j reason|[] now j reason]; cbn in Htgt; subst j;
    cbn [run_claim atomic_claim_exit atomic_claim_exit_retry]; try reflexivity.
  - rewrite sa_update_none; [reflexivity|]. intros x Hx.
    unfold claim_where. destruct (Z.eqb_spec (ex_id x) (ex_id r)) as [He|]; [|reflexivity].
    assert (x = r) as -> by (apply (pk_unique_inj tbl); auto).
    rewrite Hs. reflexivity.
  - destruct Hc as [Hc|Hc]; [discriminate|]. cbn in Hc.
    rewrite sa_update_none; [reflexivity|]. intros x Hx.
    unfold retry_where. destruct (Z.eqb_spec (ex_id x) (ex_id r)) as [He|]; [|reflexivity].
    assert (x = r) as -> by (apply (pk_unique_inj tbl); auto).
    rewrite HT. cbn [sql_le]. destruct (Z.leb_spec T now); [lia|].
    rewrite andb_false_r. reflexivity.
Qed.

Lemma sa_update_hit w v tbl :
  (0 <? fst (sa_update w v tbl))%nat = true -> exists r, In r tbl /\ w r = true.
Proof.
  unfold sa_update; cbn [fst]. intros H. apply Nat.ltb_lt in H.
  destruct (List.filter w tbl) as [|r l] eqn:Hf; [cbn in H; lia|].
  exists r. apply filter_In. rewrite Hf. left. reflexivity.
Qed.

Lemma run_claim_success tbl c :
  fst (run_claim tbl c) = true ->
  exists r r',
    In r tbl /\ ex_id r = call_target c /\ In r' (snd (run_claim tbl c))
    /\ ex_id r' = ex_id r /\ status r' = "exit_pending"
    /\ exit_retry_after r' = Some (call_now c + 10 * 1000000).
Proof.
  destruct c as [[] now j reason|[] now j reason]; cbn [run_claim call_target call_now];
    try discriminate.
  - intros H. unfold atomic_claim_exit in H.
    destruct (sa_update _ _ tbl) as [n t] eqn:E. cbn in H.
    assert (n = fst (sa_update (claim_where j) (claim_values reason now) tbl)) as Hn
        by (rewrite E; reflexivity).
    rewrite Hn in H. apply sa_update_hit in H as (r & Hr & Hw).
    exists r, (claim_values reason now r).
    split; [exact Hr|]. split.
    { unfold claim_where in Hw. do 2 (apply andb_prop in Hw as [Hw _]).
      apply Z.eqb_eq in Hw. exact Hw. }
    split; [|repeat split].
    rewrite atomic_claim_exit_table. unfold sa_update; cbn [snd].
    apply in_map_iff. exists r. rewrite Hw. auto.
  - intros H. unfold atomic_claim_exit_retry in H.
    destruct (sa_update _ _ tbl) as [n t] eqn:E. cbn in H.
    assert (n = fst (sa_update (retry_where j now) (retry_values reason now) tbl)) as Hn
        by (rewrite E; reflexivity).
    rewrite Hn in H. apply sa_update_hit in H as (r & Hr & Hw).
    exists r, (retry_values reason now r).
    split; [exact Hr|]. split.
    { unfold retry_where in Hw. do 4 (apply andb_prop in Hw as [Hw _]).
      apply Z.eqb_eq in Hw. exact Hw. }
    split; [|repeat split].
    + rewrite atomic_claim_exit_retry_table. unfold sa_update; cbn [snd].
      apply in_map_iff. exists r. rewrite Hw. auto.
    + unfold retry_where in Hw. do 3 (apply andb_prop in Hw as [Hw _]).
      apply andb_prop in Hw as [_ Hw]. apply String.eqb_eq in Hw. exact Hw.
Qed.

(** X4. After a claim (fresh or retry) on an execution has returned [True]
    at instant [now], the next claim on the same execution returns [False]
    and changes nothing if it is a fresh claim, or a retry claim made
    before [now + EXIT_RETRY_DELAY_SECONDS]. *)
Theorem claim_rearms_cooldown :
  forall (tbl : ExecutionTable) (c1 c2 : ClaimCall),
    pk_unique tbl ->
    fst (run_claim tbl c1) = true ->
    call_target c2 = call_target c1 ->
    is_fresh c2 = true \/ call_now c2 < call_now c1 + 10 * 1000000 ->
    run_claim (snd (run_claim tbl c1)) c2 = (false, snd (run_claim tbl c1)).
Proof.
  intros tbl c1 c2 Hpk H1 Htgt Hc2.
  destruct (run_claim_success tbl c1 H1) as (r & r' & _ & Hid & Hin' & Hid' & Hs & HT).
  apply (claim_refused_in_cooldown _ r' c2 (call_now c1 + 10 * 1000000)); auto.
  - apply run_claim_pk, Hpk.
  - congruence.
Qed.

Lemma claim_rearms_cooldown_witness :
  run_claim (snd (run_claim [entered_position 1 (Some sell_leg) "NIFTY24CE"]
                    (Fresh Executed 0 1 "max_loss")))
    (Retry Executed 9999999 1 "retry")
  = (false, snd (run_claim [entered_position 1 (Some sell_leg) "NIFTY24CE"]
                   (Fresh Executed 0 1 "max_loss"))).
Proof.
  apply (claim_rearms_cooldown [entered_position 1 (Some sell_leg) "NIFTY24CE"]
           (Fresh Executed 0 1 "max_loss") (Retry Executed 9999999 1 "retry")).
  - unfold pk_unique. refine (bool_decide_unpack _ _). vm_compute. exact I.
  - reflexivity.
  - reflexivity.
  - right. cbn. lia.
Defined.

Lemma commit_row_ids e tbl : map ex_id (commit_row e tbl) = map ex_id tbl.
Proof.
  unfold commit_row. rewrite map_map. apply map_ext. intros r.
  destruct (Z.eqb_spec (ex_id r) (ex_id e)); auto.
Qed.

(** X5. After [mark_exit_failed] at instant [now] on an execution, a fresh
    claim on it never succeeds, and no retry claim succeeds before
    [now + EXIT_RETRY_DELAY_SECONDS]; the refused claim changes nothing. *)
Theorem failed_exit_blocks_claims :
  forall (tbl : ExecutionTable) (i now : Z) (e : StrategyExecution)
         (msg : option string) (needs : bool) (c : ClaimCall),
    pk_unique tbl -> query_get tbl i = Some e ->
    call_target c = i ->
    is_fresh c = true \/ call_now c < now + 10 * 1000000 ->
    run_claim (run_op tbl (OpMarkFailed now i msg needs)) c
    = (false, run_op tbl (OpMarkFailed now i msg needs)).
Proof.
  intros tbl i now e msg needs c Hpk Hget Htgt Hc.
  pose proof (query_get_id _ _ _ Hget) as Hid.
  apply (claim_refused_in_cooldown _ (mark_exit_failed now e msg needs) c
           (now + 10 * 1000000)); auto.
  - cbn [run_op]. unfold mark_in_table. rewrite Hget.
    unfold pk_unique. rewrite commit_row_ids. exact Hpk.
  - cbn [run_op]. unfold mark_in_table. rewrite Hget. unfold commit_row.
    apply in_map_iff. exists e. split; [|eapply query_get_In; eauto].
    cbn. rewrite Z.eqb_refl. reflexivity.
  - cbn. congruence.
Qed.

Lemma failed_exit_blocks_claims_witness :
  run_claim (run_op [claimed_position] (OpMarkFailed 3000000 5 (Some "timeout") true))
    (Fresh Executed 99000000 5 "max_loss")
  = (false, run_op [claimed_position] (OpMarkFailed 3000000 5 (Some "timeout") true)).
Proof.
  apply (failed_exit_blocks_claims [claimed_position] 5 3000000 claimed_position).
  - unfold pk_unique. refine (bool_decide_unpack _ _). vm_compute. exact I.
  - reflexivity.
  - reflexivity.
  - left. reflexivity.
Defined.

(** ** The retry sweep's selection and eligibility *)

Lemma pending_filter_retry_where now r :
  ((strategy_id r =? strategy_id r) && (status r =? "exit_pending")%string
   && is_null (exit_order_id r) && sql_le (exit_retry_after r) now
   && sql_lt (exit_attempt_count r) MAX_EXIT_ATTEMPTS)
  = retry_where (ex_id r) now r.
Proof. unfold retry_where. rewrite !Z.eqb_refl. reflexivity. Qed.

Lemma atomic_claim_exit_hit now tbl r reason :
  pk_unique tbl -> In r tbl ->
  fst (atomic_claim_exit Executed now tbl (ex_id r) reason) = true ->
  claim_where (ex_id r) r = true.
Proof.
  intros Hpk Hin H. unfold atomic_claim_exit in H.
  destruct (sa_update _ _ tbl) as [n t] eqn:E. cbn in H.
  assert (n = fst (sa_update (claim_where (ex_id r)) (claim_values reason now) tbl)) as Hn
      by (rewrite E; reflexivity).
  rewrite Hn in H. apply sa_update_hit in H as (x & Hx & Hw).
  assert (x = r) as <-; [|exact Hw].
  apply (pk_unique_inj tbl); auto.
  unfold claim_where in Hw. do 2 (apply andb_prop in Hw as [Hw _]).
  apply Z.eqb_eq in Hw. exact Hw.
Qed.

Lemma atomic_claim_exit_retry_hit now tbl r reason :
  pk_unique tbl -> In r tbl ->
  fst (atomic_claim_exit_retry Executed now tbl (ex_id r) reason) = true ->
  retry_where (ex_id r) now r = true.
Proof.
  intros Hpk Hin H. unfold atomic_claim_exit_retry in H.
  destruct (sa_update _ _ tbl) as [n t] eqn:E. cbn in H.
  assert (n = fst (sa_update (retry_where (ex_id r) now)
                     (retry_values reason now) tbl)) as Hn by (rewrite E; reflexivity).
  rewrite Hn in H. apply sa_update_hit in H as (x & Hx & Hw).
  pose proof (retry_where_other tbl r now x Hpk Hin Hx Hw) as Hxr.
  rewrite Hxr in Hw. exact Hw.
Qed.

(** X6. [get_pending_exit_retries] selects exactly the executions of the
    strategy on which [atomic_claim_exit_retry] succeeds at the same
    instant. *)
Theorem pending_retries_are_claimable :
  forall (tbl : ExecutionTable) (now : Z) (r : StrategyExecution) (reason : string),
    pk_unique tbl -> In r tbl ->
    (In r (get_pending_exit_retries now tbl (strategy_id r))
     <-> fst (atomic_claim_exit_retry Executed now tbl (ex_id r) reason) = true).
Proof.
  intros tbl now r reason Hpk Hin. unfold get_pending_exit_retries.
  rewrite filter_In, pending_filter_retry_where. split.
  - intros [_ Hw]. unfold atomic_claim_exit_retry.
    pose proof (sa_update_rowcount_pos (retry_where (ex_id r) now)
                  (retry_values reason now) tbl r Hin Hw) as Hpos.
    destruct (sa_update _ _ tbl). exact Hpos.
  - intros H. split; [exact Hin|]. eapply atomic_claim_exit_retry_hit; eauto.
Qed.

Lemma pending_retries_are_claimable_witness :
  In pending_position (get_pending_exit_retries 10000000 [pending_position] 1)
  <-> fst (atomic_claim_exit_retry Executed 10000000 [pending_position] 4 "retry") = true.
Proof.
  apply (pending_retries_are_claimable [pending_position] 10000000 pending_position "retry").
  - unfold pk_unique. refine (bool_decide_unpack _ _). vm_compute. exact I.
  - left. reflexivity.
Defined.


(** X7. [can_attempt_exit] agrees with the claims where they succeed: an
    execution on which [atomic_claim_exit_retry] succeeds is reported as due
    for retry, and one on which [atomic_claim_exit] succeeds is reported as
    attemptable unless its attempts are used up.  It never reports an
    execution as attemptable that is [exited], holds an order id, or has
    used up its attempts. *)
Theorem can_attempt_exit_agrees_with_claims :
  forall (format_0f : Q -> string) (tbl : ExecutionTable) (now : Z)
         (r : StrategyExecution) (reason : string),
    pk_unique tbl -> In r tbl ->
    (fst (atomic_claim_exit_retry Executed now tbl (ex_id r) reason) = true ->
     can_attempt_exit format_0f now r
     = (true, "Retry timer expired - needs broker verification"))
    /\ (fst (atomic_claim_exit Executed now tbl (ex_id r) reason) = true ->
        attempts r < MAX_EXIT_ATTEMPTS ->
        fst (can_attempt_exit format_0f now r) = true)
    /\ (status r = "exited" \/ truthy (exit_order_id r) = true
        \/ MAX_EXIT_ATTEMPTS <= attempts r ->
        fst (can_attempt_exit format_0f now r) = false).
Proof.
  intros fmt tbl now r reason Hpk Hin. split; [|split].
  - intros H. apply (atomic_claim_exit_retry_hit now tbl r reason Hpk Hin) in H.
    unfold retry_where in H.
    apply andb_prop in H as [H Hlt]. apply andb_prop in H as [H Hle].
    apply andb_prop in H as [H Hnull]. apply andb_prop in H as [_ Hs].
    apply String.eqb_eq in Hs.
    destruct (exit_order_id r) eqn:Ho; [discriminate|].
    destruct (exit_attempt_count r) as [c|] eqn:Hc; [|discriminate].
    destruct (exit_retry_after r) as [t|] eqn:Ht; [|discriminate].
    cbn in Hlt, Hle. apply Z.ltb_lt in Hlt. apply Z.leb_le in Hle.
    unfold can_attempt_exit. rewrite Hs, Ho, Hc, Ht. cbn.
    destruct (Z.leb_spec MAX_EXIT_ATTEMPTS c); [lia|].
    destruct (Z.ltb_spec now t); [lia | reflexivity].
  - intros H Ha. apply (atomic_claim_exit_hit now tbl r reason Hpk Hin) in H.
    unfold claim_where in H. apply andb_prop in H as [H Hnull].
    apply andb_prop in H as [_ Hs]. apply String.eqb_eq in Hs.
    destruct (exit_order_id r) eqn:Ho; [discriminate|].
    unfold can_attempt_exit, attempts in *. rewrite Hs, Ho. cbn.
    destruct (Z.leb_spec MAX_EXIT_ATTEMPTS (coalesce (exit_attempt_count r) 0)); [lia|].
    destruct (is_null (exit_pending_since r)); reflexivity.
  - intros H. unfold can_attempt_exit, attempts in *.
    destruct (String.eqb_spec (status r) "exited") as [|Hne]; [reflexivity|].
    destruct (truthy (exit_order_id r)); [reflexivity|].
    destruct (Z.leb_spec MAX_EXIT_ATTEMPTS (coalesce (exit_attempt_count r) 0));
      [reflexivity|].
    destruct H as [H|[H|H]]; [contradiction | discriminate | lia].
Qed.

Lemma can_attempt_exit_agrees_with_claims_witness :
  can_attempt_exit format_whole 10000000 pending_position
  = (true, "Retry timer expired - needs broker verification")
  /\ can_attempt_exit format_whole 4000000 pending_position
     = (false, "Retry not allowed yet - wait 6s").
Proof.
  split; [|reflexivity].
  destruct (can_attempt_exit_agrees_with_claims format_whole [pending_position]
              10000000 pending_position "retry") as (H & _ & _).
  - unfold pk_unique. refine (bool_decide_unpack _ _). vm_compute. exact I.
  - left. reflexivity.
  - apply H. reflexivity.
Defined.

(** ** Broker verification *)

Lemma scan_positions_nonneg sym rows q :
  scan_positions sym rows = inr (Some q) -> 0 <= q.
Proof.
  induction rows as [|pos rows IH]; cbn; [discriminate|].
  destruct (bool_decide _); [|exact IH].
  destruct (py_int _ _); [discriminate|]. intros H. injection H as <-. lia.
Qed.

Lemma scan_orders_result sym act q orders r :
  scan_orders sym act q orders = Some r ->
  has_exit_order r = true /\ position_quantity r = q
  /\ order_status r <> None
  /\ (order_status r = Some "complete" -> can_place_exit r = false)
  /\ (can_place_exit r = true ->
      order_status r = Some "cancelled" \/ order_status r = Some "rejected").
Proof.
  induction orders as [|o orders IH]; cbn; [discriminate|].
  destruct (_ && _); [|exact IH].
  clear IH. generalize (lower (get2 (o_order_status o) (o_status o) "")).
  intros s H. injection H as <-.
  destruct (String.eqb_spec s "complete") as [Hs|Hc]; cbn.
  { repeat split; discriminate. }
  unfold str_in; cbn [existsb].
  destruct (String.eqb_spec s "open") as [Hs|]; cbn;
    [repeat split; try discriminate; intros H; congruence|].
  destruct (String.eqb_spec s "pending") as [Hs|]; cbn;
    [repeat split; try discriminate; intros H; congruence|].
  destruct (String.eqb_spec s "trigger_pending") as [Hs|]; cbn;
    [repeat split; try discriminate; intros H; congruence|].
  destruct (String.eqb_spec s "cancelled") as [Hs|]; cbn;
    [repeat split; try discriminate; try (intros H; congruence); rewrite Hs; auto|].
  destruct (String.eqb_spec s "rejected") as [Hs|]; cbn;
    [repeat split; try discriminate; try (intros H; congruence); rewrite Hs; auto|].
  repeat split; try discriminate; try (intros H; congruence).
Qed.

Lemma scan_trades_result sym act expected q trades r :
  scan_trades sym act expected q trades = inr (Some r) ->
  has_exit_order r = true /\ position_quantity r = q
  /\ order_status r = Some "complete" /\ can_place_exit r = false.
Proof.
  induction trades as [|t trades IH]; cbn; [discriminate|].
  destruct (_ && _); [|exact IH].
  destruct (py_int _ _); [discriminate|].
  destruct (expected <=? Z.abs _); [|exact IH].
  intros H. injection H as <-. repeat split.
Qed.

(** X8. [verify_exit_order_at_broker] answers [can_place_exit = True] only
    when the positionbook query returned ['success'] and showed a non-zero
    quantity, the orderbook query returned, and either the exit order it
    found is cancelled or rejected, or it found none and the tradebook query
    returned as well.  No raised query ends in [can_place_exit = True]. *)
Theorem can_place_exit_requires_answers :
  forall (env : Env) (t : nat) (client : ExtendedOpenAlgoAPI)
         (execution : StrategyExecution) (name : string),
    can_place_exit (verify_exit_order_at_broker env t client execution name) = true ->
    (exists positions, positionbook env client t = Returns (Some "success") positions)
    /\ 0 < position_quantity (verify_exit_order_at_broker env t client execution name)
    /\ (exists st orders, orderbook env client t = Returns st orders)
    /\ ((has_exit_order (verify_exit_order_at_broker env t client execution name) = true
         /\ (order_status (verify_exit_order_at_broker env t client execution name)
               = Some "cancelled"
             \/ order_status (verify_exit_order_at_broker env t client execution name)
               = Some "rejected"))
        \/ (has_exit_order (verify_exit_order_at_broker env t client execution name) = false
            /\ exists st trades, tradebook env client t = Returns st trades)).
Proof.
  intros env t client execution name. unfold verify_exit_order_at_broker.
  destruct (positionbook env client t) as [e|st positions]; [discriminate|].
  destruct (is_success st) eqn:Hst; [|discriminate].
  apply bool_decide_eq_true in Hst. subst st.
  destruct (scan_positions _ positions) as [e|found] eqn:Hscan; [discriminate|].
  destruct found as [q|]; [|discriminate]. cbv [default from_option id].
  pose proof (scan_positions_nonneg _ _ _ Hscan) as Hq.
  destruct (Z.eqb_spec q 0) as [|Hq0]; [discriminate|].
  destruct (orderbook env client t) as [e|st2 orders]; [discriminate|].
  destruct (if is_success st2 then _ else None) as [r|] eqn:Hr.
  { destruct (is_success st2); [|discriminate].
    destruct (scan_orders_result _ _ _ _ _ Hr) as (Hh & Hpq & _ & _ & Hc).
    intros Hcan. rewrite Hpq. repeat split; eauto; try lia. }
  destruct (tradebook env client t) as [e|st3 trades]; [discriminate|].
  destruct (if is_success st3 then _ else inr None) as [e|[r|]] eqn:Ht; [discriminate| |].
  { destruct (is_success st3); [|discriminate].
    destruct (scan_trades_result _ _ _ _ _ _ Ht) as (_ & _ & _ & Hc).
    rewrite Hc. discriminate. }
  intros _. cbn. repeat split; eauto; try lia.
Qed.

Lemma can_place_exit_requires_answers_witness :
  exists st trades, tradebook orderbook_outage_env sample_client 0%nat = Returns st trades.
Proof.
  destruct (can_place_exit_requires_answers orderbook_outage_env 0 sample_client
              pending_position "straddle") as (_ & _ & _ & [[H _]|[_ H]]).
  - vm_compute. reflexivity.
  - vm_compute in H. discriminate.
  - exact H.
Defined.

(** X9. Whatever the broker answers, the verification result has a
    non-negative position quantity; it allows no placement when that
    quantity is 0 or when the order status is ['complete']; and it reports
    an order status exactly when it reports an exit order. *)
Theorem verification_result_consistent :
  forall (env : Env) (t : nat) (client : ExtendedOpenAlgoAPI)
         (execution : StrategyExecution) (name : string),
    let v := verify_exit_order_at_broker env t client execution name in
    0 <= position_quantity v
    /\ (position_quantity v = 0 -> can_place_exit v = false)
    /\ (order_status v = Some "complete" -> can_place_exit v = false)
    /\ (has_exit_order v = true <-> order_status v <> None).
Proof.
  intros env t client execution name. cbv zeta.
  unfold verify_exit_order_at_broker.
  destruct (positionbook env client t) as [e|st positions];
    [cbn; repeat split; try lia; try discriminate; auto|].
  destruct (if is_success st then _ else inr None) as [e|found] eqn:Hscan;
    [cbn; repeat split; try lia; try discriminate; auto|].
  assert (0 <= default 0 found) as Hq.
  { destruct (is_success st); [|injection Hscan as <-; cbn; lia].
    destruct found as [q|]; [|cbn; lia]. eapply scan_positions_nonneg; eauto. }
  destruct (Z.eqb_spec (default 0 found) 0) as [Hz|Hnz];
    [cbn; repeat split; try lia; try discriminate; auto|].
  destruct (orderbook env client t) as [e|st2 orders];
    [cbn; repeat split; try lia; try discriminate; auto|].
  destruct (if is_success st2 then _ else None) as [r|] eqn:Hr.
  { destruct (is_success st2); [|discriminate].
    destruct (scan_orders_result _ _ _ _ _ Hr) as (Hh & Hpq & Hs & Hc & _).
    rewrite Hpq, Hh. repeat split; auto; try lia. }
  destruct (tradebook env client t) as [e|st3 trades];
    [cbn; repeat split; try lia; try discriminate; auto|].
  destruct (if is_success st3 then _ else inr None) as [e|[r|]] eqn:Ht;
    [cbn; repeat split; try lia; try discriminate; auto| |].
  { destruct (is_success st3); [|discriminate].
    destruct (scan_trades_result _ _ _ _ _ _ Ht) as (Hh & Hpq & Hs & Hc).
    rewrite Hpq, Hh, Hs, Hc. repeat split; auto; try lia; discriminate. }
  cbn. repeat split; try lia; try discriminate; auto.
Qed.

(** ** What the loop does with a verification that could not be made *)

(** X10. When the positionbook query raises during the verification of a
    claimed retry attempt, the result carries a position quantity of 0 and
    no order status, and the loop takes its "position already closed"
    branch: the execution is set to [exited] with reason
    ['broker_confirmed_closed'], a success is counted and no order is
    placed. *)
Theorem positionbook_exception_closes_position :
  forall (env : Env) (strategy : Strategy) (reason : string) (is_retry : bool)
         (run : ExitRun) (exec_id : Z) (w1 : World)
         (execution : StrategyExecution) (acct : TradingAccount) (err : string),
    claim_in_world env is_retry exec_id reason (run_world run) = (true, w1) ->
    query_get (executions w1) exec_id = Some execution ->
    account execution = Some acct -> account_is_active acct = true ->
    1 < attempts execution ->
    (forall client, positionbook env client (tick w1) = Raises err) ->
    exists e',
      query_get
        (executions (run_world
           (process_execution env strategy reason is_retry run exec_id)))
        exec_id = Some e'
      /\ status e' = "exited"
      /\ exit_reason e' = Some "broker_confirmed_closed"
      /\ exit_order_id e' = exit_order_id execution
      /\ success_count (process_execution env strategy reason is_retry run exec_id)
         = success_count run + 1
      /\ orders_sent (run_world
           (process_execution env strategy reason is_retry run exec_id))
         = orders_sent w1.
Proof.
  intros env strategy reason is_retry run exec_id w1 execution acct err
         Hclaim Hget Hacct Hactive Hattempts Hpb.
  assert (forall client,
             verify_exit_order_at_broker env (tick w1) client execution (s_name strategy)
             = verification_error 0 err) as Hverify.
  { intros client. unfold verify_exit_order_at_broker. rewrite Hpb. reflexivity. }
  exists (set_exit_time (Some (utc_clock env (S (tick w1))))
            (set_exit_reason (Some "broker_confirmed_closed")
               (set_status "exited" execution))).
  unfold process_execution. rewrite Hclaim. cbn [negb].
  rewrite Hget, Hacct, Hactive. cbn [negb].
  unfold attempts in Hattempts. apply Z.ltb_lt in Hattempts.
  destruct (account_clients run !! account_pk acct) as [c|];
    rewrite Hattempts, Hverify; cbn -[query_get];
    (split; [|repeat split]);
    apply (query_get_commit (executions w1) exec_id execution); auto.
Qed.

Lemma positionbook_exception_closes_position_witness :
  exists e',
    query_get
      (executions (run_world
         (process_execution positionbook_raises_env (sample_strategy true "breakout")
            retry_reason true (mkRun retry_world ∅ 0) 4))) 4 = Some e'
    /\ status e' = "exited"
    /\ exit_reason e' = Some "broker_confirmed_closed".
Proof.
  pose (w1 := snd (claim_in_world positionbook_raises_env true 4 retry_reason retry_world)).
  pose (e := retry_values retry_reason 10000000 pending_position).
  destruct (positionbook_exception_closes_position positionbook_raises_env
              (sample_strategy true "breakout") retry_reason true
              (mkRun retry_world ∅ 0) 4 w1 e sample_account
              "Expecting value: line 1 column 1 (char 0)")
    as (e' & Hq & Hs & Hr & _).
  - vm_compute. reflexivity.
  - vm_compute. reflexivity.
  - reflexivity.
  - reflexivity.
  - vm_compute. reflexivity.
  - intros client. reflexivity.
  - exists e'. split; [exact Hq|]. split; [exact Hs | exact Hr].
Defined.

(** X11. When the position is still open at the broker and the orderbook
    query raises during the verification of a claimed retry attempt, the
    loop skips the execution: nothing but the claim is written, no success
    is counted and no order is placed. *)
Theorem orderbook_exception_skips_position :
  forall (env : Env) (strategy : Strategy) (reason : string) (is_retry : bool)
         (run : ExitRun) (exec_id : Z) (w1 : World)
         (execution : StrategyExecution) (acct : TradingAccount)
         (positions : list PositionRow) (q : Z) (err : string),
    claim_in_world env is_retry exec_id reason (run_world run) = (true, w1) ->
    query_get (executions w1) exec_id = Some execution ->
    account execution = Some acct -> account_is_active acct = true ->
    1 < attempts execution ->
    (forall client, positionbook env client (tick w1)
                    = Returns (Some "success") positions) ->
    scan_positions (symbol execution) positions = inr (Some q) -> q <> 0 ->
    (forall client, orderbook env client (tick w1) = Raises err) ->
    executions (run_world (process_execution env strategy reason is_retry run exec_id))
    = executions w1
    /\ success_count (process_execution env strategy reason is_retry run exec_id)
       = success_count run
    /\ orders_sent (run_world
         (process_execution env strategy reason is_retry run exec_id))
       = orders_sent w1.
Proof.
  intros env strategy reason is_retry run exec_id w1 execution acct positions q err
         Hclaim Hget Hacct Hactive Hattempts Hpb Hscan Hq Hob.
  assert (forall client,
             verify_exit_order_at_broker env (tick w1) client execution (s_name strategy)
             = verification_error q err) as Hverify.
  { intros client. unfold verify_exit_order_at_broker.
    rewrite Hpb. change (is_success (Some "success")) with true. cbv iota.
    rewrite Hscan. cbv [default from_option id]. rewrite Hob.
    destruct (Z.eqb_spec q 0); [contradiction | reflexivity]. }
  unfold process_execution. rewrite Hclaim. cbn [negb].
  rewrite Hget, Hacct, Hactive. cbn [negb].
  unfold attempts in Hattempts. apply Z.ltb_lt in Hattempts.
  destruct (account_clients run !! account_pk acct) as [c|];
    rewrite Hattempts, Hverify; cbn;
    (destruct (Z.eqb_spec q 0); [contradiction|]); repeat split.
Qed.

Lemma orderbook_exception_skips_position_witness :
  success_count
    (process_execution orderbook_raises_env (sample_strategy true "breakout")
       retry_reason true (mkRun retry_world ∅ 0) 4) = 0
  /\ orders_sent (run_world
       (process_execution orderbook_raises_env (sample_strategy true "breakout")
          retry_reason true (mkRun retry_world ∅ 0) 4)) = [].
Proof.
  pose (w1 := snd (claim_in_world orderbook_raises_env true 4 retry_reason retry_world)).
  pose (e := retry_values retry_reason 10000000 pending_position).
  destruct (orderbook_exception_skips_position orderbook_raises_env
              (sample_strategy true "breakout") retry_reason true
              (mkRun retry_world ∅ 0) 4 w1 e sample_account
              [mkPositionRow (Some "NIFTY24CE") (IntOk (-50))] 50
              "Expecting value: line 1 column 1 (char 0)")
    as (_ & Hc & Ho).
  - vm_compute. reflexivity.
  - vm_compute. reflexivity.
  - reflexivity.
  - reflexivity.
  - vm_compute. reflexivity.
  - intros client. reflexivity.
  - reflexivity.
  - discriminate.
  - intros client. reflexivity.
  - split; [exact Hc | exact Ho].
Defined.

(** ** Which broker rows decide *)

Lemma scan_orders_skip sym act q pre rest :
  Forall (fun o => order_matches sym act o = false) pre ->
  scan_orders sym act q (pre ++ rest) = scan_orders sym act q rest.
Proof.
  induction 1 as [|o pre Ho _ IH]; [reflexivity|].
  cbn [app scan_orders]. unfold order_matches in Ho. rewrite Ho. exact IH.
Qed.

(** X12. The first order on the symbol with the exit action decides the
    verification.  If it is cancelled or rejected (in any letter case), the
    result is [can_place_exit = True] with that order's id, whatever orders
    follow it in the orderbook. *)
Theorem first_exit_order_decides :
  forall (env : Env) (t : nat) (client : ExtendedOpenAlgoAPI)
         (execution : StrategyExecution) (name : string)
         (positions : list PositionRow) (q : Z)
         (pre rest : list OrderRow) (o : OrderRow),
    positionbook env client t = Returns (Some "success") positions ->
    scan_positions (symbol execution) positions = inr (Some q) -> q <> 0 ->
    orderbook env client t = Returns (Some "success") (pre ++ o :: rest)%list ->
    Forall (fun x => order_matches (symbol execution) (exit_action_of execution) x = false)
      pre ->
    order_matches (symbol execution) (exit_action_of execution) o = true ->
    str_in (lower (get2 (o_order_status o) (o_status o) "")) ["cancelled"; "rejected"]
    = true ->
    let v := verify_exit_order_at_broker env t client execution name in
    can_place_exit v = true
    /\ has_exit_order v = true
    /\ order_id v = Some (get2 (o_orderid o) (o_order_id o) "")
    /\ position_quantity v = q.
Proof.
  intros env t client execution name positions q pre rest o
         Hpb Hscan Hq Hob Hpre Ho Hst. cbv zeta.
  unfold verify_exit_order_at_broker.
  rewrite Hpb. change (is_success (Some "success")) with true. cbv iota.
  rewrite Hscan. cbv [default from_option id].
  destruct (Z.eqb_spec q 0); [contradiction|].
  rewrite Hob. change (is_success (Some "success")) with true. cbv iota.
  rewrite (scan_orders_skip _ _ _ pre (o :: rest) Hpre).
  cbn [scan_orders]. unfold order_matches in Ho. cbv [default from_option id] in Ho.
  cbv [default from_option id]. rewrite Ho.
  revert Hst. generalize (lower (get2 (o_order_status o) (o_status o) "")). intros s Hst.
  unfold str_in in *. cbn [existsb] in *.
  destruct (String.eqb_spec s "cancelled") as [Hs|]; [subst s; repeat split|].
  destruct (String.eqb_spec s "rejected") as [Hs|]; [subst s; repeat split | discriminate].
Qed.

Lemma first_exit_order_decides_witness :
  can_place_exit (verify_exit_order_at_broker cancelled_then_open_env 0 sample_client
                    pending_position "straddle") = true
  /\ order_id (verify_exit_order_at_broker cancelled_then_open_env 0 sample_client
                 pending_position "straddle") = Some "O1".
Proof.
  destruct (first_exit_order_decides cancelled_then_open_env 0 sample_client
              pending_position "straddle"
              [mkPositionRow (Some "NIFTY24CE") (IntOk (-50))] 50 []
              [mkOrderRow (Some "NIFTY24CE") (Some "BUY") None (Some "open") None (Some "O2") None]
              (mkOrderRow (Some "NIFTY24CE") (Some "buy") None (Some "CANCELLED") None (Some "O1") None))
    as (Hc & _ & Hid & _);
    try reflexivity; try discriminate; [constructor|].
  split; [exact Hc | exact Hid].
Defined.

Lemma scan_trades_passed_over sym act expected q trades :
  Forall (trade_passed_over sym act expected) trades ->
  scan_trades sym act expected q trades = inr None.
Proof.
  induction 1 as [|tr trades Htr _ IH]; [reflexivity|].
  cbn [scan_trades]. unfold trade_passed_over, trade_matches, trade_quantity in Htr.
  destruct Htr as [Hm|(z & Hz & Hlt)].
  - rewrite Hm. exact IH.
  - destruct (_ && _); [|exact IH]. rewrite Hz.
    destruct (Z.leb_spec expected (Z.abs z)); [lia | exact IH].
Qed.

(** X13. Exit trades are compared with the execution's quantity one by
    one.  When the position is open at the broker, the orderbook holds no
    exit order for it, and every exit trade in the tradebook is smaller than
    the execution's quantity, the result is [can_place_exit = True], however
    much the trades add up to. *)
Theorem partial_fills_do_not_count :
  forall (env : Env) (t : nat) (client : ExtendedOpenAlgoAPI)
         (execution : StrategyExecution) (name : string)
         (positions : list PositionRow) (q : Z)
         (orders : list OrderRow) (trades : list TradeRow),
    positionbook env client t = Returns (Some "success") positions ->
    scan_positions (symbol execution) positions = inr (Some q) -> q <> 0 ->
    orderbook env client t = Returns (Some "success") orders ->
    Forall (fun x => order_matches (symbol execution) (exit_action_of execution) x = false)
      orders ->
    tradebook env client t = Returns (Some "success") trades ->
    Forall (trade_passed_over (symbol execution) (exit_action_of execution)
              (quantity execution)) trades ->
    let v := verify_exit_order_at_broker env t client execution name in
    can_place_exit v = true /\ has_exit_order v = false /\ position_quantity v = q.
Proof.
  intros env t client execution name positions q orders trades
         Hpb Hscan Hq Hob Hord Htb Htr. cbv zeta.
  unfold verify_exit_order_at_broker.
  rewrite Hpb. change (is_success (Some "success")) with true. cbv iota.
  rewrite Hscan. cbv [default from_option id].
  destruct (Z.eqb_spec q 0); [contradiction|].
  rewrite Hob. change (is_success (Some "success")) with true. cbv iota.
  rewrite <- (app_nil_r orders), (scan_orders_skip _ _ _ orders [] Hord).
  cbn [scan_orders].
  rewrite Htb. change (is_success (Some "success")) with true. cbv iota.
  rewrite (scan_trades_passed_over _ _ _ _ _ Htr). repeat split.
Qed.

Lemma partial_fills_do_not_count_witness :
  can_place_exit (verify_exit_order_at_broker split_fill_env 0 sample_client
                    pending_position "straddle") = true.
Proof.
  destruct (partial_fills_do_not_count split_fill_env 0 sample_client
              pending_position "straddle"
              [mkPositionRow (Some "NIFTY24CE") (IntOk (-50))] 50 []
              [mkTradeRow (Some "NIFTY24CE") (Some "BUY") None (Some "T1") None (IntOk 25) IntAbsent;
               mkTradeRow (Some "NIFTY24CE") (Some "BUY") None (Some "T2") None (IntOk 25) IntAbsent])
    as (Hc & _ & _); [reflexivity | reflexivity | discriminate | reflexivity
                     | | reflexivity | | exact Hc].
  - constructor.
  - constructor; [right; exists 25; split; reflexivity|].
    constructor; [right; exists 25; split; reflexivity | constructor].
Defined.

(** ** One iteration of the exit loop, case by case *)

Lemma place_and_mark_outcome env strategy acct client execution clients count w1 w i :
  query_get (executions w1) i = Some execution ->
  account execution = Some acct -> account_is_active acct = true ->
  executions w = executions w1 -> orders_sent w = orders_sent w1 ->
  polling_queue w = polling_queue w1 -> strategies w = strategies w1 ->
  iteration_outcome strategy i w1 count
    (place_and_mark env strategy acct client execution clients count w)
  /\ strategies (run_world (place_and_mark env strategy acct client execution
                              clients count w)) = strategies w1.
Proof.
  intros Hget Hacct Hact He Ho Hp Hs.
  pose proof (query_get_id _ _ _ Hget) as Hid.
  unfold place_and_mark. fold (exit_order_for strategy client execution).
  set (req := exit_order_for strategy client execution).
  set (response := match place_order_with_freeze_check env req (tick w) with
                   | PlaceRaises e => _ | PlaceReturns r => r end).
  cbn [utcnow].
  change (executions (next_tick (send_order req w))) with (executions w).
  rewrite He, Hid, Hget.
  destruct (match response with Some r => _ | None => false end).
  - split; [|exact Hs].
    eapply (outcome_placed strategy i w1 count _ execution acct client); eauto.
    + cbn. rewrite He. reflexivity.
    + cbn. rewrite Ho. reflexivity.
    + cbn. rewrite Hp, Hid. reflexivity.
  - split; [|exact Hs].
    eapply (outcome_failed strategy i w1 count _ execution acct client); eauto.
    + cbn. rewrite He. reflexivity.
    + cbn. rewrite Ho. reflexivity.
Qed.

Lemma claim_in_world_rest env is_retry i reason w :
  strategies (snd (claim_in_world env is_retry i reason w)) = strategies w
  /\ polling_queue (snd (claim_in_world env is_retry i reason w)) = polling_queue w.
Proof.
  unfold claim_in_world. cbn [utcnow].
  destruct is_retry;
    [destruct (atomic_claim_exit_retry _ _ _ _ _) | destruct (atomic_claim_exit _ _ _ _ _)];
    split; reflexivity.
Qed.

Lemma process_execution_outcome env strategy reason is_retry run i :
  iteration_outcome strategy i
    (snd (claim_in_world env is_retry i reason (run_world run))) (success_count run)
    (process_execution env strategy reason is_retry run i)
  /\ strategies (run_world (process_execution env strategy reason is_retry run i))
     = strategies (run_world run).
Proof.
  destruct (claim_in_world_rest env is_retry i reason (run_world run)) as [Hst _].
  unfold process_execution.
  destruct (claim_in_world env is_retry i reason (run_world run)) as [claimed w1].
  cbn [snd] in *.
  assert (forall clients,
             iteration_outcome strategy i w1 (success_count run)
               (mkRun w1 clients (success_count run))) as Hskip
      by (intros; constructor; reflexivity).
  destruct claimed; cbn [negb]; [|split; [apply Hskip | exact Hst]].
  destruct (query_get (executions w1) i) as [execution|] eqn:Hget;
    [|split; [apply Hskip | exact Hst]].
  destruct (account execution) as [acct|] eqn:Hacct;
    [|split; [apply Hskip | exact Hst]].
  destruct (account_is_active acct) eqn:Hact; cbn [negb];
    [|split; [apply Hskip | exact Hst]].
  set (cached := match account_clients run !! account_pk acct with
                 | Some c => (c, account_clients run)
                 | None => _
                 end).
  destruct cached as [client clients].
  destruct (1 <? coalesce (exit_attempt_count execution) 0).
  2:{ destruct (place_and_mark_outcome env strategy acct client execution clients
                  (success_count run) w1 w1 i) as [H1 H2]; auto.
      split; [exact H1 | rewrite H2; exact Hst]. }
  destruct (can_place_exit _); cbn [negb].
  { destruct (place_and_mark_outcome env strategy acct client execution clients
                (success_count run) w1 (next_tick w1) i) as [H1 H2]; auto.
    split; [exact H1 | rewrite H2; exact Hst]. }
  destruct (bool_decide _).
  { cbn [utcnow]. split; [|exact Hst].
    eapply (outcome_closed strategy i w1 _ _ execution); eauto; try reflexivity.
    - apply mark_exit_confirmed_fixed.
    - apply mark_exit_confirmed_status. }
  destruct (position_quantity _ =? 0).
  { cbn [utcnow]. split; [|exact Hst].
    eapply (outcome_closed strategy i w1 _ _ execution); eauto; reflexivity. }
  split; [constructor; reflexivity | exact Hst].
Qed.

(** ** The latch *)

Lemma exit_loop_strategies env strategy reason is_retry ids run :
  strategies (run_world
     (fold_left (process_execution env strategy reason is_retry) ids run))
  = strategies (run_world run).
Proof.
  revert run. induction ids as [|i ids IH]; intros run; [reflexivity|].
  cbn [fold_left]. rewrite IH.
  apply (process_execution_outcome env strategy reason is_retry run i).
Qed.

Lemma strategy_get_commit ss i s s' :
  strategy_get ss i = Some s -> s_id s' = s_id s ->
  strategy_get (map (fun r => if s_id r =? s_id s' then s' else r) ss) i = Some s'.
Proof.
  intros Hget Hid. pose proof (strategy_get_id _ _ _ Hget) as Hi.
  unfold strategy_get in *. induction ss as [|r ss IH]; cbn in *; [discriminate|].
  destruct (Z.eqb_spec (s_id r) i) as [Hr|Hr].
  - injection Hget as ->. rewrite Hid, Z.eqb_refl, Hid, Hi, Z.eqb_refl. reflexivity.
  - destruct (Z.eqb_spec (s_id r) (s_id s')) as [Hr'|Hr']; [congruence|].
    destruct (Z.eqb_spec (s_id r) i); [contradiction|]. apply IH, Hget.
Qed.

Lemma trigger_strategy env strategy reason w s :
  strategy_get (strategies w) (s_id strategy) = Some s ->
  exists s',
    strategy_get (strategies (trigger_sequential_exit env strategy reason w))
      (s_id strategy) = Some s'
    /\ supertrend_exit_triggered s' = Some true
    /\ (is_true (supertrend_exit_triggered s) = false ->
        supertrend_exit_reason s' = Some reason
        /\ supertrend_exit_triggered_at s' = Some (utc_clock env (tick w) + IST_OFFSET)).
Proof.
  intros Hget. unfold trigger_sequential_exit. rewrite Hget.
  destruct (is_true (supertrend_exit_triggered s)) eqn:Htrig.
  { exists s. split; [exact Hget|]. split; [|discriminate].
    destruct (supertrend_exit_triggered s) as [[]|]; try discriminate. reflexivity. }
  cbn [get_ist_now].
  set (s' := set_triggered reason (utc_clock env (tick w) + IST_OFFSET) s).
  exists s'.
  assert (strategy_get (strategies (commit_strategy s' (next_tick w))) (s_id strategy)
          = Some s') as Hget'
      by (apply (strategy_get_commit (strategies w) (s_id strategy) s s' Hget eq_refl)).
  split; [|split; [reflexivity | intros _; split; reflexivity]].
  destruct (open_executions_of _ _ _); [exact Hget'|].
  unfold exit_loop. rewrite exit_loop_strategies. exact Hget'.
Qed.

(** X14. A call of [trigger_sequential_exit] that finds the strategy leaves
    its latch set, with the reason and the IST instant of the call when it
    was the one to set it; a second call for the same strategy, with any
    reason, then changes nothing: no claim, no order, no write. *)
Theorem trigger_latches_once :
  forall (env : Env) (strategy s : Strategy) (reason reason2 : string) (w : World),
    strategy_get (strategies w) (s_id strategy) = Some s ->
    (exists s',
        strategy_get (strategies (trigger_sequential_exit env strategy reason w))
          (s_id strategy) = Some s'
        /\ supertrend_exit_triggered s' = Some true
        /\ (is_true (supertrend_exit_triggered s) = false ->
            supertrend_exit_reason s' = Some reason
            /\ supertrend_exit_triggered_at s'
               = Some (utc_clock env (tick w) + IST_OFFSET)))
    /\ trigger_sequential_exit env strategy reason2
         (trigger_sequential_exit env strategy reason w)
       = trigger_sequential_exit env strategy reason w.
Proof.
  intros env strategy s reason reason2 w Hget.
  destruct (trigger_strategy env strategy reason w s Hget) as (s' & Hget' & Ht & Hr).
  split; [exists s'; auto|].
  apply (trigger_latched env strategy reason2 _ s' Hget' Ht).
Qed.

Lemma trigger_latches_once_witness :
  trigger_sequential_exit (signal_env bearish_bars) (sample_strategy false "breakout")
    "supertrend_breakdown (Close: 1.00, ST: 2.00)"
    (trigger_sequential_exit (signal_env bearish_bars) (sample_strategy false "breakout")
       "supertrend_breakout (Close: 80.00, ST: 114.50)" three_leg_world)
  = trigger_sequential_exit (signal_env bearish_bars) (sample_strategy false "breakout")
      "supertrend_breakout (Close: 80.00, ST: 114.50)" three_leg_world.
Proof.
  apply (trigger_latches_once (signal_env bearish_bars) (sample_strategy false "breakout")
           (sample_strategy false "breakout")).
  reflexivity.
Defined.

(** ** What a call leaves alone *)

Lemma claim_in_world_other env is_retry i reason w (k : nat) r :
  executions w !! k = Some r -> ex_id r <> i ->
  executions (snd (claim_in_world env is_retry i reason w)) !! k = Some r.
Proof.
  intros Hk Hne. unfold claim_in_world. cbn [utcnow].
  destruct is_retry.
  - destruct (atomic_claim_exit_retry _ _ _ _ _) as [b t] eqn:E. cbn.
    change t with (snd (b, t)). rewrite <- E.
    destruct (db_session env _); [|exact Hk].
    rewrite atomic_claim_exit_retry_table, sa_update_lookup.
    change (executions (next_tick w)) with (executions w). rewrite Hk. cbn.
    unfold retry_where. destruct (Z.eqb_spec (ex_id r) i); [contradiction | reflexivity].
  - destruct (atomic_claim_exit _ _ _ _ _) as [b t] eqn:E. cbn.
    change t with (snd (b, t)). rewrite <- E.
    destruct (db_session env _); [|exact Hk].
    rewrite atomic_claim_exit_table, sa_update_lookup.
    change (executions (next_tick w)) with (executions w). rewrite Hk. cbn.
    unfold claim_where. destruct (Z.eqb_spec (ex_id r) i); [contradiction | reflexivity].
Qed.

Lemma commit_row_other e (tbl : ExecutionTable) (k : nat) r :
  tbl !! k = Some r -> ex_id r <> ex_id e -> commit_row e tbl !! k = Some r.
Proof.
  intros Hk Hne.
  transitivity ((fun x => if ex_id x =? ex_id e then e else x) <$> tbl !! k);
    [apply list_lookup_fmap|].
  rewrite Hk. cbn.
  destruct (Z.eqb_spec (ex_id r) (ex_id e)); [contradiction | reflexivity].
Qed.

Lemma process_execution_other env strategy reason is_retry run i (k : nat) r :
  executions (run_world run) !! k = Some r -> ex_id r <> i ->
  executions (run_world (process_execution env strategy reason is_retry run i)) !! k
  = Some r.
Proof.
  intros Hk Hne.
  pose proof (claim_in_world_other env is_retry i reason _ k r Hk Hne) as Hk1.
  destruct (process_execution_outcome env strategy reason is_retry run i) as [Hout _].
  destruct Hout as [run' He _ _ _|run' execution e' Hget He Hfix _ _ _ _
                   |run' execution acct client now oid Hget _ _ He _ _ _
                   |run' execution acct client now msg Hget _ _ He _ _ _];
    rewrite He; [exact Hk1| | |].
  - apply commit_row_other; [exact Hk1|].
    injection Hfix as Hid _ _. rewrite Hid, (query_get_id _ _ _ Hget). exact Hne.
  - apply commit_row_other; [exact Hk1|].
    cbn. rewrite (query_get_id _ _ _ Hget). exact Hne.
  - apply commit_row_other; [exact Hk1|].
    cbn. rewrite (query_get_id _ _ _ Hget). exact Hne.
Qed.

Lemma exit_loop_other env strategy reason is_retry ids (k : nat) r :
  ~ In (ex_id r) ids ->
  forall run,
    executions (run_world run) !! k = Some r ->
    executions (run_world
       (fold_left (process_execution env strategy reason is_retry) ids run)) !! k
    = Some r.
Proof.
  induction ids as [|i ids IH]; intros Hnot run Hk; [exact Hk|].
  cbn [fold_left]. apply IH.
  - intros H. apply Hnot. right. exact H.
  - apply process_execution_other; [exact Hk|].
    intros H. apply Hnot. left. symmetry. exact H.
Qed.

(** X15. A call of [trigger_sequential_exit] writes only to its
    candidates: every execution whose id is not the id of a candidate is
    found unchanged, at its place, after the call. *)
Theorem trigger_writes_only_candidates :
  forall (env : Env) (strategy : Strategy) (reason : string) (w : World)
         (k : nat) (r : StrategyExecution),
    executions w !! k = Some r ->
    ~ In (ex_id r) (map ex_id (candidates reason strategy w)) ->
    executions (trigger_sequential_exit env strategy reason w) !! k = Some r.
Proof.
  intros env strategy reason w k r Hk Hnot. unfold trigger_sequential_exit.
  destruct (strategy_get (strategies w) (s_id strategy)) as [s|] eqn:Hget; [|exact Hk].
  destruct (is_true (supertrend_exit_triggered s)); [exact Hk|].
  cbn [get_ist_now]. apply strategy_get_id in Hget.
  set (s' := set_triggered _ _ s). set (w2 := commit_strategy s' (next_tick w)).
  assert (s_id s' = s_id strategy) as Hs' by exact Hget. rewrite Hs'.
  change (executions w2) with (executions w).
  destruct (open_executions_of _ _ _) as [|x o] eqn:Ho; [exact Hk|].
  rewrite <- Ho. unfold exit_loop. apply exit_loop_other; [exact Hnot | exact Hk].
Qed.

Lemma trigger_writes_only_candidates_witness :
  executions (trigger_sequential_exit (signal_env bearish_bars)
                (sample_strategy false "breakout")
                "supertrend_breakout (Close: 80.00, ST: 114.50)" mixed_world) !! 0%nat
  = Some ordered_position.
Proof.
  apply trigger_writes_only_candidates; [reflexivity|].
  vm_compute. intros [H|[]]. discriminate.
Defined.

Lemma candidates_selected reason strategy w c :
  In c (candidates reason strategy w) -> ~ not_selected reason strategy c.
Proof.
  unfold candidates, ordered_executions, sell_positions, buy_positions,
    unknown_positions, open_executions_of, not_selected.
  intros H.
  assert (In c (List.filter (fun ex => negb (rejected_or_cancelled ex))
                  (if str_contains "RETRY" (upper reason)
                   then List.filter (fun r =>
                          (strategy_id r =? s_id strategy)
                          && ((status r =? "entered")%string
                              || (status r =? "exit_pending")%string)
                          && is_null (exit_order_id r)) (executions w)
                   else List.filter (fun r =>
                          (strategy_id r =? s_id strategy)
                          && (status r =? "entered")%string
                          && is_null (exit_order_id r)) (executions w)))
          /\ (leg c = None
              \/ exists l, leg c = Some l /\ (action l = "SELL" \/ action l = "BUY")))
    as [Hsel Hleg].
  { repeat (apply in_app_or in H as [H|H]); apply filter_In in H as [H Hl];
      (split; [exact H|]).
    - right. apply leg_action_is_spec in Hl as (l & ? & ?). eauto.
    - right. apply leg_action_is_spec in Hl as (l & ? & ?). eauto.
    - left. destruct (leg c); [discriminate | reflexivity]. }
  apply filter_In in Hsel as [Hsel Hrej]. apply negb_true_iff in Hrej.
  assert (strategy_id c = s_id strategy /\ exit_order_id c = None
          /\ (status c = "entered"
              \/ (status c = "exit_pending"
                  /\ str_contains "RETRY" (upper reason) = true))) as (Hs & Ho & Hst).
  { destruct (str_contains "RETRY" (upper reason)); apply filter_In in Hsel as [_ Hsel];
      apply andb_prop in Hsel as [Hsel Hnull];
      apply andb_prop in Hsel as [Hsid Hstat]; apply Z.eqb_eq in Hsid;
      (split; [exact Hsid|]);
      (split; [destruct (exit_order_id c); [discriminate | reflexivity]|]).
    - apply orb_prop in Hstat as [Hstat|Hstat]; apply String.eqb_eq in Hstat; auto.
    - apply String.eqb_eq in Hstat. auto. }
  intros [H1|[H1|[[H1 H2]|[[H1 H2]|[H1|(l & Hl & Ha & Hb)]]]]].
  - contradiction.
  - contradiction.
  - destruct Hst as [Hst|[Hst _]]; contradiction.
  - destruct Hst as [Hst|[_ Hst]]; congruence.
  - congruence.
  - destruct Hleg as [Hleg|(l' & Hl' & [Ha'|Hb'])]; congruence.
Qed.

(** X16. With a unique primary key, a call of [trigger_sequential_exit]
    leaves unchanged every execution that holds an exit order id, belongs to
    another strategy, is neither [entered] nor [exit_pending], is
    [exit_pending] while the reason does not contain RETRY, has a rejected
    or cancelled broker status, or has a leg whose action is not exactly
    ['SELL'] or ['BUY']. *)
Theorem trigger_leaves_unselected_alone :
  forall (env : Env) (strategy : Strategy) (reason : string) (w : World)
         (k : nat) (r : StrategyExecution),
    pk_unique (executions w) ->
    executions w !! k = Some r ->
    not_selected reason strategy r ->
    executions (trigger_sequential_exit env strategy reason w) !! k = Some r.
Proof.
  intros env strategy reason w k r Hpk Hk Hns.
  assert (~ In (ex_id r) (map ex_id (candidates reason strategy w))) as Hnot.
  { intros H. apply in_map_iff in H as (c & Hid & Hc).
    assert (c = r) as ->.
    { apply (pk_unique_inj (executions w)); auto.
      - eapply candidates_in_table; eauto.
      - apply list_elem_of_In. eapply list_elem_of_lookup_2; eauto. }
    apply (candidates_selected _ _ _ _ Hc Hns). }
  unfold trigger_sequential_exit.
  destruct (strategy_get (strategies w) (s_id strategy)) as [s|] eqn:Hget; [|exact Hk].
  destruct (is_true (supertrend_exit_triggered s)); [exact Hk|].
  cbn [get_ist_now]. apply strategy_get_id in Hget.
  set (s' := set_triggered _ _ s). set (w2 := commit_strategy s' (next_tick w)).
  assert (s_id s' = s_id strategy) as Hs' by exact Hget. rewrite Hs'.
  change (executions w2) with (executions w).
  destruct (open_executions_of _ _ _) as [|x o] eqn:Ho; [exact Hk|].
  rewrite <- Ho. unfold exit_loop. apply exit_loop_other; [exact Hnot | exact Hk].
Qed.

Lemma trigger_leaves_unselected_alone_witness :
  executions (trigger_sequential_exit (signal_env bearish_bars)
                (sample_strategy false "breakout")
                "supertrend_breakout (Close: 80.00, ST: 114.50)" mixed_world) !! 1%nat
  = Some (entered_position 8 (Some (mkLeg 13 3 "NIFTY" "sell" (Some 1))) "NIFTY24CE").
Proof.
  apply trigger_leaves_unselected_alone.
  - unfold pk_unique. refine (bool_decide_unpack _ _). vm_compute. exact I.
  - reflexivity.
  - do 5 right. eexists. split; [reflexivity|]. split; discriminate.
Defined.

(** ** The orders of one call *)







(** ** The poller and the store *)

Lemma query_get_claim_other env is_retry i reason w j :
  j <> i ->
  query_get (executions (snd (claim_in_world env is_retry i reason w))) j
  = query_get (executions w) j.
Proof.
  intros Hne. unfold claim_in_world. cbn [utcnow].
  change (executions (next_tick w)) with (executions w).
  assert (forall (wh : StrategyExecution -> bool) v,
             (forall x, wh x = true -> ex_id x = i) ->
             (forall x, ex_id (v x) = ex_id x) ->
             query_get (snd (sa_update wh v (executions w))) j
             = query_get (executions w) j) as Hupd.
  { intros wh v Hwh Hv. unfold sa_update; cbn [snd].
    rewrite query_get_map by (intros x; destruct (wh x); auto).
    destruct (query_get (executions w) j) as [x|] eqn:Hx; [|reflexivity].
    cbn. destruct (wh x) eqn:Hw; [|reflexivity].
    apply Hwh in Hw. apply query_get_id in Hx. congruence. }
  destruct is_retry.
  - destruct (atomic_claim_exit_retry _ _ _ _ _) as [b t] eqn:E. cbn.
    change t with (snd (b, t)). rewrite <- E.
    destruct (db_session env _); [|reflexivity].
    rewrite atomic_claim_exit_retry_table. apply Hupd; [|reflexivity].
    intros x Hx. unfold retry_where in Hx. do 4 (apply andb_prop in Hx as [Hx _]).
    apply Z.eqb_eq in Hx. exact Hx.
  - destruct (atomic_claim_exit _ _ _ _ _) as [b t] eqn:E. cbn.
    change t with (snd (b, t)). rewrite <- E.
    destruct (db_session env _); [|reflexivity].
    rewrite atomic_claim_exit_table. apply Hupd; [|reflexivity].
    intros x Hx. unfold claim_where in Hx. do 2 (apply andb_prop in Hx as [Hx _]).
    apply Z.eqb_eq in Hx. exact Hx.
Qed.

Lemma query_get_commit_other e tbl j :
  j <> ex_id e -> query_get (commit_row e tbl) j = query_get tbl j.
Proof.
  intros Hne. unfold commit_row.
  rewrite query_get_map
    by (intros x; destruct (Z.eqb_spec (ex_id x) (ex_id e)); auto).
  destruct (query_get tbl j) as [x|] eqn:Hx; [|reflexivity].
  cbn. apply query_get_id in Hx.
  destruct (Z.eqb_spec (ex_id x) (ex_id e)); [congruence | reflexivity].
Qed.

Lemma process_execution_get_other env strategy reason is_retry run i j :
  j <> i ->
  query_get (executions (run_world
     (process_execution env strategy reason is_retry run i))) j
  = query_get (executions (run_world run)) j.
Proof.
  intros Hne.
  pose proof (query_get_claim_other env is_retry i reason (run_world run) j Hne) as H1.
  destruct (process_execution_outcome env strategy reason is_retry run i) as [Hout _].
  destruct Hout as [run' He _ _ _|run' execution e' Hget He Hfix _ _ _ _
                   |run' execution acct client now oid Hget _ _ He _ _ _
                   |run' execution acct client now msg Hget _ _ He _ _ _];
    rewrite He; [exact H1| | |]; rewrite query_get_commit_other; try exact H1.
  - injection Hfix as Hid _ _. rewrite Hid, (query_get_id _ _ _ Hget). exact Hne.
  - cbn. rewrite (query_get_id _ _ _ Hget). exact Hne.
  - cbn. rewrite (query_get_id _ _ _ Hget). exact Hne.
Qed.

Lemma exit_loop_get_other env strategy reason is_retry ids j :
  ~ In j ids ->
  forall run,
    query_get (executions (run_world
       (fold_left (process_execution env strategy reason is_retry) ids run))) j
    = query_get (executions (run_world run)) j.
Proof.
  induction ids as [|i ids IH]; intros Hnot run; [reflexivity|].
  cbn [fold_left]. rewrite IH by (intros H; apply Hnot; right; exact H).
  apply process_execution_get_other. intros ->. apply Hnot. left. reflexivity.
Qed.

Lemma process_execution_polled env strategy reason is_retry run i :
  exists newp,
    polling_queue (run_world (process_execution env strategy reason is_retry run i))
    = (polling_queue (run_world run) ++ newp)%list
    /\ Forall (fun p =>
         poll_execution_id p = i
         /\ polled_as_stored
              (executions (run_world
                 (process_execution env strategy reason is_retry run i))) p) newp.
Proof.
  destruct (claim_in_world_rest env is_retry i reason (run_world run)) as [_ Hp1].
  destruct (process_execution_outcome env strategy reason is_retry run i) as [Hout _].
  destruct Hout as [run' _ _ Hp _|run' execution e' _ _ _ _ _ Hp _
                   |run' execution acct client now oid Hget Hacct _ He _ Hp _
                   |run' execution acct client now msg _ _ _ _ _ Hp _];
    rewrite Hp, Hp1;
    try (exists []; rewrite app_nil_r; split; [reflexivity | constructor]).
  eexists. split; [reflexivity|]. constructor; [|constructor].
  split; [reflexivity|].
  exists (mark_exit_success now execution oid). cbn [poll_execution_id].
  split; [|repeat split; exact Hacct]. rewrite He.
  apply (query_get_commit (executions _) i execution); [exact Hget | reflexivity].
Qed.

Lemma exit_loop_polled env strategy reason is_retry ids :
  NoDup ids ->
  forall run,
    exists newp,
      polling_queue (run_world
         (fold_left (process_execution env strategy reason is_retry) ids run))
      = (polling_queue (run_world run) ++ newp)%list
      /\ Forall (fun p =>
           In (poll_execution_id p) ids
           /\ polled_as_stored
                (executions (run_world
                   (fold_left (process_execution env strategy reason is_retry)
                      ids run))) p) newp.
Proof.
  induction 1 as [|i ids Hi Hnd IH]; intros run.
  - exists []. cbn. rewrite app_nil_r. split; [reflexivity | constructor].
  - cbn [fold_left].
    destruct (process_execution_polled env strategy reason is_retry run i)
      as (p1 & H1 & F1).
    destruct (IH (process_execution env strategy reason is_retry run i))
      as (p2 & H2 & F2).
    exists (p1 ++ p2)%list. rewrite H2, H1, <- app_assoc. split; [reflexivity|].
    apply Forall_app. split.
    + eapply Forall_impl; [exact F1|]. intros p [Hid (e & Hget & Hrest)].
      split; [left; auto|]. exists e. split; [|exact Hrest].
      rewrite Hid in *. rewrite exit_loop_get_other; [exact Hget|].
      rewrite <- list_elem_of_In. exact Hi.
    + eapply Forall_impl; [exact F2|]. intros p [Hin Hst]. split; [right; exact Hin | exact Hst].
Qed.

Lemma pk_unique_filter p tbl : pk_unique tbl -> pk_unique (List.filter p tbl).
Proof.
  unfold pk_unique. induction tbl as [|r tbl IH]; cbn; [auto|].
  intros H. apply NoDup_cons in H as [Hr Hnd].
  destruct (p r); [|auto]. cbn. apply NoDup_cons. split; [|auto].
  intros Hin. apply Hr. apply list_elem_of_In in Hin. apply list_elem_of_In.
  apply in_map_iff in Hin as (x & Hx & Hin). apply filter_In in Hin as [Hin _].
  apply in_map_iff. eauto.
Qed.

Lemma disjoint_filters (p q : StrategyExecution -> bool) tbl a :
  pk_unique tbl -> (forall x, p x = true -> q x = true -> False) ->
  a ∈ map ex_id (List.filter p tbl) -> a ∉ map ex_id (List.filter q tbl).
Proof.
  intros Hpk Hpq Hp Hq.
  apply list_elem_of_In, in_map_iff in Hp as (x & Hx & Hxin).
  apply list_elem_of_In, in_map_iff in Hq as (y & Hy & Hyin).
  apply filter_In in Hxin as [Hxin Hpx]. apply filter_In in Hyin as [Hyin Hqy].
  assert (x = y) as -> by (apply (pk_unique_inj tbl); auto; congruence).
  eauto.
Qed.

Lemma candidates_NoDup reason strategy w :
  pk_unique (executions w) -> NoDup (map ex_id (candidates reason strategy w)).
Proof.
  intros Hpk. unfold candidates, ordered_executions.
  set (o := open_executions_of _ _ _).
  assert (pk_unique o) as Ho.
  { unfold o, open_executions_of. apply pk_unique_filter.
    destruct (str_contains _ _); apply pk_unique_filter, Hpk. }
  unfold sell_positions, buy_positions, unknown_positions.
  rewrite !map_app. apply NoDup_app. split; [apply pk_unique_filter, Ho|]. split.
  - intros a Ha Hin. apply elem_of_app in Hin as [Hin|Hin]; revert Hin.
    + eapply disjoint_filters; [exact Ho | | exact Ha].
      intros x Hs Hb. apply leg_action_is_spec in Hs as (l & Hl & Hs).
      apply leg_action_is_spec in Hb as (l' & Hl' & Hb). congruence.
    + eapply disjoint_filters; [exact Ho | | exact Ha].
      intros x Hs Hn. apply leg_action_is_spec in Hs as (l & Hl & Hs).
      rewrite Hl in Hn. discriminate.
  - apply NoDup_app. split; [apply pk_unique_filter, Ho|].
    split; [|apply pk_unique_filter, Ho].
    intros a Ha. eapply disjoint_filters; [exact Ho | | exact Ha].
    intros x Hb Hn. apply leg_action_is_spec in Hb as (l & Hl & Hb).
    rewrite Hl in Hn. discriminate.
Qed.

(** X18. With a unique primary key, every entry that one call of
    [trigger_sequential_exit] adds to the order-status poller agrees with
    the store when the call ends: the execution it names exists, holds
    exactly the queued order id as its [exit_order_id], has broker status
    ['open'], and belongs to the queued account. *)
Theorem poller_agrees_with_store :
  forall (env : Env) (strategy : Strategy) (reason : string) (w : World),
    pk_unique (executions w) ->
    exists newp,
      polling_queue (trigger_sequential_exit env strategy reason w)
      = (polling_queue w ++ newp)%list
      /\ Forall (polled_as_stored
                   (executions (trigger_sequential_exit env strategy reason w))) newp.
Proof.
  intros env strategy reason w Hpk.
  assert (forall w0 : World,
             exists newp : list PollerEntry,
               polling_queue w0 = (polling_queue w0 ++ newp)%list
               /\ Forall (polled_as_stored (executions w0)) newp) as Hnone.
  { intros w0. exists []. rewrite app_nil_r. split; [reflexivity | constructor]. }
  unfold trigger_sequential_exit.
  destruct (strategy_get (strategies w) (s_id strategy)) as [s|] eqn:Hget; [|apply Hnone].
  destruct (is_true (supertrend_exit_triggered s)); [apply Hnone|].
  cbn [get_ist_now]. apply strategy_get_id in Hget.
  set (s' := set_triggered _ _ s). set (w2 := commit_strategy s' (next_tick w)).
  assert (s_id s' = s_id strategy) as Hs' by exact Hget. rewrite Hs'.
  change (executions w2) with (executions w).
  destruct (open_executions_of _ _ _) as [|x o] eqn:Ho; [apply (Hnone w2)|].
  rewrite <- Ho. unfold exit_loop.
  destruct (exit_loop_polled env s' reason (str_contains "RETRY" (upper reason))
              (map ex_id (candidates reason strategy w))
              (candidates_NoDup reason strategy w Hpk) (mkRun w2 ∅ 0))
    as (newp & Hnew & Fnew).
  exists newp. split; [exact Hnew|].
  eapply Forall_impl; [exact Fnew|]. intros p [_ H]. exact H.
Qed.

Lemma poller_agrees_with_store_witness :
  exists newp,
    polling_queue (trigger_sequential_exit (signal_env bearish_bars)
                     (sample_strategy false "breakout")
                     "supertrend_breakout (Close: 80.00, ST: 114.50)" three_leg_world)
    = newp
    /\ length newp = 3%nat
    /\ Forall (polled_as_stored
                 (executions (trigger_sequential_exit (signal_env bearish_bars)
                                (sample_strategy false "breakout")
                                "supertrend_breakout (Close: 80.00, ST: 114.50)"
                                three_leg_world))) newp.
Proof.
  destruct (poller_agrees_with_store (signal_env bearish_bars)
              (sample_strategy false "breakout")
              "supertrend_breakout (Close: 80.00, ST: 114.50)" three_leg_world)
    as (newp & Hq & Hf).
  - unfold pk_unique. refine (bool_decide_unpack _ _). vm_compute. exact I.
  - exists newp. split; [exact Hq|]. split; [|exact Hf].
    change (polling_queue three_leg_world ++ newp)%list with newp in Hq.
    rewrite <- Hq. vm_compute. reflexivity.
Defined.

(** ** The scheduler *)

Lemma ist_minute_aligned t tf :
  tf = 3 \/ tf = 5 \/ tf = 10 \/ tf = 15 ->
  (ist_minute t mod tf =? 0) = (epoch_minutes t mod tf =? 0).
Proof.
  intros Htf. unfold ist_minute, epoch_minutes, IST_OFFSET, timedelta_seconds.
  replace (t + 19800 * 1000000) with (t + 330 * 60000000) by lia.
  rewrite Z.div_add by lia. generalize (t / 60000000). intros m.
  assert (forall a b, (a = 0 <-> b = 0) -> (a =? 0) = (b =? 0)) as Heq.
  { intros a b H. destruct (Z.eqb_spec a 0), (Z.eqb_spec b 0); tauto. }
  apply Heq.
  destruct Htf as [-> | [-> | [-> | ->]]]; Z.div_mod_to_equations; lia.
Qed.

Lemma timeframe_minutes_cases tf :
  timeframe_minutes tf = 3 \/ timeframe_minutes tf = 5
  \/ timeframe_minutes tf = 10 \/ timeframe_minutes tf = 15.
Proof.
  unfold timeframe_minutes.
  repeat match goal with
         | |- context [match ?x with _ => _ end] => destruct x
         end; auto.
Qed.

(** X19. [should_check_strategy] depends on the clock only through the
    number of whole minutes since the epoch: a strategy is due exactly when
    that number is a multiple of its timeframe (3, 5, 10 or 15, and 5 for
    an unknown timeframe), so the half-hour offset of IST plays no role,
    and a strategy due at one instant is due again a timeframe later. *)
Theorem candle_close_is_epoch_aligned :
  forall (env : Env) (strategy : Strategy) (w : World),
    fst (should_check_strategy env strategy w)
    = (epoch_minutes (utc_clock env (tick w))
       mod timeframe_minutes (supertrend_timeframe strategy) =? 0)
    /\ (epoch_minutes (utc_clock env (tick w)
                       + timeframe_minutes (supertrend_timeframe strategy) * 60000000)
        mod timeframe_minutes (supertrend_timeframe strategy) =? 0)
       = fst (should_check_strategy env strategy w).
Proof.
  intros env strategy w. unfold should_check_strategy. cbn [utcnow fst].
  pose proof (timeframe_minutes_cases (supertrend_timeframe strategy)) as Htf.
  rewrite (ist_minute_aligned _ _ Htf). split; [reflexivity|].
  unfold epoch_minutes. rewrite Z.div_add by lia.
  generalize (utc_clock env (tick w) / 60000000). intros m.
  assert (forall a b, (a = 0 <-> b = 0) -> (a =? 0) = (b =? 0)) as Heq.
  { intros a b H. destruct (Z.eqb_spec a 0), (Z.eqb_spec b 0); tauto. }
  apply Heq.
  destruct Htf as [-> | [-> | [-> | ->]]]; Z.div_mod_to_equations; lia.
Qed.

Lemma last_replicate_Some {A} n (x y : A) : last (replicate n x) = Some y -> y = x.
Proof.
  induction n as [|n IH]; [discriminate|].
  destruct n as [|n]; [cbn; congruence|].
  change (replicate (S (S n)) x) with (x :: x :: replicate n x).
  rewrite last_cons_cons. exact IH.
Qed.

Lemma exit_signal_nan env exit_type c s : exit_signal env exit_type c s None = None.
Proof.
  unfold exit_signal. destruct (bool_decide (exit_type = Some "breakout"));
    [reflexivity|]. destruct (bool_decide (exit_type = Some "breakdown")); reflexivity.
Qed.

Lemma calculate_supertrend_failed env high low close period multiplier :
  talib_MEDPRICE env high low = None \/ talib_ATR env high low close period = None ->
  calculate_supertrend env high low close period multiplier
  = mkSupertrend (replicate (length close) NaN) (replicate (length close) None)
      (replicate (length close) NaN) (replicate (length close) NaN).
Proof.
  unfold calculate_supertrend. intros [H|H].
  - rewrite H. reflexivity.
  - destruct (talib_MEDPRICE env high low); [rewrite H|]; reflexivity.
Qed.

(** X20. [check_supertrend_exit] never exits on missing data: when the
    strategy has no open position, when the spread series cannot be
    fetched, when it has fewer than [period + 5] bars, or when a TA-Lib call
    fails, no execution is changed, the latch is not set and no order is
    placed. *)
Theorem no_exit_without_signal_data :
  forall (env : Env) (strategy : Strategy) (w : World),
    no_signal_data env strategy
    \/ (forall r, In r (executions w) ->
                  strategy_id r = s_id strategy -> status r <> "entered") ->
    executions (check_supertrend_exit env strategy w) = executions w
    /\ strategies (check_supertrend_exit env strategy w) = strategies w
    /\ orders_sent (check_supertrend_exit env strategy w) = orders_sent w.
Proof.
  intros env strategy w H. unfold check_supertrend_exit. cbn [utcnow].
  set (w0 := with_monitoring _ (next_tick w)).
  change (executions w0) with (executions w).
  destruct (List.filter _ (List.filter _ (executions w))) as [|pos open] eqn:Hopen;
    [repeat split|].
  destruct H as [H|H].
  2:{ exfalso.
      assert (In pos (List.filter (fun pos => negb (rejected_or_cancelled pos))
                        (List.filter (fun r => (strategy_id r =? s_id strategy)
                                               && (status r =? "entered")%string)
                           (executions w)))) as Hin
          by (rewrite Hopen; left; reflexivity).
      apply filter_In in Hin as [Hin _]. apply filter_In in Hin as [Hin Hc].
      apply andb_prop in Hc as [Hs He]. apply Z.eqb_eq in Hs.
      apply String.eqb_eq in He. exact (H pos Hin Hs He). }
  set (legs := list_to_set _).
  destruct H as [H|[H|H]].
  - rewrite H. repeat split.
  - destruct (H legs (tick w0)) as (bars & -> & Hlen).
    apply Z.ltb_lt in Hlen. rewrite Hlen. repeat split.
  - destruct (fetch_combined_spread_data env strategy legs (tick w0)) as [bars|];
      [|repeat split].
    destruct (_ <? _); [repeat split|].
    rewrite calculate_supertrend_failed
      by (destruct H as [H|H]; [left; apply H | right; apply H]).
    cbn [st_trend st_direction].
    destruct (last (map bar_close bars)); [|repeat split].
    destruct (last (replicate _ NaN)); [|repeat split].
    destruct (last (replicate _ None)) as [d|] eqn:Hd; [|repeat split].
    apply last_replicate_Some in Hd. subst d. rewrite exit_signal_nan. repeat split.
Qed.

Lemma no_exit_without_signal_data_witness :
  orders_sent (check_supertrend_exit talib_raises_env
                 (sample_strategy false "breakout") breakout_world) = []
  /\ strategies (check_supertrend_exit talib_raises_env
                   (sample_strategy false "breakout") breakout_world)
     = [sample_strategy false "breakout"].
Proof.
  destruct (no_exit_without_signal_data talib_raises_env
              (sample_strategy false "breakout") breakout_world) as (_ & Hs & Ho).
  - left. right. right. right. intros. reflexivity.
  - split; [exact Ho | exact Hs].
Defined.

(** ** The final bands *)

Lemma at_insert_eq {A} (d x : A) (l : list A) (i : nat) :
  (i < length l)%nat -> at_ d (<[i := x]> l) i = x.
Proof. intros H. unfold at_. rewrite list_lookup_insert_eq by exact H. reflexivity. Qed.

Lemma at_insert_ne {A} (d x : A) (l : list A) (i k : nat) :
  i <> k -> at_ d (<[i := x]> l) k = at_ d l k.
Proof. intros H. unfold at_. rewrite list_lookup_insert_ne by exact H. reflexivity. Qed.

Lemma at_in_range (l : list float) (i : nat) :
  at_ NaN l i <> NaN -> (i < length l)%nat.
Proof.
  unfold at_. intros H. apply lookup_lt_is_Some.
  destruct (l !! i); [eauto | contradiction].
Qed.

Lemma f_lt_defined a b : f_lt a b = true -> a <> NaN.
Proof. destruct a; [discriminate | cbn; discriminate]. Qed.

Lemma f_gt_defined a b : f_gt a b = true -> a <> NaN.
Proof. destruct a; [discriminate | cbn; discriminate]. Qed.

Lemma f_lt_irrefl a : f_lt a a = false.
Proof.
  destruct a as [x|]; [|reflexivity]. cbn. unfold Qltb.
  apply negb_false_iff, Qle_bool_iff, Qle_refl.
Qed.

Lemma f_gt_irrefl a : f_gt a a = false.
Proof.
  destruct a as [x|]; [|reflexivity]. cbn. unfold Qltb.
  apply negb_false_iff, Qle_bool_iff, Qle_refl.
Qed.

(** The direction one iteration writes. *)
Lemma final_bands_step_dir close b i :
  (i < length (dir_ b))%nat ->
  at_ 0 (dir_ (final_bands_step close b i)) i
  = (if f_gt (at_ NaN close i) (at_ NaN (upper_ b) (i - 1)) then 1
     else if f_lt (at_ NaN close i) (at_ NaN (lower_ b) (i - 1)) then -1
          else at_ 0 (dir_ b) (i - 1)).
Proof.
  intros Hi. unfold final_bands_step.
  destruct (f_gt _ _).
  { rewrite at_insert_eq by exact Hi. cbn. apply at_insert_eq, Hi. }
  destruct (f_lt (at_ NaN close i) _).
  { rewrite at_insert_eq by exact Hi. cbn. apply at_insert_eq, Hi. }
  rewrite !at_insert_eq by exact Hi.
  destruct (0 <? at_ 0 (dir_ b) (i - 1)); cbn; apply at_insert_eq, Hi.
Qed.

(** An iteration writes index [i] only, and keeps all lengths. *)
Lemma final_bands_step_frame close b i k :
  i <> k ->
  at_ 0 (dir_ (final_bands_step close b i)) k = at_ 0 (dir_ b) k
  /\ at_ NaN (upper_ (final_bands_step close b i)) k = at_ NaN (upper_ b) k
  /\ at_ NaN (lower_ (final_bands_step close b i)) k = at_ NaN (lower_ b) k
  /\ at_ NaN (trend_ (final_bands_step close b i)) k = at_ NaN (trend_ b) k.
Proof.
  intros Hk. unfold final_bands_step.
  repeat match goal with
         | |- context [if ?c then _ else _] => destruct c
         end; cbn; rewrite ?at_insert_ne by exact Hk; repeat split.
Qed.

Lemma final_bands_step_lengths close b i :
  length (dir_ (final_bands_step close b i)) = length (dir_ b)
  /\ length (trend_ (final_bands_step close b i)) = length (trend_ b)
  /\ length (upper_ (final_bands_step close b i)) = length (upper_ b)
  /\ length (lower_ (final_bands_step close b i)) = length (lower_ b).
Proof.
  unfold final_bands_step.
  repeat match goal with
         | |- context [if ?c then _ else _] => destruct c
         end; cbn; rewrite ?length_insert; repeat split.
Qed.

Lemma final_bands_step_trend close b i :
  (i < length (trend_ b))%nat ->
  at_ NaN (trend_ (final_bands_step close b i)) i
  = (if 0 <? at_ 0 (dir_ (final_bands_step close b i)) i
     then at_ NaN (lower_ (final_bands_step close b i)) i
     else at_ NaN (upper_ (final_bands_step close b i)) i).
Proof.
  intros Hi. unfold final_bands_step.
  destruct (f_gt _ _); [|destruct (f_lt (at_ NaN close i) _)]; cbv beta iota zeta.
  - destruct (0 <? at_ 0 (<[i:=1]> (dir_ b)) i) eqn:E; cbn; rewrite E;
      apply at_insert_eq, Hi.
  - destruct (0 <? at_ 0 (<[i:=-1]> (dir_ b)) i) eqn:E; cbn; rewrite E;
      apply at_insert_eq, Hi.
  - set (d := <[i:=at_ 0 (dir_ b) (i - 1)]> (dir_ b)).
    set (lo := if (0 <? at_ 0 d i) && _ then _ else lower_ b).
    set (up := if (at_ 0 d i <? 0) && _ then _ else upper_ b).
    destruct (0 <? at_ 0 d i) eqn:E; cbn; rewrite E; apply at_insert_eq, Hi.
Qed.

(** Without a cross, the support line does not fall in an up-trend and the
    resistance line does not rise in a down-trend. *)
Lemma final_bands_step_ratchet close b i :
  f_gt (at_ NaN close i) (at_ NaN (upper_ b) (i - 1)) = false ->
  f_lt (at_ NaN close i) (at_ NaN (lower_ b) (i - 1)) = false ->
  (0 < at_ 0 (dir_ (final_bands_step close b i)) i ->
   f_lt (at_ NaN (lower_ (final_bands_step close b i)) i)
        (at_ NaN (lower_ b) (i - 1)) = false)
  /\ (at_ 0 (dir_ (final_bands_step close b i)) i < 0 ->
      f_gt (at_ NaN (upper_ (final_bands_step close b i)) i)
           (at_ NaN (upper_ b) (i - 1)) = false).
Proof.
  intros Hgt Hlt. unfold final_bands_step. rewrite Hgt, Hlt. cbv beta iota zeta.
  set (d := <[i:=at_ 0 (dir_ b) (i - 1)]> (dir_ b)).
  destruct (Z.ltb_spec 0 (at_ 0 d i)) as [Hpos|Hnpos];
    destruct (Z.ltb_spec (at_ 0 d i) 0) as [Hneg|Hnneg]; try lia; cbn [andb].
  - destruct (f_lt (at_ NaN (lower_ b) i) _) eqn:El; cbn; split; try lia; intros _.
    + rewrite at_insert_eq; [apply f_lt_irrefl|].
      apply at_in_range. eapply f_lt_defined; eauto.
    + exact El.
  - destruct (f_gt (at_ NaN (upper_ b) i) _) eqn:Eu; cbn; split; try lia; intros _.
    + rewrite at_insert_eq; [apply f_gt_irrefl|].
      apply at_in_range. eapply f_gt_defined; eauto.
    + exact Eu.
  - cbn. split; lia.
Qed.

Lemma bands_after_S close upper lower j :
  bands_after close upper lower (S j)
  = final_bands_step close (bands_after close upper lower j) (S j).
Proof.
  unfold bands_after. rewrite seq_S, fold_left_app. reflexivity.
Qed.

Lemma bands_after_lengths close upper lower j :
  length (dir_ (bands_after close upper lower j)) = length close
  /\ length (trend_ (bands_after close upper lower j)) = length close
  /\ length (upper_ (bands_after close upper lower j)) = length upper
  /\ length (lower_ (bands_after close upper lower j)) = length lower.
Proof.
  induction j as [|j IH].
  - unfold bands_after. cbn. rewrite !length_replicate. repeat split.
  - rewrite bands_after_S.
    destruct (final_bands_step_lengths close (bands_after close upper lower j) (S j))
      as (-> & -> & -> & ->). exact IH.
Qed.

(** Entries up to index [j] are final after iteration [j]. *)
Lemma bands_after_stable close upper lower j m k :
  (k <= j)%nat -> (j <= m)%nat ->
  at_ 0 (dir_ (bands_after close upper lower m)) k
  = at_ 0 (dir_ (bands_after close upper lower j)) k
  /\ at_ NaN (upper_ (bands_after close upper lower m)) k
     = at_ NaN (upper_ (bands_after close upper lower j)) k
  /\ at_ NaN (lower_ (bands_after close upper lower m)) k
     = at_ NaN (lower_ (bands_after close upper lower j)) k
  /\ at_ NaN (trend_ (bands_after close upper lower m)) k
     = at_ NaN (trend_ (bands_after close upper lower j)) k.
Proof.
  intros Hk Hj. induction Hj as [|m Hj IH]; [repeat split|].
  rewrite bands_after_S.
  destruct (final_bands_step_frame close (bands_after close upper lower m) (S m) k)
    as (-> & -> & -> & ->); [lia | exact IH].
Qed.

Lemma get_final_bands_nb_after close upper lower :
  get_final_bands_nb close upper lower
  = bands_after close upper lower (length close - 1).
Proof. reflexivity. Qed.

Lemma bands_after_directions close upper lower j :
  Forall (fun d => d = 1 \/ d = -1) (dir_ (bands_after close upper lower j)).
Proof.
  induction j as [|j IH].
  - unfold bands_after. cbn. apply Forall_replicate. auto.
  - rewrite Forall_lookup. intros k x Hk.
    destruct (decide (k = S j)) as [->|Hne].
    + assert (S j < length (dir_ (bands_after close upper lower (S j))))%nat as Hlt
          by (apply lookup_lt_is_Some; eauto).
      assert (x = at_ 0 (dir_ (bands_after close upper lower (S j))) (S j)) as ->
          by (unfold at_; rewrite Hk; reflexivity).
      rewrite bands_after_S in *.
      destruct (final_bands_step_lengths close (bands_after close upper lower j) (S j))
        as (Hlen & _). rewrite Hlen in Hlt.
      rewrite final_bands_step_dir by exact Hlt.
      destruct (f_gt _ _); [auto|]. destruct (f_lt _ _); [auto|].
      assert (S j - 1 < length (dir_ (bands_after close upper lower j)))%nat as Hp by lia.
      apply lookup_lt_is_Some in Hp as [y Hy].
      unfold at_. rewrite Hy. cbn.
      exact (Forall_lookup_1 (fun d => d = 1 \/ d = -1) _ _ _ IH Hy).
    + rewrite bands_after_S in Hk.
      destruct (final_bands_step_frame close (bands_after close upper lower j) (S j) k)
        as (Hf & _); [auto|].
      unfold at_ in Hf. rewrite Hk in Hf. cbn in Hf.
      assert (k < length (dir_ (bands_after close upper lower j)))%nat as Hp.
      { destruct (final_bands_step_lengths close (bands_after close upper lower j) (S j))
          as (Hlen & _). rewrite <- Hlen. apply lookup_lt_is_Some. eauto. }
      apply lookup_lt_is_Some in Hp as [y Hy]. rewrite Hy in Hf. cbn in Hf. subst x.
      exact (Forall_lookup_1 (fun d => d = 1 \/ d = -1) _ _ _ IH Hy).
Qed.

Lemma last_map_Some {A} (l : list A) : last (map Some l) = Some <$> last l.
Proof.
  induction l as [|x [|y l] IH]; [reflexivity | reflexivity|].
  change (map Some (x :: y :: l)) with (Some x :: Some y :: map Some l).
  rewrite !last_cons_cons. exact IH.
Qed.

(** X21. The arrays returned by [get_final_bands_nb] have the length of the
    close array (the bands keep theirs), every direction is 1 or -1, and the
    first direction is 1. *)
Theorem final_bands_directions :
  forall (close upper lower : list float),
    let b := get_final_bands_nb close upper lower in
    length (dir_ b) = length close
    /\ length (trend_ b) = length close
    /\ length (upper_ b) = length upper
    /\ length (lower_ b) = length lower
    /\ Forall (fun d => d = 1 \/ d = -1) (dir_ b)
    /\ (close <> [] -> at_ 0 (dir_ b) 0 = 1 /\ at_ NaN (trend_ b) 0 = NaN).
Proof.
  intros close upper lower. cbv zeta. rewrite get_final_bands_nb_after.
  destruct (bands_after_lengths close upper lower (length close - 1))
    as (Hd & Ht & Hu & Hl).
  repeat (split; [assumption|]). split; [apply bands_after_directions|].
  intros Hne.
  destruct (bands_after_stable close upper lower 0 (length close - 1) 0)
    as (-> & _ & _ & ->); [lia | lia |].
  unfold bands_after. cbn. destruct close; [contradiction|]. split; reflexivity.
Qed.

(** X22. The arrays returned by [get_final_bands_nb] satisfy the Supertrend
    recurrence on the final bands.  For every bar [i >= 1]: the direction is
    1 if the close is above the previous final upper band, else -1 if it is
    below the previous final lower band, else the previous direction; the
    trend is the final lower band in direction 1 and the final upper band in
    direction -1; and without a cross the lower band does not fall in
    direction 1 nor the upper band rise in direction -1. *)
Theorem final_bands_recurrence :
  forall (close upper lower : list float) (i : nat),
    (1 <= i < length close)%nat ->
    let b := get_final_bands_nb close upper lower in
    let crossed_up := f_gt (at_ NaN close i) (at_ NaN (upper_ b) (i - 1)) in
    let crossed_down := f_lt (at_ NaN close i) (at_ NaN (lower_ b) (i - 1)) in
    at_ 0 (dir_ b) i
    = (if crossed_up then 1 else if crossed_down then -1 else at_ 0 (dir_ b) (i - 1))
    /\ at_ NaN (trend_ b) i
       = (if 0 <? at_ 0 (dir_ b) i then at_ NaN (lower_ b) i else at_ NaN (upper_ b) i)
    /\ (crossed_up = false -> crossed_down = false -> 0 < at_ 0 (dir_ b) i ->
        f_lt (at_ NaN (lower_ b) i) (at_ NaN (lower_ b) (i - 1)) = false)
    /\ (crossed_up = false -> crossed_down = false -> at_ 0 (dir_ b) i < 0 ->
        f_gt (at_ NaN (upper_ b) i) (at_ NaN (upper_ b) (i - 1)) = false).
Proof.
  intros close upper lower i Hi. cbv zeta. rewrite get_final_bands_nb_after.
  destruct i as [|j]; [lia|]. replace (S j - 1)%nat with j by lia.
  destruct (bands_after_stable close upper lower (S j) (length close - 1) (S j))
    as (Hd & Hu & Hl & Ht); [lia | lia |].
  destruct (bands_after_stable close upper lower (S j) (length close - 1) j)
    as (Hd' & Hu' & Hl' & _); [lia | lia |].
  rewrite Hd, Hu, Hl, Ht, Hd', Hu', Hl'. clear Hd Hu Hl Ht Hd' Hu' Hl'.
  rewrite bands_after_S.
  set (b := bands_after close upper lower j).
  destruct (final_bands_step_frame close b (S j) j) as (Fd & Fu & Fl & _); [lia|].
  rewrite Fd, Fu, Fl.
  destruct (bands_after_lengths close upper lower j) as (Ld & Lt & _ & _). fold b in Ld, Lt.
  pose proof (final_bands_step_dir close b (S j)) as Hdir.
  replace (S j - 1)%nat with j in Hdir by lia.
  pose proof (final_bands_step_trend close b (S j)) as Htrend.
  pose proof (final_bands_step_ratchet close b (S j)) as Hr.
  replace (S j - 1)%nat with j in Hr by lia.
  split; [apply Hdir; lia|]. split; [apply Htrend; lia|].
  split; intros H1 H2 H3; destruct (Hr H1 H2) as [Ha Hb]; auto.
Qed.

Lemma final_bands_recurrence_witness :
  at_ 0 (dir_ (get_final_bands_nb (close_of bearish_bars)
                 [NaN; NaN; Some 106%Q; Some 106%Q; Some 106%Q; Some 106%Q; Some (229 # 2)]
                 [NaN; NaN; Some 94%Q; Some 94%Q; Some 94%Q; Some 94%Q; Some (91 # 2)])) 6
  = -1.
Proof.
  destruct (final_bands_recurrence (close_of bearish_bars)
              [NaN; NaN; Some 106%Q; Some 106%Q; Some 106%Q; Some 106%Q; Some (229 # 2)]
              [NaN; NaN; Some 94%Q; Some 94%Q; Some 94%Q; Some 94%Q; Some (91 # 2)]
              6%nat) as (H & _).
  - cbn. lia.
  - rewrite H. vm_compute. reflexivity.
Defined.

(** X23. [get_supertrend_signal] applied to the direction of
    [calculate_supertrend] is ['NEUTRAL'] when the close array is empty or a
    TA-Lib call failed (all four arrays are then NaN throughout, with the
    length of the close array), and otherwise ['BUY'] or ['SELL'] according
    to the sign of the last direction. *)
Theorem supertrend_signal_of_direction :
  forall (env : Env) (high low close : list float) (period : Z) (multiplier : Q),
    let st := calculate_supertrend env high low close period multiplier in
    length (st_direction st) = length close
    /\ (close = [] \/ talib_MEDPRICE env high low = None
        \/ talib_ATR env high low close period = None ->
        get_supertrend_signal (st_direction st) = "NEUTRAL"
        /\ st_trend st = replicate (length close) NaN)
    /\ (close <> [] -> talib_MEDPRICE env high low <> None ->
        talib_ATR env high low close period <> None ->
        (last (st_direction st) = Some (Some 1)
         /\ get_supertrend_signal (st_direction st) = "BUY")
        \/ (last (st_direction st) = Some (Some (-1))
            /\ get_supertrend_signal (st_direction st) = "SELL")).
Proof.
  intros env high low close period multiplier. cbv zeta.
  destruct (talib_MEDPRICE env high low) as [avg|] eqn:Hm.
  2:{ rewrite calculate_supertrend_failed by (left; exact Hm).
      cbn [st_direction st_trend]. rewrite length_replicate.
      split; [reflexivity|]. split; [|intros _ H; contradiction].
      intros _. split; [|reflexivity]. unfold get_supertrend_signal.
      destruct (last (replicate _ None)) as [d|] eqn:Hd; [|reflexivity].
      apply last_replicate_Some in Hd. subst d. reflexivity. }
  destruct (talib_ATR env high low close period) as [atr|] eqn:Ha.
  2:{ rewrite calculate_supertrend_failed by (right; exact Ha).
      cbn [st_direction st_trend]. rewrite length_replicate.
      split; [reflexivity|]. split; [|intros _ _ H; contradiction].
      intros _. split; [|reflexivity]. unfold get_supertrend_signal.
      destruct (last (replicate _ None)) as [d|] eqn:Hd; [|reflexivity].
      apply last_replicate_Some in Hd. subst d. reflexivity. }
  unfold calculate_supertrend. rewrite Hm, Ha.
  destruct (get_basic_bands avg atr multiplier) as [upper lower].
  cbn [st_direction st_trend].
  assert (length (dir_ (get_final_bands_nb close upper lower)) = length close) as Hlen
      by (rewrite get_final_bands_nb_after; apply bands_after_lengths).
  assert (Forall (fun d => d = 1 \/ d = -1) (dir_ (get_final_bands_nb close upper lower)))
    as Hpm by (rewrite get_final_bands_nb_after; apply bands_after_directions).
  rewrite length_map. split; [exact Hlen|]. split.
  - intros [->|[H|H]]; [|discriminate|discriminate]. split; reflexivity.
  - intros Hne _ _.
    destruct (last (dir_ (get_final_bands_nb close upper lower))) as [d|] eqn:Hd.
    + assert (d = 1 \/ d = -1) as [->| ->].
      { apply last_Some in Hd as (l' & Hl'). rewrite Hl' in Hpm.
        apply Forall_app in Hpm as [_ Hpm]. apply Forall_cons in Hpm as [Hpm _].
        exact Hpm. }
      * left. unfold get_supertrend_signal. rewrite last_map_Some, Hd. split; reflexivity.
      * right. unfold get_supertrend_signal. rewrite last_map_Some, Hd. split; reflexivity.
    + apply last_None in Hd. apply (f_equal (@length _)) in Hd.
      rewrite Hlen in Hd. destruct close; [contradiction | discriminate].
Qed.

(** ** A whole scheduler tick *)

Lemma same_store_trans w1 w2 w3 :
  same_store w1 w2 -> same_store w2 w3 -> same_store w1 w3.
Proof.
  intros (? & ? & ? & ?) (? & ? & ? & ?). repeat split; congruence.
Qed.

Lemma tick_step_prefix env P w1 w2 w3 :
  same_store w1 w2 -> tick_step env P w2 w3 -> tick_step env P w1 w3.
Proof.
  intros H12 [H|(w0 & st & reason & H & HP & ->)].
  - left. eapply same_store_trans; eassumption.
  - right. exists w0, st, reason. split; [eapply same_store_trans; eassumption|]. auto.
Qed.

Lemma check_supertrend_exit_step env (P : Strategy -> Prop) strategy w :
  P strategy -> tick_step env P w (check_supertrend_exit env strategy w).
Proof.
  intros HP. unfold check_supertrend_exit. cbn [utcnow].
  set (w0 := with_monitoring _ (next_tick w)).
  assert (same_store w w0) as H0 by (repeat split).
  assert (same_store w (next_tick w0)) as H1 by (repeat split).
  destruct (List.filter _ (List.filter _ (executions w0))); [left; exact H0|].
  destruct (fetch_combined_spread_data _ _ _ _); [|left; exact H1].
  destruct (_ <? _); [left; exact H1|].
  destruct (last (map bar_close l0)); [|left; exact H1].
  destruct (last (st_trend _)); [|left; exact H1].
  destruct (last (st_direction _)); [|left; exact H1].
  destruct (exit_signal _ _ _ _ _); [|left; exact H1].
  right. eexists _, _, _. split; [exact H1|]. split; [exact HP | reflexivity].
Qed.

Lemma signal_pass_step env (P : Strategy -> Prop) acc strategy :
  P strategy ->
  tick_step env P (snd acc) (snd (signal_pass env acc strategy)).
Proof.
  intros HP. destruct acc as [processed w]. unfold signal_pass, should_check_strategy.
  cbn [utcnow snd]. destruct (_ =? 0); cbn [snd].
  - apply (tick_step_prefix env P w (next_tick w)); [repeat split|].
    apply check_supertrend_exit_step, HP.
  - left. repeat split.
Qed.

Lemma retry_pass_step env (P : Strategy -> Prop) processed w strategy :
  P strategy -> tick_step env P w (retry_pass env processed w strategy).
Proof.
  intros HP. unfold retry_pass. destruct (bool_decide _); [left; repeat split|].
  cbn [utcnow]. destruct (get_pending_exit_retries _ _ _);
    [left; repeat split|].
  right. eexists _, _, _. split; [|split; [exact HP | reflexivity]]. repeat split.
Qed.

Lemma signal_loop_steps env (P : Strategy -> Prop) ss :
  Forall P ss ->
  forall acc, rtc (tick_step env P) (snd acc) (snd (fold_left (signal_pass env) ss acc)).
Proof.
  induction 1 as [|s ss Hs _ IH]; intros acc; [constructor|].
  cbn [fold_left]. econstructor; [apply signal_pass_step; exact Hs | apply IH].
Qed.

Lemma retry_loop_steps env (P : Strategy -> Prop) processed ss :
  Forall P ss ->
  forall w, rtc (tick_step env P) w (fold_left (retry_pass env processed) ss w).
Proof.
  induction 1 as [|s ss Hs _ IH]; intros w; [constructor|].
  cbn [fold_left]. econstructor; [apply retry_pass_step; exact Hs | apply IH].
Qed.

Lemma trigger_strategies_from env strategy reason w :
  strategies_from w (trigger_sequential_exit env strategy reason w).
Proof.
  assert (strategies_from w w) as Hrefl by (intros s Hs; exists s; auto).
  unfold trigger_sequential_exit.
  destruct (strategy_get (strategies w) (s_id strategy)) as [s|] eqn:Hget; [|exact Hrefl].
  destruct (is_true (supertrend_exit_triggered s)); [exact Hrefl|].
  cbn [get_ist_now]. set (s' := set_triggered _ _ s).
  assert (strategies_from w (commit_strategy s' (next_tick w))) as Hc.
  { intros x Hx. cbn in Hx. apply in_map_iff in Hx as (y & Hy & Hin).
    change (s_id s') with (s_id s) in Hy.
    destruct (Z.eqb_spec (s_id y) (s_id s)) as [He|]; subst x.
    - exists s. split; [|split; reflexivity].
      unfold strategy_get in Hget. apply find_some in Hget as [Hget _]. exact Hget.
    - exists y. auto. }
  destruct (open_executions_of _ _ _); [exact Hc|].
  intros x Hx. unfold exit_loop in Hx. rewrite exit_loop_strategies in Hx.
  apply Hc. exact Hx.
Qed.

Lemma strategies_from_trans w1 w2 w3 :
  strategies_from w1 w2 -> strategies_from w2 w3 -> strategies_from w1 w3.
Proof.
  intros H12 H23 s3 H3. destruct (H23 s3 H3) as (s2 & H2 & Hid & Hm).
  destruct (H12 s2 H2) as (s1 & H1 & Hid1 & Hm1).
  exists s1. split; [exact H1|]. split; congruence.
Qed.

Lemma tick_steps_strategies_from env P w w' :
  rtc (tick_step env P) w w' -> strategies_from w w'.
Proof.
  induction 1 as [w|w w1 w' Hstep _ IH]; [intros s Hs; exists s; auto|].
  eapply strategies_from_trans; [|exact IH].
  destruct Hstep as [(_ & Hs & _)|(w0 & st & reason & (_ & Hs & _) & _ & ->)].
  - intros s Hin. rewrite Hs in Hin. exists s. auto.
  - intros s Hin. destruct (trigger_strategies_from env st reason w0 s Hin)
      as (s0 & H0 & Hid & Hm). rewrite Hs in H0. exists s0. auto.
Qed.

(** A tick is a sequence of steps, each for a strategy scheduled when the
    tick began. *)
Lemma monitor_strategies_steps env w :
  rtc (tick_step env (scheduled_in w)) w (monitor_strategies env w).
Proof.
  unfold monitor_strategies.
  set (ss1 := List.filter _ (strategies w)).
  assert (Forall (scheduled_in w) ss1) as F1.
  { apply Forall_forall. intros s Hs. apply list_elem_of_In, filter_In in Hs as [Hin Hc].
    exists s. split; [exact Hin|]. split; [reflexivity|].
    apply andb_prop in Hc as [Hc Ha]. apply andb_prop in Hc as [He _].
    unfold monitored. rewrite He, Ha. reflexivity. }
  pose proof (signal_loop_steps env _ ss1 F1 (∅, w)) as R1. cbn [snd] in R1.
  destruct (fold_left (signal_pass env) ss1 (∅, w)) as [processed w1]. cbn [snd] in R1.
  pose proof (tick_steps_strategies_from env _ w w1 R1) as Hfrom.
  set (ss2 := List.filter _ (strategies w1)).
  assert (Forall (scheduled_in w) ss2) as F2.
  { apply Forall_forall. intros s Hs. apply list_elem_of_In, filter_In in Hs as [Hin Hc].
    destruct (Hfrom s Hin) as (s0 & H0 & Hid & Hm).
    exists s0. split; [exact H0|]. split; [exact Hid|]. rewrite Hm.
    apply andb_prop in Hc as [Hc Ha]. apply andb_prop in Hc as [He _].
    unfold monitored. rewrite He, Ha. reflexivity. }
  etransitivity; [exact R1|]. apply retry_loop_steps, F2.
Qed.

Lemma exit_loop_fixed env strategy reason is_retry ids :
  forall run,
    pk_unique (executions (run_world run)) ->
    fixed_columns <$> executions (run_world
       (fold_left (process_execution env strategy reason is_retry) ids run))
    = fixed_columns <$> executions (run_world run).
Proof.
  induction ids as [|i ids IH]; intros run Hpk; [reflexivity|].
  cbn [fold_left].
  destruct (process_execution_effect env strategy reason is_retry run i Hpk) as [Hf _].
  rewrite IH; [exact Hf|]. eapply fixed_columns_pk; eauto.
Qed.

Lemma trigger_fixed env strategy reason w :
  pk_unique (executions w) ->
  fixed_columns <$> executions (trigger_sequential_exit env strategy reason w)
  = fixed_columns <$> executions w.
Proof.
  intros Hpk. unfold trigger_sequential_exit.
  destruct (strategy_get (strategies w) (s_id strategy)) as [s|]; [|reflexivity].
  destruct (is_true (supertrend_exit_triggered s)); [reflexivity|].
  cbn [get_ist_now]. set (s' := set_triggered _ _ s).
  set (w2 := commit_strategy s' (next_tick w)).
  destruct (open_executions_of _ _ _); [reflexivity|].
  unfold exit_loop. rewrite exit_loop_fixed; [reflexivity | exact Hpk].
Qed.

Lemma trigger_other_strategy env strategy reason w (k : nat) r :
  pk_unique (executions w) ->
  executions w !! k = Some r ->
  strategy_id r <> s_id strategy ->
  executions (trigger_sequential_exit env strategy reason w) !! k = Some r.
Proof.
  intros Hpk Hk Hne.
  assert (~ In (ex_id r) (map ex_id (candidates reason strategy w))) as Hnot.
  { intros H. apply in_map_iff in H as (c & Hid & Hc).
    assert (c = r) as ->.
    { apply (pk_unique_inj (executions w)); auto.
      - eapply candidates_in_table; eauto.
      - apply list_elem_of_In. eapply list_elem_of_lookup_2; eauto. }
    apply (candidates_selected _ _ _ _ Hc). right. left. exact Hne. }
  unfold trigger_sequential_exit.
  destruct (strategy_get (strategies w) (s_id strategy)) as [s|] eqn:Hget; [|exact Hk].
  destruct (is_true (supertrend_exit_triggered s)); [exact Hk|].
  cbn [get_ist_now]. apply strategy_get_id in Hget.
  set (s' := set_triggered _ _ s). set (w2 := commit_strategy s' (next_tick w)).
  assert (s_id s' = s_id strategy) as Hs' by exact Hget. rewrite Hs'.
  change (executions w2) with (executions w).
  destruct (open_executions_of _ _ _) as [|x o] eqn:Ho; [exact Hk|].
  rewrite <- Ho. unfold exit_loop. apply exit_loop_other; [exact Hnot | exact Hk].
Qed.

Lemma tick_steps_frame env (P : Strategy -> Prop) (k : nat) r w w' :
  (forall st, P st -> s_id st <> strategy_id r) ->
  rtc (tick_step env P) w w' ->
  pk_unique (executions w) ->
  executions w !! k = Some r ->
  executions w' !! k = Some r.
Proof.
  intros HP. induction 1 as [w|w w1 w' Hstep _ IH]; intros Hpk Hk; [exact Hk|].
  destruct Hstep as [(He & _)|(w0 & st & reason & (He & _) & Hst & ->)].
  - apply IH; rewrite He; assumption.
  - rewrite <- He in Hpk, Hk. apply IH.
    + eapply fixed_columns_pk; [apply trigger_fixed; exact Hpk | exact Hpk].
    + apply trigger_other_strategy; [exact Hpk | exact Hk|].
      intros Heq. apply (HP st Hst). symmetry. exact Heq.
Qed.

(** X24. With a unique primary key, a scheduler tick leaves unchanged every
    execution whose strategy has no row that is both enabled for the
    Supertrend exit and active: [monitor_strategies] never claims, marks or
    closes a position of a strategy it does not monitor, whatever the
    broker and the market data answer. *)
Theorem tick_leaves_unmonitored_alone :
  forall (env : Env) (w : World) (k : nat) (r : StrategyExecution),
    pk_unique (executions w) ->
    executions w !! k = Some r ->
    (forall s, In s (strategies w) -> s_id s = strategy_id r -> monitored s = false) ->
    executions (monitor_strategies env w) !! k = Some r.
Proof.
  intros env w k r Hpk Hk Hun.
  apply (tick_steps_frame env (scheduled_in w) k r w); [|apply monitor_strategies_steps|..];
    try assumption.
  intros st (s & Hin & Hid & Hm) Heq.
  rewrite (Hun s Hin) in Hm; [discriminate|]. congruence.
Qed.

Lemma tick_leaves_unmonitored_alone_witness :
  executions (monitor_strategies (signal_env bearish_bars) two_strategy_world) !! 0%nat
  = Some (entered_position 1 (Some sell_leg) "NIFTY24CE").
Proof.
  apply tick_leaves_unmonitored_alone.
  - unfold pk_unique. refine (bool_decide_unpack _ _). vm_compute. exact I.
  - reflexivity.
  - intros s [<-|[<-|[]]] Hid; [reflexivity | discriminate Hid].
Defined.

Lemma trigger_keeps_latched env strategy reason w (k : nat) s :
  NoDup (map s_id (strategies w)) ->
  strategies w !! k = Some s ->
  is_true (supertrend_exit_triggered s) = true ->
  strategies (trigger_sequential_exit env strategy reason w) !! k = Some s
  /\ map s_id (strategies (trigger_sequential_exit env strategy reason w))
     = map s_id (strategies w).
Proof.
  intros Hnd Hk Ht. unfold trigger_sequential_exit.
  destruct (strategy_get (strategies w) (s_id strategy)) as [s0|] eqn:Hget; [|auto].
  destruct (is_true (supertrend_exit_triggered s0)) eqn:Ht0; [auto|].
  cbn [get_ist_now]. set (s' := set_triggered _ _ s0).
  assert (strategies (commit_strategy s' (next_tick w)) !! k = Some s
          /\ map s_id (strategies (commit_strategy s' (next_tick w)))
             = map s_id (strategies w)) as Hc.
  { cbn. split.
    - transitivity ((fun r => if s_id r =? s_id s0 then s' else r) <$> strategies w !! k);
        [apply list_lookup_fmap|].
      rewrite Hk. cbn. destruct (Z.eqb_spec (s_id s) (s_id s0)) as [He|]; [|reflexivity].
      exfalso. unfold strategy_get in Hget. apply find_some in Hget as [Hin0 _].
      apply list_elem_of_In, list_elem_of_lookup_1 in Hin0 as [k0 Hk0].
      assert (k = k0) as <-.
      { apply (NoDup_lookup (map s_id (strategies w)) k k0 (s_id s)); [exact Hnd|..].
        - transitivity (s_id <$> strategies w !! k); [apply list_lookup_fmap|].
          rewrite Hk. reflexivity.
        - transitivity (s_id <$> strategies w !! k0); [apply list_lookup_fmap|].
          rewrite Hk0, He. reflexivity. }
      congruence.
    - rewrite map_map. apply map_ext_in. intros y _.
      destruct (Z.eqb_spec (s_id y) (s_id s0)) as [He|]; [symmetry; exact He | reflexivity]. }
  destruct (open_executions_of _ _ _); [exact Hc|].
  unfold exit_loop. rewrite exit_loop_strategies. exact Hc.
Qed.

Lemma tick_steps_latched env (P : Strategy -> Prop) (k : nat) s w w' :
  is_true (supertrend_exit_triggered s) = true ->
  rtc (tick_step env P) w w' ->
  NoDup (map s_id (strategies w)) ->
  strategies w !! k = Some s ->
  strategies w' !! k = Some s.
Proof.
  intros Ht. induction 1 as [w|w w1 w' Hstep _ IH]; intros Hnd Hk; [exact Hk|].
  destruct Hstep as [(_ & Hs & _)|(w0 & st & reason & (_ & Hs & _) & _ & ->)].
  - apply IH; rewrite Hs; assumption.
  - rewrite <- Hs in Hnd, Hk.
    destruct (trigger_keeps_latched env st reason w0 k s Hnd Hk Ht) as [Hk' Hids].
    apply IH; [rewrite Hids; exact Hnd | exact Hk'].
Qed.

(** X25. With unique strategy ids, a scheduler tick leaves every strategy
    that is already triggered exactly as it was: [monitor_strategies] never
    clears the latch and never rewrites the recorded reason or trigger
    time. *)
Theorem tick_keeps_latch :
  forall (env : Env) (w : World) (k : nat) (s : Strategy),
    NoDup (map s_id (strategies w)) ->
    strategies w !! k = Some s ->
    is_true (supertrend_exit_triggered s) = true ->
    strategies (monitor_strategies env w) !! k = Some s.
Proof.
  intros env w k s Hnd Hk Ht.
  apply (tick_steps_latched env (scheduled_in w) k s w); try assumption.
  apply monitor_strategies_steps.
Qed.

Lemma tick_keeps_latch_witness :
  strategies (monitor_strategies (signal_env bearish_bars) latched_world) !! 0%nat
  = Some (sample_strategy true "breakout").
Proof.
  apply tick_keeps_latch.
  - refine (bool_decide_unpack _ _). vm_compute. exact I.
  - reflexivity.
  - reflexivity.
Defined.

(** ** C9: what [mark_exit_failed] leaves behind *)

Lemma str_take_code_points n s :
  code_points (str_take n s) = Nat.min n (code_points s).
Proof.
  revert n. induction s as [|c r IH]; intros n; cbn [str_take code_points].
  - rewrite Nat.min_0_r. reflexivity.
  - destruct (is_continuation_byte c) eqn:Hc.
    + cbn [code_points]. rewrite Hc. apply IH.
    + destruct n as [|m]; [reflexivity|].
      cbn [code_points]. rewrite Hc, IH. reflexivity.
Qed.

Lemma str_take_prefix n s : String.prefix (str_take n s) s = true.
Proof.
  revert n. induction s as [|c r IH]; intros n; cbn [str_take]; [reflexivity|].
  destruct (is_continuation_byte c).
  - cbn. destruct (Ascii.ascii_dec c c); [apply IH | contradiction].
  - destruct n as [|m]; [reflexivity|].
    cbn. destruct (Ascii.ascii_dec c c); [apply IH | contradiction].
Qed.

(** A message of 219 characters that takes 657 bytes is kept whole. *)
Lemma str_take_counts_characters :
  String.length (str_repeat 219 rupee) = 657%nat
  /\ str_take 500 (str_repeat 219 rupee) = str_repeat 219 rupee.
Proof. split; vm_compute; reflexivity. Qed.

(** The row a successful claim leaves behind is [exit_pending] and holds no
    order id. *)
Lemma claim_in_world_claimed env is_retry i reason w w1 e :
  pk_unique (executions w) ->
  claim_in_world env is_retry i reason w = (true, w1) ->
  query_get (executions w1) i = Some e ->
  status e = "exit_pending" /\ exit_order_id e = None.
Proof.
  intros Hpk Hclaim Hget.
  pose proof (query_get_In _ _ _ Hget) as Hin.
  pose proof (query_get_id _ _ _ Hget) as Hid.
  unfold claim_in_world in Hclaim. cbn [utcnow] in Hclaim.
  set (now := utc_clock env (tick w)) in Hclaim.
  destruct is_retry.
  - destruct (atomic_claim_exit_retry _ _ _ _ _) as [b t] eqn:E.
    injection Hclaim as -> <-. cbn in Hin.
    destruct (db_session env _); [|discriminate E].
    assert (t = snd (sa_update (retry_where i now) (retry_values reason now)
                       (executions w))) as ->.
    { transitivity (snd (atomic_claim_exit_retry Executed now
                        (executions (next_tick w)) i reason));
        [rewrite E; reflexivity | reflexivity]. }
    unfold sa_update in Hin; cbn [snd] in Hin.
    apply in_map_iff in Hin as (r & Hr & Hrin).
    assert (ex_id r = i) as Hri
        by (rewrite <- Hid, <- Hr; destruct (retry_where i now r); reflexivity).
    assert (fst (atomic_claim_exit_retry Executed now (executions w) (ex_id r) reason)
            = true) as Hfst.
    { rewrite Hri. change (executions w) with (executions (next_tick w)).
      rewrite E. reflexivity. }
    pose proof (atomic_claim_exit_retry_hit now _ r reason Hpk Hrin Hfst) as Hw.
    rewrite Hri in Hw.
    rewrite Hw in Hr. subst e. unfold retry_where in Hw.
    do 2 (apply andb_prop in Hw as [Hw _]). apply andb_prop in Hw as [Hw Hnull].
    apply andb_prop in Hw as [_ Hst]. apply String.eqb_eq in Hst.
    split; [exact Hst|]. cbn. destruct (exit_order_id r); [discriminate|reflexivity].
  - destruct (atomic_claim_exit _ _ _ _ _) as [b t] eqn:E.
    injection Hclaim as -> <-. cbn in Hin.
    destruct (db_session env _); [|discriminate E].
    assert (t = snd (sa_update (claim_where i) (claim_values reason now)
                       (executions w))) as ->.
    { transitivity (snd (atomic_claim_exit Executed now
                        (executions (next_tick w)) i reason));
        [rewrite E; reflexivity | reflexivity]. }
    unfold sa_update in Hin; cbn [snd] in Hin.
    apply in_map_iff in Hin as (r & Hr & Hrin).
    assert (ex_id r = i) as Hri
        by (rewrite <- Hid, <- Hr; destruct (claim_where i r); reflexivity).
    assert (fst (atomic_claim_exit Executed now (executions w) (ex_id r) reason)
            = true) as Hfst.
    { rewrite Hri. change (executions w) with (executions (next_tick w)).
      rewrite E. reflexivity. }
    pose proof (atomic_claim_exit_hit now _ r reason Hpk Hrin Hfst) as Hw.
    rewrite Hri in Hw.
    rewrite Hw in Hr. subst e. unfold claim_where in Hw.
    apply andb_prop in Hw as [_ Hnull].
    split; [reflexivity|]. cbn. destruct (exit_order_id r); [discriminate|reflexivity].
Qed.

Lemma query_get_commit_row tbl i e e' :
  query_get tbl i = Some e -> ex_id e' = ex_id e ->
  query_get (commit_row e' tbl) i = Some e'.
Proof. apply query_get_commit. Qed.

(** C9. Every call of [mark_exit_failed] leaves the status [exit_pending],
    records the first 500 characters of the message (null for an empty
    one), sets the retry instant to [now + EXIT_RETRY_DELAY_SECONDS] and
    [exit_broker_verified] to the negation of [needs_broker_verification],
    and does not write [exit_order_id].  The call site of the service, the
    branch of the exit loop taken when an order was sent and no success
    counted, passes the row that the iteration has just claimed, which
    holds no order id: after the call the row is [exit_pending] with a null
    [exit_order_id]. *)
Theorem mark_exit_failed_effect :
  (forall (now : Z) (e : StrategyExecution) (msg : option string) (needs : bool),
      let e' := mark_exit_failed now e msg needs in
      status e' = "exit_pending"
      /\ exit_order_id e' = exit_order_id e
      /\ error_message e' = (if truthy msg then str_take 500 <$> msg else None)
      /\ (forall m, msg = Some m -> m <> "" ->
          exists kept,
            error_message e' = Some kept
            /\ String.prefix kept m = true
            /\ code_points kept = Nat.min 500 (code_points m))
      /\ exit_retry_after e' = Some (now + 10 * 1000000)
      /\ exit_broker_verified e' = negb needs
      /\ exit_attempt_count e' = exit_attempt_count e)
  /\ (forall (env : Env) (strategy : Strategy) (reason : string) (is_retry : bool)
             (run : ExitRun) (i : Z),
      pk_unique (executions (run_world run)) ->
      orders_sent (run_world (process_execution env strategy reason is_retry run i))
      <> orders_sent (run_world run) ->
      success_count (process_execution env strategy reason is_retry run i)
      = success_count run ->
      exists now execution msg,
        fst (claim_in_world env is_retry i reason (run_world run)) = true
        /\ query_get
             (executions (snd (claim_in_world env is_retry i reason (run_world run))))
             i = Some execution
        /\ exit_order_id execution = None
        /\ query_get
             (executions (run_world
                (process_execution env strategy reason is_retry run i))) i
           = Some (mark_exit_failed now execution msg true)
        /\ status (mark_exit_failed now execution msg true) = "exit_pending"
        /\ exit_order_id (mark_exit_failed now execution msg true) = None
        /\ exit_retry_after (mark_exit_failed now execution msg true)
           = Some (now + 10 * 1000000)
        /\ exit_broker_verified (mark_exit_failed now execution msg true) = false).
Proof.
  split.
  - intros now e msg needs e'. repeat split.
    intros m -> Hm. exists (str_take 500 m).
    assert (truthy (Some m) = true) as Ht.
    { cbn. destruct (String.eqb_spec m ""); [contradiction|reflexivity]. }
    split; [subst e'; unfold mark_exit_failed; rewrite Ht; reflexivity|].
    split; [apply str_take_prefix | apply str_take_code_points].
  - intros env strategy reason is_retry run i Hpk Hsent Hcount.
    pose proof (process_execution_outcome env strategy reason is_retry run i) as [Hout _].
    destruct (claim_in_world_fixed env is_retry i reason (run_world run)) as [_ Ho1].
    destruct (claim_in_world env is_retry i reason (run_world run)) as [claimed w1] eqn:Hc.
    cbn [fst snd] in *.
    assert (claimed = true) as ->.
    { destruct claimed; [reflexivity|]. exfalso. apply Hsent.
      unfold process_execution. rewrite Hc. cbn. exact Ho1. }
    inversion Hout as [run' He Ho Hp Hn|run' execution e' Hg He Hf Hs Ho Hp Hn
                       |run' execution acct client now oid Hg Ha Hact He Ho Hp Hn
                       |run' execution acct client now msg Hg Ha Hact He Ho Hp Hn];
      subst run'.
    + exfalso. apply Hsent. rewrite Ho. exact Ho1.
    + exfalso. apply Hsent. rewrite Ho. exact Ho1.
    + exfalso. rewrite Hcount in Hn. lia.
    + destruct (claim_in_world_claimed env is_retry i reason _ w1 execution Hpk Hc Hg)
        as [_ Hnull].
      exists now, execution, msg.
      split; [reflexivity|]. split; [exact Hg|]. split; [exact Hnull|].
      split; [|repeat split; exact Hnull].
      rewrite He. apply (query_get_commit_row _ _ execution); [exact Hg | reflexivity].
Qed.

(** An order refused by the broker: the claimed row is marked failed. *)
Lemma mark_exit_failed_effect_witness :
  exists now execution msg,
    fst (claim_in_world refusing_env false 1 "supertrend_breakout"
           breakout_world) = true
    /\ query_get
         (executions (snd (claim_in_world refusing_env false 1 "supertrend_breakout"
                             breakout_world))) 1 = Some execution
    /\ exit_order_id execution = None
    /\ query_get
         (executions (run_world
            (process_execution refusing_env (sample_strategy false "breakout")
               "supertrend_breakout" false (mkRun breakout_world ∅ 0) 1))) 1
       = Some (mark_exit_failed now execution msg true)
    /\ status (mark_exit_failed now execution msg true) = "exit_pending"
    /\ exit_order_id (mark_exit_failed now execution msg true) = None
    /\ exit_retry_after (mark_exit_failed now execution msg true)
       = Some (now + 10 * 1000000)
    /\ exit_broker_verified (mark_exit_failed now execution msg true) = false.
Proof.
  apply (proj2 mark_exit_failed_effect refusing_env (sample_strategy false "breakout")
           "supertrend_breakout" false (mkRun breakout_world ∅ 0) 1).
  - unfold pk_unique. refine (bool_decide_unpack _ _). vm_compute. exact I.
  - vm_compute. discriminate.
  - vm_compute. reflexivity.
Defined.

(** ** C8: the partition behind the processing order *)






(** Open legs BUY, SELL, SELL, all in upper case: the two SELL entries are
    closed first, by BUY orders, then the BUY entry by a SELL order. *)
Lemma three_legs_closed_in_order :
  placed <$> orders_sent
    (trigger_sequential_exit (signal_env bearish_bars) (sample_strategy false "breakout")
       "supertrend_breakout (Close: 80.00, ST: 114.50)" three_leg_world)
  = [("NIFTY24CE", "BUY"); ("NIFTY25CE", "BUY"); ("NIFTY24PE", "SELL")].
Proof. vm_compute. reflexivity. Qed.
